(** * Mudur: the boot and shutdown sequencer of Pisi Linux

    A shallow embedding of [bin/mudur.py] and [bin/mudur_cgroupfs.py] and
    the properties of their configuration resolver, file-system checks,
    shutdown unwinder and cgroup bootstrap.

    The program is a sequence of calls to the operating system.  The
    embedding keeps the Python control flow (a state-and-exception monad)
    and takes the answers of the operating system from an oracle [Env]:
    the [n]-th time a given call is made, the oracle says what it returns.
    Every call is appended to the trace of the [World], so the theorems can
    speak about what was run, how often and in which order. *)

From Stdlib Require Import ZArith Ascii String List Bool Lia Sorting.Sorted Permutation.
From stdpp Require Import base option list gmap strings fin_maps.

Local Open Scope string_scope.
Local Open Scope Z_scope.

(** ** Python byte strings *)

Module PyStr.

Definition LF : ascii := "010"%char.

(** The double quote character. *)
Definition DQUOTE : ascii := "034"%char.

(** [str.isspace] of a byte in the C locale, as used by [split()] and
    [strip()] without arguments. *)
Definition is_space (a : ascii) : bool :=
  let n := nat_of_ascii a in
  (Nat.eqb n 32 || (Nat.leb 9 n && Nat.leb n 13))%bool.

Definition cons_nonempty (tok : string) (rest : list string) : list string :=
  if String.eqb tok "" then rest else tok :: rest.

(** [s.split(c)] for a one-character separator. *)
Fixpoint split (c : ascii) (s : string) : list string :=
  match s with
  | EmptyString => [""]
  | String a s' =>
      if Ascii.eqb a c then "" :: split c s'
      else match split c s' with
           | [] => [String a ""]
           | h :: t => String a h :: t
           end
  end.

(** [s.split(c, 1)]: [None] when [c] does not occur (the result then has
    one element and cannot be unpacked into two names). *)
Fixpoint split1 (c : ascii) (s : string) : option (string * string) :=
  match s with
  | EmptyString => None
  | String a s' =>
      if Ascii.eqb a c then Some ("", s')
      else match split1 c s' with
           | Some (h, t) => Some (String a h, t)
           | None => None
           end
  end.

Fixpoint split_ws_aux (s : string) : string * list string :=
  match s with
  | EmptyString => ("", [])
  | String a s' =>
      let '(tok, rest) := split_ws_aux s' in
      if is_space a then ("", cons_nonempty tok rest)
      else (String a tok, rest)
  end.

(** [s.split()]: fields between runs of white space. *)
Definition split_ws (s : string) : list string :=
  let '(tok, rest) := split_ws_aux s in cons_nonempty tok rest.

Fixpoint readlines_aux (s : string) : string * list string :=
  match s with
  | EmptyString => ("", [])
  | String a s' =>
      let '(cur, rest) := readlines_aux s' in
      if Ascii.eqb a LF then (String a "", cons_nonempty cur rest)
      else (String a cur, rest)
  end.

(** [file.readlines()] on the content of the file: every line keeps its
    line feed. *)
Definition readlines (s : string) : list string :=
  let '(cur, rest) := readlines_aux s in cons_nonempty cur rest.

Definition startswith (p s : string) : bool := String.prefix p s.

(** [sub in s]. *)
Fixpoint contains (sub s : string) : bool :=
  (String.prefix sub s ||
   match s with
   | EmptyString => false
   | String _ s' => contains sub s'
   end)%bool.

Definition has_char (c : ascii) (s : string) : bool :=
  contains (String c "") s.

(** [s.find(sub)]: the first index, [-1] when there is none. *)
Fixpoint find (sub s : string) : Z :=
  if String.prefix sub s then 0
  else match s with
       | EmptyString => -1
       | String _ s' => let r := find sub s' in if r <? 0 then -1 else r + 1
       end.

Fixpoint lstrip_by (p : ascii -> bool) (s : string) : string :=
  match s with
  | EmptyString => ""
  | String a s' => if p a then lstrip_by p s' else s
  end.

Fixpoint rstrip_by (p : ascii -> bool) (s : string) : string :=
  match s with
  | EmptyString => ""
  | String a s' =>
      let r := rstrip_by p s' in
      if (String.eqb r "" && p a)%bool then "" else String a r
  end.

Definition strip_by (p : ascii -> bool) (s : string) : string :=
  rstrip_by p (lstrip_by p s).

(** [s.strip()] and [s.strip(c)] for a one-character argument. *)
Definition strip (s : string) : string := strip_by is_space s.
Definition strip_char (c : ascii) (s : string) : string :=
  strip_by (Ascii.eqb c) s.

(** [sep.join(l)]. *)
Definition join (sep : string) (l : list string) : string :=
  String.concat sep l.

(** Comparison of [str] objects: byte-wise, a proper prefix is smaller. *)
Definition ltb (a b : string) : bool := String.ltb a b.

End PyStr.

(** ** Values, exceptions and the calls the program makes *)

(** What an option of the configuration can hold: [None], a boolean or a
    byte string. *)
Inductive PyVal :=
| VNone
| VBool (b : bool)
| VStr (s : string).

#[global] Instance PyVal_eq_dec : EqDecision PyVal.
Proof. solve_decision. Defined.

(** Truth value of a Python object in a condition. *)
Definition truthy (v : PyVal) : bool :=
  match v with
  | VNone => false
  | VBool b => b
  | VStr s => negb (String.eqb s "")
  end.

(** [v == "s"] for a string literal. *)
Definition eq_str (v : PyVal) (s : string) : bool :=
  match v with
  | VStr t => String.eqb t s
  | _ => false
  end.

Inductive exn :=
| IOError
| OSError
| TypeError
| KeyError
| IndexError
| ValueError
| DBusException
| SystemExit (code : Z).

(** Where [subprocess.call] sends the output of the child: [run_full]
    leaves it alone, [run] drops the standard output, [run_quiet] both. *)
Inductive Redirect := Inherit | NoStdout | Quiet.

#[global] Instance Redirect_eq_dec : EqDecision Redirect.
Proof. solve_decision. Defined.

(** One interaction with the operating system. *)
Inductive Call :=
| Exec (r : Redirect) (argv : list string)   (* subprocess.call(argv) *)
| Capture (argv : list string)               (* Popen(argv).communicate() *)
| Popen (argv : list string)                 (* Popen(argv), not waited for *)
| System (cmd : string)                      (* os.system(cmd) *)
| Open (path : string)                       (* open(path, "r") and read *)
| Exists (path : string)                     (* os.path.exists *)
| IsFile (path : string)                     (* os.path.isfile *)
| IsDir (path : string)                      (* os.path.isdir *)
| Unlink (path : string)                     (* os.unlink *)
| Chdir (path : string)                      (* os.chdir *)
| CopyFile (src dst : string)                (* shutil.copy *)
| ListDir (path : string)                    (* os.listdir *)
| Sleep (secs : Z)                           (* time.sleep *)
| Stdout (text : string)                     (* print, sys.stdout.write *)
| SystemBus                                  (* dbus.SystemBus() *)
| ListServices                               (* listModelApplications *)
| BusClose                                   (* bus.close() *)
| Uname.                                     (* os.uname() *)

#[global] Instance Call_eq_dec : EqDecision Call.
Proof. solve_decision. Defined.

(** The answers of the operating system.  The number is the count of
    earlier calls equal to this one: [exit_status e c 0] is what the first
    call [c] returns, [exit_status e c 1] the second, and so on.  An exit
    status [None] is a command that does not come back (the machine
    rebooted under it). *)
Record Env := {
  exit_status : Call -> nat -> option Z;
  captured : list string -> nat -> string * string;
  file_data : string -> nat -> option string;
  path_test : Call -> nat -> bool;
  call_ok : Call -> nat -> bool;
  bus_services : nat -> option (list string);
  dir_entries : string -> nat -> option (list string);
  uname_release : string;
  log_stamp : nat -> string;
  ugettext : string -> string
}.

(** The [Config] object: the cached fstab, the kernel version and the
    option map. *)
Record Config := {
  fstab : option (list (list string));
  kernel : list string;
  options : gmap string PyVal
}.

(** The state of the process: the calls made so far and the global objects
    [CONFIG], [LOGGER] (its buffered lines) and [SPLASH] (its flags). *)
Record World := {
  trace : list Call;
  CONFIG : Config;
  LOGGER : list string;
  SPLASH_available : bool;
  SPLASH_running : bool
}.

Definition push (c : Call) (w : World) : World :=
  {| trace := trace w ++ [c]; CONFIG := CONFIG w; LOGGER := LOGGER w;
     SPLASH_available := SPLASH_available w;
     SPLASH_running := SPLASH_running w |}.

Definition set_CONFIG (c : Config) (w : World) : World :=
  {| trace := trace w; CONFIG := c; LOGGER := LOGGER w;
     SPLASH_available := SPLASH_available w;
     SPLASH_running := SPLASH_running w |}.

Definition set_LOGGER (l : list string) (w : World) : World :=
  {| trace := trace w; CONFIG := CONFIG w; LOGGER := l;
     SPLASH_available := SPLASH_available w;
     SPLASH_running := SPLASH_running w |}.

Definition set_running (b : bool) (w : World) : World :=
  {| trace := trace w; CONFIG := CONFIG w; LOGGER := LOGGER w;
     SPLASH_available := SPLASH_available w;
     SPLASH_running := b |}.

(** How often the call [c] occurs in a trace. *)
Fixpoint occ (c : Call) (t : list Call) : nat :=
  match t with
  | [] => 0%nat
  | e :: t' => ((if decide (e = c) then 1 else 0) + occ c t')%nat
  end.

(** ** The monad: state, exceptions and calls that do not return *)

Inductive Outcome (A : Type) :=
| Ok (a : A)
| Raise (e : exn)
| Halt.
Arguments Ok {A} a.
Arguments Raise {A} e.
Arguments Halt {A}.

Definition M (A : Type) : Type := World -> Outcome A * World.

Definition ret {A} (a : A) : M A := fun w => (Ok a, w).

Definition bind {A B} (m : M A) (k : A -> M B) : M B :=
  fun w =>
    match m w with
    | (Ok a, w') => k a w'
    | (Raise e, w') => (Raise e, w')
    | (Halt, w') => (Halt, w')
    end.

Definition raise {A} (e : exn) : M A := fun w => (Raise e, w).

(** [try: m except E: h], where [catch e] is the handler of the
    exceptions the clause names. *)
Definition try_except {A} (m : M A) (catch : exn -> option (M A)) : M A :=
  fun w =>
    match m w with
    | (Raise e, w') =>
        match catch e with
        | Some h => h w'
        | None => (Raise e, w')
        end
    | r => r
    end.

Declare Scope py_scope.
Delimit Scope py_scope with py.
Notation "x <- m ;; k" := (bind m (fun x => k))
  (at level 100, m at next level, right associativity) : py_scope.
Notation "m ;; k" := (bind m (fun _ => k))
  (at level 100, right associativity) : py_scope.
Local Open Scope py_scope.

(** [for x in l: body x]. *)
Fixpoint for_each {A} (l : list A) (body : A -> M unit) : M unit :=
  match l with
  | [] => ret tt
  | x :: l' => body x ;; for_each l' body
  end.

Definition when (b : bool) (m : M unit) : M unit :=
  if b then m else ret tt.

Definition get_world : M World := fun w => (Ok w, w).
Definition modify (f : World -> World) : M unit := fun w => (Ok tt, f w).

(** ** The primitives: one definition per kind of call *)

Section Program.

Variable env : Env.

(** The number of earlier calls equal to [c]. *)
Definition seen (c : Call) (w : World) : nat := occ c (trace w).

(** A command that is waited for: its exit status, or no return.  The
    commands are taken to be installed: the [OSError] that
    [subprocess.call] raises in the parent when the child cannot be
    executed is no outcome of this model. *)
Definition call_status (c : Call) : M Z :=
  fun w =>
    match exit_status env c (seen c w) with
    | Some z => (Ok z, push c w)
    | None => (Halt, push c w)
    end.

Definition call_test (c : Call) : M bool :=
  fun w => (Ok (path_test env c (seen c w)), push c w).

(** A system call that raises [e] when it fails. *)
Definition call_or_raise (c : Call) (e : exn) : M unit :=
  fun w =>
    if call_ok env c (seen c w) then (Ok tt, push c w)
    else (Raise e, push c w).

Definition emit (c : Call) : M unit := fun w => (Ok tt, push c w).

Definition os_path_exists (p : string) : M bool := call_test (Exists p).
Definition os_path_isfile (p : string) : M bool := call_test (IsFile p).
Definition os_path_isdir (p : string) : M bool := call_test (IsDir p).
Definition os_unlink (p : string) : M unit := call_or_raise (Unlink p) OSError.
Definition os_chdir (p : string) : M unit := call_or_raise (Chdir p) OSError.
Definition shutil_copy (s d : string) : M unit :=
  call_or_raise (CopyFile s d) IOError.
Definition os_system (cmd : string) : M Z := call_status (System cmd).
Definition time_sleep (secs : Z) : M unit := emit (Sleep secs).
Definition stdout_write (s : string) : M unit := emit (Stdout s).
Definition print (s : string) : M unit :=
  emit (Stdout (s +:+ String PyStr.LF "")).

(** [open(path, "r").read()]: the content, or [IOError]. *)
Definition open_read (p : string) : M string :=
  fun w =>
    match file_data env p (seen (Open p) w) with
    | Some d => (Ok d, push (Open p) w)
    | None => (Raise IOError, push (Open p) w)
    end.

(** *** Process spawning *)

Definition capture (cmd : list string) : M (string * string) :=
  fun w => (Ok (captured env cmd (seen (Capture cmd) w)), push (Capture cmd) w).

Definition run (cmd : list string) : M Z := call_status (Exec NoStdout cmd).
Definition run_full (cmd : list string) : M Z := call_status (Exec Inherit cmd).
Definition run_quiet (cmd : list string) : M Z := call_status (Exec Quiet cmd).

(** *** Convenience methods *)

(** The lines [load_file] keeps: [line and not line.startswith("#")]. *)
Definition kept_line (line : string) : bool :=
  (negb (String.eqb line "") && negb (PyStr.startswith "#" line))%bool.

Definition load_file (path : string) : M string :=
  try_except
    (data <- open_read path ;;
     ret (PyStr.join (String PyStr.LF "")
            (List.filter kept_line (PyStr.split PyStr.LF data))))
    (fun e => match e with IOError => Some (ret "") | _ => None end).

(** The lines [load_config] reads: ["=" in line and not
    line.startswith("#")]. *)
Definition config_line (line : string) : bool :=
  (PyStr.has_char "=" line && negb (PyStr.startswith "#" line))%bool.

Definition load_config_line (data : gmap string string) (line : string)
  : gmap string string :=
  match PyStr.split1 "=" line with
  | Some (key, value) =>
      let key := PyStr.strip key in
      let value := PyStr.strip value in
      <[key := PyStr.strip_char PyStr.DQUOTE (PyStr.strip_char "'" value)]> data
  | None => data
  end.

(** The dictionary [load_config] builds from the text of the file. *)
Definition config_of_text (text : string) : gmap string string :=
  fold_left load_config_line
    (List.filter config_line (PyStr.readlines text)) ∅.

Definition load_config (path : string) : M (gmap string string) :=
  text <- open_read path ;;
  ret (config_of_text text).

Definition kernel_option_arg (args : gmap string string) (arg : string)
  : gmap string string :=
  if PyStr.has_char ":" arg then
    match PyStr.split1 ":" arg with
    | Some (key, value) => <[key := value]> args
    | None => args
    end
  else <[arg := ""]> args.

Definition kernel_option_cmd (option : string) (args : gmap string string)
  (cmd : string) : gmap string string :=
  let '(optname, optargs) :=
    if PyStr.has_char "=" cmd then
      match PyStr.split1 "=" cmd with
      | Some p => p
      | None => (cmd, "")
      end
    else (cmd, "") in
  if String.eqb optname option then
    fold_left kernel_option_arg (PyStr.split "," optargs) args
  else args.

(** The dictionary [get_kernel_option] builds from the command line. *)
Definition kernel_args (option text : string) : gmap string string :=
  fold_left (kernel_option_cmd option) (PyStr.split_ws text) ∅.

Definition get_kernel_option (option : string) : M (gmap string string) :=
  try_except
    (text <- open_read "/proc/cmdline" ;;
     ret (kernel_args option text))
    (fun e => match e with IOError => Some (ret ∅) | _ => None end).

(** *** Language table *)

Record Language := {
  keymap : string;
  font : string;
  trans : string;
  locale : string
}.

Definition LANGUAGES : gmap string Language :=
  list_to_map
    [ ("ca",    Build_Language "es"        "iso01.16"  "8859-1" "ca_ES.UTF-8");
      ("de",    Build_Language "de"        "iso01.16"  "8859-1" "de_DE.UTF-8");
      ("en",    Build_Language "us"        "iso01.16"  "8859-1" "en_US.UTF-8");
      ("es",    Build_Language "es"        "iso01.16"  "8859-1" "es_ES.UTF-8");
      ("fr",    Build_Language "fr"        "iso01.16"  "8859-1" "fr_FR.UTF-8");
      ("hu",    Build_Language "hu"        "lat2a-16"  "8859-2" "hu_HU.UTF-8");
      ("it",    Build_Language "it"        "iso01.16"  "8859-1" "it_IT.UTF-8");
      ("nl",    Build_Language "nl"        "iso01.16"  "8859-1" "nl_NL.UTF-8");
      ("pl",    Build_Language "pl"        "iso02.16"  "8859-2" "pl_PL.UTF-8");
      ("pt_BR", Build_Language "br-abnt2"  "iso01.16"  "8859-1" "pt_BR.UTF-8");
      ("ru",    Build_Language "ru"        "Cyr_a8x16" "8859-5" "ru_RU.UTF-8");
      ("sv",    Build_Language "sv-latin1" "lat0-16"   "8859-1" "sv_SE.UTF-8");
      ("tr",    Build_Language "trq"       "lat5u-16"  "8859-9" "tr_TR.UTF-8") ].

(** [LANGUAGES[lang]] for an object [lang]: only a string can be a key. *)
Definition LANGUAGES_get (lang : PyVal) : option Language :=
  match lang with
  | VStr s => LANGUAGES !! s
  | _ => None
  end.

(** [str(v)], as in ["%s" % v]. *)
Definition py_str (v : PyVal) : string :=
  match v with
  | VNone => "None"
  | VBool true => "True"
  | VBool false => "False"
  | VStr s => s
  end.

(** *** Config class *)

Definition default_options : gmap string PyVal :=
  list_to_map
    [ ("language",     VStr "en");
      ("clock",        VStr "local");
      ("clock_adjust", VStr "no");
      ("tty_number",   VStr "6");
      ("lxc_guest",    VStr "no");
      ("keymap",       VNone);
      ("debug",        VBool true);
      ("live",         VBool false);
      ("safe",         VBool false);
      ("forcefsck",    VBool false);
      ("head_start",   VStr "");
      ("services",     VStr "") ].

Definition with_options (self : Config) (o : gmap string PyVal) : Config :=
  {| fstab := fstab self; kernel := kernel self; options := o |}.

Definition with_fstab (self : Config) (f : option (list (list string)))
  : Config :=
  {| fstab := f; kernel := kernel self; options := options self |}.

(** [self.options[key]], raising [KeyError]. *)
Definition options_item (self : Config) (key : string) : M PyVal :=
  match options self !! key with
  | Some v => ret v
  | None => raise KeyError
  end.

(** The keys the loop of [parse_kernel_options] goes over: [_k not in
    ("thin")].  The parentheses do not make a tuple, so this is the
    substring test on the string ["thin"]. *)
Definition kernel_key (k : string) : bool := negb (PyStr.contains k "thin").

(** [options[k] if options[k] else True]. *)
Definition kernel_value (v : string) : PyVal :=
  if String.eqb v "" then VBool true else VStr v.

(** [for k in [...]: self.options[k] = options[k] if options[k] else True]. *)
Definition apply_kernel_options (kopts : gmap string string)
  (o : gmap string PyVal) : gmap string PyVal :=
  foldr (fun kv acc => <[kv.1 := kernel_value kv.2]> acc) o
    (List.filter (fun kv => kernel_key kv.1) (map_to_list kopts)).

Definition parse_kernel_options (self : Config) : M Config :=
  kopts <- get_kernel_option "mudur" ;;
  live <- (if decide (is_Some (kopts !! "thin")) then ret true
           else os_path_exists "/run/pisilinux/livemedia") ;;
  let o := <["live" := VBool live]> (options self) in
  let o := apply_kernel_options kopts o in
  let self := with_options self o in
  lang <- options_item self "language" ;;
  lo <- (match LANGUAGES_get lang with
         | Some _ => ret (lang, o)
         | None =>
             print ("Unknown language option '" +:+ py_str lang +:+ "'") ;;
             ret (VStr "en", <["language" := VStr "en"]> o)
         end) ;;
  let '(lang, o) := lo in
  let self := with_options self o in
  km <- options_item self "keymap" ;;
  if negb (truthy km) then
    match LANGUAGES_get lang with
    | Some l => ret (with_options self (<["keymap" := VStr (keymap l)]> o))
    | None => raise KeyError
    end
  else ret self.

Definition replace_char (a b : ascii) (s : string) : string :=
  string_of_list_ascii
    (List.map (fun c => if Ascii.eqb c a then b else c) (list_ascii_of_string s)).

Definition Config_init : M Config :=
  emit Uname ;;
  let vers := replace_char "-" "." (replace_char "_" "." (uname_release env)) in
  let self := {| fstab := None; kernel := PyStr.split "." vers;
                 options := default_options |} in
  has_conf <- os_path_exists "/etc/conf.d/mudur" ;;
  self <- (if has_conf then
             conf <- load_config "/etc/conf.d/mudur" ;;
             ret (with_options self ((VStr <$> conf) ∪ options self))
           else ret self) ;;
  forced <- os_path_exists "/forcefsck" ;;
  let self := with_options self (<["forcefsck" := VBool forced]> (options self)) in
  parse_kernel_options self.

(** [CONFIG.get(key)]: an unknown key is reported, and [None] returned
    after three seconds. *)
Definition CONFIG_get (key : string) : M PyVal :=
  w <- get_world ;;
  try_except (options_item (CONFIG w) key)
    (fun e => match e with
              | KeyError =>
                  Some (print ("Unknown option '" +:+ key +:+ "' requested") ;;
                        time_sleep 3 ;;
                        ret VNone)
              | _ => None
              end).

Definition fstab_entry_matches (mountpoint : string) (entry : list string)
  : bool :=
  (negb (Nat.eqb (List.length entry) 0) && Nat.ltb 3 (List.length entry) &&
   match entry !! 1%nat with
   | Some mp => String.eqb mp mountpoint
   | None => false
   end)%bool.

Definition get_fstab_entry_with_mountpoint (mountpoint : string)
  : M (option (list string)) :=
  w <- get_world ;;
  table <- (match fstab (CONFIG w) with
            | Some (e :: t) => ret (e :: t)
            | _ =>
                text <- load_file "/etc/fstab" ;;
                let table := List.map PyStr.split_ws (PyStr.split PyStr.LF text) in
                modify (fun w => set_CONFIG (with_fstab (CONFIG w) (Some table)) w) ;;
                ret table
            end) ;;
  ret (List.find (fstab_entry_matches mountpoint) table).

(** *** Logger class *)

Definition ESC : ascii := "027"%char.

(** [re.sub("(\033.*?m)", "", msg)]: every escape character is removed
    together with what follows it up to the next [m], when there is one
    before the end of the line.  The first component is the result for the
    string, the second the result behind the first [m] of its line. *)
Fixpoint strip_color_aux (s : string) : string * option string :=
  match s with
  | EmptyString => ("", None)
  | String a s' =>
      let '(st, sk) := strip_color_aux s' in
      (if Ascii.eqb a ESC then
         match sk with
         | Some r => r
         | None => String a st
         end
       else String a st,
       if Ascii.eqb a "m" then Some st
       else if Ascii.eqb a PyStr.LF then None
       else sk)
  end.

Definition strip_color (s : string) : string := (strip_color_aux s).1.

(** [LOGGER.log(msg)]: the line is buffered; the time stamps in front of
    the message come from the clock. *)
Definition LOGGER_log (msg : string) : M unit :=
  modify (fun w =>
    set_LOGGER (LOGGER w ++ [log_stamp env (List.length (LOGGER w)) +:+ " " +:+
                             strip_color msg +:+ String PyStr.LF ""]) w).

Definition LOGGER_debug (msg : string) : M unit :=
  d <- CONFIG_get "debug" ;;
  when (truthy d) (LOGGER_log msg).

(** *** Plymouth class *)

Definition SPLASH_client : string := "/bin/plymouth".
Definition SPLASH_daemon : string := "/sbin/plymouthd".

Definition SPLASH_send_cmd (cmd : list string) : M unit :=
  w <- get_world ;;
  if SPLASH_running w then _ <- run_quiet (SPLASH_client :: cmd) ;; ret tt
  else ret tt.

Definition SPLASH_start_daemon : M unit :=
  w <- get_world ;;
  if SPLASH_available w then
    st <- run_quiet [SPLASH_daemon; "--mode=shutdown"] ;;
    modify (set_running (st =? 0))
  else ret tt.

Definition SPLASH_show_splash : M unit := SPLASH_send_cmd ["show-splash"].
Definition SPLASH_hide_splash : M unit := SPLASH_send_cmd ["hide-splash"].
Definition SPLASH_report_error : M unit := SPLASH_send_cmd ["report-error"].
Definition SPLASH_update (milestone : string) : M unit :=
  SPLASH_send_cmd ["update"; "--status=" +:+ milestone].
Definition SPLASH_rootfs_is_now_rw : M unit :=
  SPLASH_send_cmd ["update-root-fs"; "--read-write"].
Definition SPLASH_quit (retain_splash : bool) : M unit :=
  SPLASH_send_cmd ["quit"; if retain_splash then "--retain-splash" else ""].

(** *** Ui class *)

Definition color_red : string := String ESC "[31;01m".
Definition color_green : string := String ESC "[32;01m".
Definition color_yellow : string := String ESC "[33;01m".
Definition color_normal : string := String ESC "[0m".

Definition colored (color msg : string) : string :=
  " " +:+ color +:+ "*" +:+ color_normal +:+ " " +:+ msg +:+ String PyStr.LF "".

Definition UI_info (msg : string) : M unit :=
  d <- CONFIG_get "debug" ;;
  when (truthy d) (LOGGER_log msg) ;;
  stdout_write (colored color_green msg).

Definition UI_warn (msg : string) : M unit :=
  LOGGER_log msg ;;
  stdout_write (colored color_yellow msg).

Definition UI_error (msg : string) : M unit :=
  SPLASH_report_error ;;
  LOGGER_log msg ;;
  stdout_write (colored color_red msg).

(** The translation [_] of a message. *)
Definition tr (msg : string) : string := ugettext env msg.

(** *** String formatting *)

(** [repr] of a byte string: single quotes, unless the string holds a
    single quote and no double quote; the quote and the backslash are
    escaped, and so are the bytes that do not print. *)
Definition hex_digit (n : nat) : ascii :=
  if Nat.ltb n 10 then ascii_of_nat (48 + n) else ascii_of_nat (87 + n).

Definition repr_char (quote a : ascii) : string :=
  let n := nat_of_ascii a in
  if (Ascii.eqb a quote || Ascii.eqb a "\")%bool then String "\" (String a "")
  else if Nat.eqb n 9 then "\t"
  else if Nat.eqb n 10 then "\n"
  else if Nat.eqb n 13 then "\r"
  else if (Nat.ltb n 32 || Nat.leb 127 n)%bool then
    String "\" (String "x" (String (hex_digit (n / 16)) (String (hex_digit (n mod 16)) "")))
  else String a "".

Definition py_repr (s : string) : string :=
  let quote : ascii :=
    if (PyStr.has_char "'" s && negb (PyStr.has_char PyStr.DQUOTE s))%bool
    then PyStr.DQUOTE else "'"%char in
  String quote
    (String.concat "" (List.map (repr_char quote) (list_ascii_of_string s)) +:+
     String quote "").

(** [fmt % arg] for one byte string [arg], read character by character
    as [PyString_Format] reads it: a conversion is [%], then flags, a
    width, a precision, a length modifier and a letter.  A mapping key
    and a [*] ask for other arguments than one string ([TypeError]), and
    so do the numeric letters; a format that ends within a conversion and
    a letter that is no conversion give [ValueError]; the argument has to
    be used exactly once ([TypeError] otherwise). *)
Definition digit_of (a : ascii) : option nat :=
  let n := nat_of_ascii a in
  if (Nat.leb 48 n && Nat.leb n 57)%bool then Some (n - 48)%nat else None.

Definition is_flag (a : ascii) : bool :=
  existsb (Ascii.eqb a) ["-"%char; "+"%char; " "%char; "#"%char; "0"%char].

Fixpoint spaces (n : nat) : string :=
  match n with
  | O => ""
  | S n' => String " " (spaces n')
  end.

(** The field of a conversion: filled with blanks up to the width, on the
    left unless the flag [-] is given. *)
Definition pad (ljust : bool) (width : nat) (s : string) : string :=
  let fill := spaces (width - String.length s) in
  if ljust then s +:+ fill else fill +:+ s.

Definition truncate (prec : option nat) (s : string) : string :=
  match prec with
  | Some n => String.substring 0 n s
  | None => s
  end.

(** Where the reader is: in the text, or within a conversion (after the
    [%], in the flags, in the width, after the dot, in the precision,
    before the letter). *)
Inductive fmt_state :=
| FText
| FStart
| FFlags (ljust : bool)
| FWidth (ljust : bool) (width : nat)
| FDot (ljust : bool) (width : nat)
| FPrec (ljust : bool) (width prec : nat)
| FConv (ljust : bool) (width : nat) (prec : option nat).

(** One character read: the next state, what is written, and the
    argument when it is still to be used; or the error. *)
Inductive fmt_step :=
| FNext (st : fmt_state) (piece : string) (arg : option string)
| FFail (e : exn).

Definition fmt_conv (ljust : bool) (width : nat) (prec : option nat)
  (a : ascii) (arg : option string) : fmt_step :=
  if Ascii.eqb a "%" then FNext FText (pad ljust width "%") arg
  else
    match arg with
    | None => FFail TypeError
    | Some s =>
        if Ascii.eqb a "s" then FNext FText (pad ljust width (truncate prec s)) None
        else if Ascii.eqb a "r" then
          FNext FText (pad ljust width (truncate prec (py_repr s))) None
        else if Ascii.eqb a "c" then
          if Nat.eqb (String.length s) 1 then FNext FText (pad ljust width s) None
          else FFail TypeError
        else if existsb (Ascii.eqb a)
                  ["d"%char; "i"%char; "u"%char; "o"%char; "x"%char; "X"%char;
                   "e"%char; "E"%char; "f"%char; "F"%char; "g"%char; "G"%char]
        then FFail TypeError
        else FFail ValueError
    end.

Definition fmt_modifier (ljust : bool) (width : nat) (prec : option nat)
  (a : ascii) (arg : option string) : fmt_step :=
  if existsb (Ascii.eqb a) ["h"%char; "l"%char; "L"%char]
  then FNext (FConv ljust width prec) "" arg
  else fmt_conv ljust width prec a arg.

Definition fmt_after_width (ljust : bool) (width : nat)
  (a : ascii) (arg : option string) : fmt_step :=
  if Ascii.eqb a "." then FNext (FDot ljust width) "" arg
  else fmt_modifier ljust width None a arg.

Definition fmt_flags (ljust : bool) (a : ascii) (arg : option string) : fmt_step :=
  if is_flag a then FNext (FFlags (ljust || Ascii.eqb a "-")) "" arg
  else if Ascii.eqb a "*" then FFail TypeError
  else
    match digit_of a with
    | Some d => FNext (FWidth ljust d) "" arg
    | None => fmt_after_width ljust 0 a arg
    end.

Definition fmt_read (st : fmt_state) (a : ascii) (arg : option string) : fmt_step :=
  match st with
  | FText =>
      if Ascii.eqb a "%" then FNext FStart "" arg else FNext FText (String a "") arg
  | FStart =>
      if Ascii.eqb a "(" then FFail TypeError else fmt_flags false a arg
  | FFlags ljust => fmt_flags ljust a arg
  | FWidth ljust width =>
      match digit_of a with
      | Some d => FNext (FWidth ljust (10 * width + d)) "" arg
      | None => fmt_after_width ljust width a arg
      end
  | FDot ljust width =>
      if Ascii.eqb a "*" then FFail TypeError
      else
        match digit_of a with
        | Some d => FNext (FPrec ljust width d) "" arg
        | None => fmt_modifier ljust width (Some 0%nat) a arg
        end
  | FPrec ljust width prec =>
      match digit_of a with
      | Some d => FNext (FPrec ljust width (10 * prec + d)) "" arg
      | None => fmt_modifier ljust width (Some prec) a arg
      end
  | FConv ljust width prec => fmt_conv ljust width prec a arg
  end.

Fixpoint py_format_from (st : fmt_state) (arg : option string) (fmt : string)
  : exn + string :=
  match fmt with
  | EmptyString =>
      match st, arg with
      | FText, None => inr ""
      | FText, Some _ => inl TypeError
      | _, _ => inl ValueError
      end
  | String a fmt' =>
      match fmt_read st a arg with
      | FFail e => inl e
      | FNext st' piece arg' =>
          match py_format_from st' arg' fmt' with
          | inr rest => inr (piece +:+ rest)
          | inl e => inl e
          end
      end
  end.

Definition py_format (fmt arg : string) : exn + string :=
  py_format_from FText (Some arg) fmt.

Definition format_s (fmt arg : string) : M string :=
  match py_format fmt arg with
  | inr s => ret s
  | inl e => raise e
  end.

(** *** Decorators *)

Definition skip_for_lxc_guests (function : M unit) : M unit :=
  g <- CONFIG_get "lxc_guest" ;;
  if eq_str g "no" then function else ret tt.

Definition plymouth_update_milestone (name : string) (function : M unit)
  : M unit :=
  function ;;
  SPLASH_update name.

(** *** Service management *)

(** [subprocess.Popen] does not wait for the child; it raises [OSError]
    when the child cannot be executed. *)
Definition manage_service (service command : string) : M unit :=
  let cmd := ["/bin/service"; "--quiet"; service; command] in
  LOGGER_debug (command +:+ " service " +:+ service +:+ "..") ;;
  call_or_raise (Popen cmd) OSError ;;
  LOGGER_debug (command +:+ " service " +:+ service +:+ "..done") ;;
  SPLASH_update service.

Definition os_listdir (p : string) : M (list string) :=
  fun w =>
    match dir_entries env p (seen (ListDir p) w) with
    | Some l => (Ok l, push (ListDir p) w)
    | None => (Raise OSError, push (ListDir p) w)
    end.

Definition listModelApplications : M (list string) :=
  fun w =>
    match bus_services env (seen ListServices w) with
    | Some l => (Ok l, push ListServices w)
    | None => (Raise DBusException, push ListServices w)
    end.

Definition get_service_list (_all : bool) : M (list string) :=
  services <- listModelApplications ;;
  if _all then ret services
  else
    enabled <- os_listdir "/etc/mudur/services/enabled" ;;
    conditional <- os_listdir "/etc/mudur/services/conditional" ;;
    let s : gset string :=
      (list_to_set enabled ∪ list_to_set conditional) ∩ list_to_set services in
    ret (elements s).

Definition dbus_SystemBus : M unit := call_or_raise SystemBus DBusException.

Definition stop_services : M unit :=
  plymouth_update_milestone "stop_services"
    (UI_info (tr "Stopping services") ;;
     connected <- try_except
       (dbus_SystemBus ;;
        ret true)
       (fun e => match e with DBusException => Some (ret false) | _ => None end) ;;
     if connected : bool then
       services <- get_service_list true ;;
       for_each services (fun service => manage_service service "stop") ;;
       emit BusClose
     else ret tt).

Definition stop_dbus : M unit :=
  plymouth_update_milestone "stop_dbus"
    (msg <- format_s (tr "Stopping %s") "DBus" ;;
     UI_info msg ;;
     _ <- run ["/sbin/start-stop-daemon"; "--stop"; "--quiet";
               "--pidfile"; "/run/dbus/pid"] ;;
     ret tt).

Definition stop_udev : M unit :=
  skip_for_lxc_guests
    (plymouth_update_milestone "stop_udev"
       (_ <- run ["/sbin/start-stop-daemon"; "--stop"; "--exec"; "/sbin/udevd"] ;;
        ret tt)).

(** *** File system checks *)

(** [while i < 4: ...; i += 1], from [i = 0]. *)
Fixpoint times (n : nat) (body : M unit) : M unit :=
  match n with
  | O => ret tt
  | S n' => body ;; times n' body
  end.

Definition BEL : ascii := "007"%char.

(** [len(entry) > 5 and entry[5] != "0"]. *)
Definition passno_set (entry : list string) : bool :=
  (Nat.ltb 5 (List.length entry) &&
   match entry !! 5%nat with
   | Some p => negb (String.eqb p "0")
   | None => false
   end)%bool.

Definition check_root_filesystem : M unit :=
  skip_for_lxc_guests
    (plymouth_update_milestone "check_root_filesystem"
       (live <- CONFIG_get "live" ;;
        when (negb (truthy live))
          (entry <- get_fstab_entry_with_mountpoint "/" ;;
           match entry with
           | None =>
               UI_warn (tr "/etc/fstab doesn't contain an entry for the root filesystem")
           | Some entry =>
               forced <- CONFIG_get "forcefsck" ;;
               if (truthy forced || passno_set entry)%bool then
                 UI_info (tr "Remounting root filesystem read-only") ;;
                 _ <- run_quiet ["/bin/mount"; "-n"; "-o"; "remount,ro"; "/"] ;;
                 forced <- CONFIG_get "forcefsck" ;;
                 rc <- (if truthy forced then
                          SPLASH_hide_splash ;;
                          UI_info (tr "Checking root filesystem (full check forced)") ;;
                          run_full ["/sbin/fsck"; "-C"; "-y"; "-f"; "/"]
                        else
                          UI_info (tr "Checking root filesystem") ;;
                          run_full ["/sbin/fsck"; "-C"; "-T"; "-a"; "/"]) ;;
                 if rc =? 0 then ret tt
                 else if ((rc =? 2) || (rc =? 3))%bool then
                   SPLASH_hide_splash ;;
                   UI_warn (tr "Filesystem repaired, but reboot needed!") ;;
                   times 4 (print (String BEL "") ;; time_sleep 1) ;;
                   UI_warn (tr "Rebooting in 10 seconds...") ;;
                   time_sleep 10 ;;
                   UI_warn (tr "Rebooting...") ;;
                   _ <- run ["/sbin/reboot"; "-f"] ;;
                   ret tt
                 else
                   UI_error (tr "Filesystem could not be repaired") ;;
                   _ <- run_full ["/sbin/sulogin"] ;;
                   ret tt
               else
                 UI_info (tr "Skipping root filesystem check (fstab's passno == 0)")
           end))).

Definition check_filesystems : M unit :=
  skip_for_lxc_guests
    (plymouth_update_milestone "check_filesystems"
       (live <- CONFIG_get "live" ;;
        when (negb (truthy live))
          (UI_info (tr "Checking all filesystems") ;;
           forced <- CONFIG_get "forcefsck" ;;
           rc <- (if truthy forced then
                    SPLASH_hide_splash ;;
                    UI_info (tr "A full fsck has been forced") ;;
                    rc <- run_full ["/sbin/fsck"; "-C"; "-R"; "-A"; "-a"; "-f"] ;;
                    there <- os_path_exists "/forcefsck" ;;
                    when there (os_unlink "/forcefsck") ;;
                    ret rc
                  else
                    run_full ["/sbin/fsck"; "-C"; "-T"; "-R"; "-A"; "-a"]) ;;
           if rc =? 0 then ret tt
           else if ((2 <=? rc) && (rc <=? 3))%bool then
             UI_warn (tr "Filesystem errors corrected")
           else
             UI_error (tr "Fsck could not correct all errors, manual repair needed") ;;
             _ <- run_full ["/sbin/sulogin"] ;;
             ret tt))).

(** *** Swap and clock *)

Definition disable_swap : M unit :=
  skip_for_lxc_guests
    (plymouth_update_milestone "disable_swap"
       (_ <- run_quiet ["/bin/umount"; "-at"; "tmpfs"] ;;
        UI_info (tr "Deactivating swap space") ;;
        _ <- run_quiet ["/sbin/swapoff"; "-a"] ;;
        ret tt)).

Definition save_clock : M unit :=
  skip_for_lxc_guests
    (plymouth_update_milestone "save_clock"
       (live <- CONFIG_get "live" ;;
        when (negb (truthy live))
          (clock <- CONFIG_get "clock" ;;
           let opts := if negb (eq_str clock "UTC") then "--localtime" else "--utc" in
           UI_info (tr "Syncing system clock to hardware clock") ;;
           out <- capture ["/sbin/hwclock"; "--systohc"; opts] ;;
           when (negb (String.eqb out.2 ""))
             (UI_error (tr "Failed to synchronize clocks"))))).

(** *** Stopping the system *)

(** [fields[1]]. *)
Definition item1 (fields : list string) : M string :=
  match fields !! 1%nat with
  | Some s => ret s
  | None => raise IndexError
  end.

Definition key1 (fields : list string) : string :=
  match fields !! 1%nat with
  | Some s => s
  | None => ""
  end.

(** [entries.sort(key=lambda x: x[1], reverse=True)]: the sort is stable,
    also in reverse: entries with the same key keep their order. *)
Fixpoint insert_desc (x : list string) (l : list (list string))
  : list (list string) :=
  match l with
  | [] => [x]
  | y :: l' =>
      if PyStr.ltb (key1 x) (key1 y) then y :: insert_desc x l'
      else x :: l
  end.

Definition sort_desc (l : list (list string)) : list (list string) :=
  foldr insert_desc [] l.

(** The API file systems [get_fs_entries] leaves alone. *)
Definition vfs : list string :=
  ["proc"; "devpts"; "sysfs"; "devtmpfs"; "squashfs";
   "tmpfs"; "rootfs"; "debugfs"; "cgroup"; "configfs"].

Definition fs_entry (fields : list string) : bool :=
  (Nat.ltb 2 (List.length fields) &&
   match fields !! 2%nat with
   | Some t => negb (bool_decide (t ∈ vfs))
   | None => false
   end &&
   match fields !! 0%nat with
   | Some d => negb (String.eqb d "none")
   | None => false
   end &&
   match fields !! 1%nat with
   | Some m => negb (String.eqb m "/")
   | None => false
   end)%bool.

Definition get_fs_entries : M (list (list string)) :=
  text <- load_file "/proc/mounts" ;;
  let entries :=
    List.filter fs_entry (List.map PyStr.split_ws (PyStr.split PyStr.LF text)) in
  ret (sort_desc entries).

Definition rootfs_entry (fields : list string) : bool :=
  (Nat.ltb 2 (List.length fields) &&
   match fields !! 0%nat with
   | Some d => negb (String.eqb d "rootfs")
   | None => false
   end &&
   match fields !! 1%nat with
   | Some m => String.eqb m "/"
   | None => false
   end)%bool.

Definition remount_ro (force : bool) : M Z :=
  text <- load_file "/proc/mounts" ;;
  let rootfs :=
    List.find rootfs_entry (List.map PyStr.split_ws (PyStr.split PyStr.LF text)) in
  SPLASH_update "remount_ro" ;;
  SPLASH_quit true ;;
  root <- (match rootfs with
           | Some fields => item1 fields
           | None => raise TypeError
           end) ;;
  rc <- (if force then run_quiet ["/bin/umount"; "-n"; "-r"; root]
         else run_quiet ["/bin/mount"; "-n"; "-o"; "remount,ro"; root]) ;;
  let rc := 0 + rc in
  (if negb (rc =? 0) then _ <- run_quiet ["/sbin/killall5"; "-9"] ;; ret tt
   else ret tt) ;;
  ret rc.

(** The body of the loop over [get_fs_entries()]. *)
Definition unmount_entry (dev : list string) : M unit :=
  mp <- item1 dev ;;
  rc <- run_quiet ["/bin/umount"; mp] ;;
  if negb (rc =? 0) then
    _ <- run_quiet ["/bin/fuser"; "-k"; "-9"; "-m"; mp] ;;
    time_sleep 1 ;;
    _ <- run_quiet ["/bin/umount"; "-f"; "-r"; mp] ;;
    ret tt
  else ret tt.

(** [if remount_ro(): if remount_ro(): remount_ro(True)]. *)
Definition remount_ladder : M unit :=
  r1 <- remount_ro false ;;
  if negb (r1 =? 0) then
    r2 <- remount_ro false ;;
    if negb (r2 =? 0) then
      _ <- remount_ro true ;;
      ret tt
    else ret tt
  else ret tt.

(** The part of [stop_system] under [if CONFIG.get("lxc_guest") != "yes"]. *)
Definition unmount_filesystems : M unit :=
  SPLASH_update "unmount_filesystems" ;;
  UI_info (tr "Unmounting filesystems") ;;
  entries <- get_fs_entries ;;
  for_each entries unmount_entry ;;
  UI_info (tr "Remounting remaining filesystems read-only") ;;
  shutil_copy "/proc/mounts" "/etc/mtab" ;;
  remount_ladder.

(** The part of [stop_system] under the comment [# Stopping system], with
    the reboot record that follows it. *)
Definition stopping_system : M unit :=
  stop_services ;;
  stop_dbus ;;
  stop_udev ;;
  save_clock ;;
  disable_swap ;;
  _ <- run ["/sbin/halt"; "-w"] ;;
  ret tt.

Definition stop_system : M unit :=
  stopping_system ;;
  g <- CONFIG_get "lxc_guest" ;;
  if negb (eq_str g "yes") then unmount_filesystems
  else ret tt.

(** ** mudur_cgroupfs.py *)

Definition mountpoint (path : string) : M bool :=
  status <- os_system ("mountpoint -q " +:+ path) ;;
  if status =? 0 then ret true else ret false.

Record Controller := {
  subsysname : string;
  hierarchy : Z;
  num_cgroups : Z;
  enabled : Z
}.

(** [Controller.mount]: [True] or [False] after a mount command, [None]
    when nothing was run. *)
Definition Controller_mount (self : Controller) : M (option bool) :=
  if enabled self =? 1 then
    os_chdir "/sys/fs/cgroup" ;;
    mounted <- mountpoint (subsysname self) ;;
    if negb mounted then
      let s := subsysname self in
      status <- os_system ("mkdir -p " +:+ s +:+ "; mount -n -t cgroup -o " +:+
                           s +:+ " cgroup " +:+ s) ;;
      if status =? 0 then ret (Some true) else ret (Some false)
    else ret None
  else ret None.

Definition digit_value (a : ascii) : option Z :=
  let n := nat_of_ascii a in
  if (Nat.leb 48 n && Nat.leb n 57)%bool then Some (Z.of_nat (n - 48)) else None.

Fixpoint digits_value (acc : Z) (s : string) : option Z :=
  match s with
  | EmptyString => Some acc
  | String a s' =>
      match digit_value a with
      | Some d => digits_value (10 * acc + d) s'
      | None => None
      end
  end.

(** [int(s)] in base ten: white space around, a sign, then digits. *)
Definition py_int (s : string) : M Z :=
  let body := PyStr.strip s in
  let '(sign, ds) :=
    match body with
    | String "-" r => (-1, r)
    | String "+" r => (1, r)
    | _ => (1, body)
    end in
  match ds with
  | EmptyString => raise ValueError
  | _ => match digits_value 0 ds with
         | Some n => ret (sign * n)
         | None => raise ValueError
         end
  end.

(** [line[0] == c], raising [IndexError] on the empty string. *)
Definition first_char_is (c : ascii) (line : string) : M bool :=
  match line with
  | EmptyString => raise IndexError
  | String a _ => ret (Ascii.eqb a c)
  end.

(** [Cgroupfs.check_fstab]: [line.find("cgroup")] is used as a condition,
    so a line counts when the index is not [0]. *)
Definition Cgroupfs_check_fstab : M bool :=
  text <- open_read "/etc/fstab" ;;
  fold_left
    (fun acc line =>
       found <- acc ;;
       comment <- first_char_is "#" line ;;
       if comment then ret found
       else if negb (PyStr.find "cgroup" line =? 0) then ret true
       else ret found)
    (PyStr.readlines text) (ret false).

Definition Cgroupfs_kernel_support : M bool := os_path_isfile "/proc/cgroups".

Definition Cgroupfs_check_sysfs : M bool := os_path_isdir "/sys/fs/cgroup".

Definition Cgroupfs_mount_cgroup : M (option Z) :=
  mounted <- mountpoint "/sys/fs/cgroup" ;;
  if negb mounted then
    status <- os_system " mount -t tmpfs -o uid=0,gid=0,mode=0755 cgroup /sys/fs/cgroup" ;;
    ret (Some status)
  else ret None.

Definition find_controllers_line (controllers : gmap string Controller)
  (line : string) : M (gmap string Controller) :=
  let line := PyStr.strip line in
  comment <- first_char_is "#" line ;;
  if comment then ret controllers
  else
    match PyStr.split_ws line with
    | [name; hier; num; enab] =>
        enb <- py_int enab ;;
        hie <- py_int hier ;;
        numc <- py_int num ;;
        ret (<[name := Build_Controller name hie numc enb]> controllers)
    | _ => raise ValueError
    end.

Definition Cgroupfs_find_controllers (controllers : gmap string Controller)
  : M (gmap string Controller) :=
  text <- open_read "/proc/cgroups" ;;
  fold_left (fun acc line => c <- acc ;; find_controllers_line c line)
    (PyStr.readlines text) (ret controllers).

(** [for cname, c in self.controllers.items(): c.mount()]. *)
Definition mount_controllers (items : list (string * Controller)) : M unit :=
  for_each items (fun kv => _ <- Controller_mount kv.2 ;; ret tt).

(** The two kinds of object compared in [Cgroupfs.__init__]: a boolean and
    a bound method.  [==] between a method object and a boolean is false:
    the method is not called by the comparison. *)
Inductive PyObj :=
| OBool (b : bool)
| OMethod (name : string).

Definition obj_eq (a b : PyObj) : bool :=
  match a, b with
  | OBool x, OBool y => Bool.eqb x y
  | OMethod x, OMethod y => String.eqb x y
  | _, _ => false
  end.

(** [Cgroupfs.__init__]; the result is [self.controllers].  The dictionary
    is walked in the order of [map_to_list]; Python fixes no order. *)
Definition Cgroupfs_init : M (gmap string Controller) :=
  let controllers : gmap string Controller := ∅ in
  (if obj_eq (OMethod "check_fstab") (OBool true) then
     print "cgroupfs in fstab, exiting." ;;
     raise (SystemExit (-1))
   else ret tt) ;;
  ks <- Cgroupfs_kernel_support ;;
  (if obj_eq (OBool ks) (OBool false) then
     print "No kernel support for cgroupfs, exiting." ;;
     raise (SystemExit (-2))
   else ret tt) ;;
  cs <- Cgroupfs_check_sysfs ;;
  (if obj_eq (OBool cs) (OBool false) then
     print "/sys/fs/cgroups directory not found, exiting" ;;
     raise (SystemExit (-3))
   else ret tt) ;;
  _ <- Cgroupfs_mount_cgroup ;;
  controllers <- Cgroupfs_find_controllers controllers ;;
  mount_controllers (map_to_list controllers) ;;
  ret controllers.

End Program.

(** ** Vocabulary of the statements *)

(** The characters of [s] are all different from [c]. *)
Fixpoint free_of (c : ascii) (s : string) : bool :=
  match s with
  | EmptyString => true
  | String a s' => (negb (Ascii.eqb a c) && free_of c s')%bool
  end.

(** What the configuration is resolved from, seen from the world in which
    [Config()] starts: whether the configuration file exists and what it
    defines ([None]: it exists and cannot be read), the fragments of the
    [mudur=] option of the kernel command line, and whether the sentinel
    file is there. *)
Definition config_file (env : Env) (w : World) : option (gmap string string) :=
  if path_test env (Exists "/etc/conf.d/mudur") (seen (Exists "/etc/conf.d/mudur") w)
  then option_map config_of_text
         (file_data env "/etc/conf.d/mudur" (seen (Open "/etc/conf.d/mudur") w))
  else Some ∅.

Definition kernel_cmdline (env : Env) (w : World) : gmap string string :=
  match file_data env "/proc/cmdline" (seen (Open "/proc/cmdline") w) with
  | Some text => kernel_args "mudur" text
  | None => ∅
  end.

Definition sentinel (env : Env) (w : World) : bool :=
  path_test env (Exists "/forcefsck") (seen (Exists "/forcefsck") w).

(** The precedence rule in the words of the specification: the fragment of
    the kernel command line, else the value of the configuration file,
    else the built-in default; a fragment without a value is [True]. *)
Definition precedence (kopts conf : gmap string string) (k : string)
  : option PyVal :=
  match kopts !! k with
  | Some v => Some (kernel_value v)
  | None =>
      match conf !! k with
      | Some v => Some (VStr v)
      | None => default_options !! k
      end
  end.

(** Whether [parse_kernel_options] finds the system live: the [thin]
    fragment, or else the marker file. *)
Definition live_flag (env : Env) (w : World) : bool :=
  if decide (is_Some (kernel_cmdline env w !! "thin")) then true
  else path_test env (Exists "/run/pisilinux/livemedia")
         (seen (Exists "/run/pisilinux/livemedia") w).

(** The two normalisations at the end of [parse_kernel_options], on the
    option map alone. *)
Definition normalize (o : gmap string PyVal) : gmap string PyVal :=
  let lang := default VNone (o !! "language") in
  let lo := match LANGUAGES_get lang with
            | Some _ => (lang, o)
            | None => (VStr "en", <["language" := VStr "en"]> o)
            end in
  if truthy (default VNone (lo.2 !! "keymap")) then lo.2
  else match LANGUAGES_get lo.1 with
       | Some l => <["keymap" := VStr (keymap l)]> lo.2
       | None => lo.2
       end.

(** The option map before the kernel command line is applied. *)
Definition file_options (env : Env) (w : World) (conf : gmap string string)
  : gmap string PyVal :=
  <["forcefsck" := VBool (sentinel env w)]> ((VStr <$> conf) ∪ default_options).


(** The claim about the sentinel, for one run of [Config()]: the resolved
    [forcefsck] is true exactly when the sentinel file exists. *)
Definition forcefsck_iff_sentinel (env : Env) (w : World) : Prop :=
  forall cfg w',
    Config_init env w = (Ok cfg, w') ->
    exists v, options cfg !! "forcefsck" = Some v /\
              (truthy v = true <-> sentinel env w = true).

(** ** Simulated systems *)

Definition lookup_file (files : list (string * string)) (p : string)
  : option string :=
  option_map snd (List.find (fun kv => String.eqb kv.1 p) files).

(** A system with the given readable files, the given existing paths and
    the given exit statuses; everything else succeeds silently. *)
Definition sim_env (files : list (string * string)) (present : list string)
  (status : Call -> nat -> option Z) : Env :=
  {| exit_status := status;
     captured := fun _ _ => ("", "");
     file_data := fun p _ => lookup_file files p;
     path_test := fun c _ =>
       match c with
       | Exists p | IsFile p | IsDir p => bool_decide (p ∈ present)
       | _ => false
       end;
     call_ok := fun _ _ => true;
     bus_services := fun _ => Some [];
     dir_entries := fun _ _ => Some [];
     uname_release := "4.4.0";
     log_stamp := fun _ => "[0.000] Jan 01 00:00:00";
     ugettext := fun msg => msg |}.

Definition all_succeed : Call -> nat -> option Z := fun _ _ => Some 0.

Definition lines (l : list string) : string :=
  String.concat "" (List.map (fun s => s +:+ String PyStr.LF "") l).

(** The process before [Config()] has run. *)
Definition fresh_world : World :=
  {| trace := [];
     CONFIG := {| fstab := None; kernel := []; options := default_options |};
     LOGGER := [String PyStr.LF ""];
     SPLASH_available := false;
     SPLASH_running := false |}.


(** [forcefsck] on the kernel command line, no sentinel file. *)
Definition env_forcefsck_in_cmdline : Env :=
  sim_env [("/proc/cmdline", lines ["root=/dev/sda1 mudur=forcefsck quiet"])]
    [] all_succeed.

(** A configuration file and kernel options. *)
Definition env_configured : Env :=
  sim_env [("/etc/conf.d/mudur", lines ["# mudur"; "clock = 'UTC'"; "language=xx"; "tty_number=4"]);
           ("/proc/cmdline", lines ["root=/dev/sda1 mudur=safe,tty_number:2 quiet"])]
    ["/etc/conf.d/mudur"; "/forcefsck"] all_succeed.

Definition conf_configured : gmap string string :=
  config_of_text (lines ["# mudur"; "clock = 'UTC'"; "language=xx"; "tty_number=4"]).

(** [LANGUAGES.has_key(lang)]. *)
Definition supported (lang : PyVal) : bool :=
  match LANGUAGES_get lang with
  | Some _ => true
  | None => false
  end.

(** The language after the normalisation. *)
Definition resolved_language (lang : PyVal) : PyVal :=
  if supported lang then lang else VStr "en".

(** The two shell commands of [Controller.mount] for the controller [s]. *)
Definition mountpoint_cmd (s : string) : string := "mountpoint -q " +:+ s.

Definition mount_cmd (s : string) : string :=
  "mkdir -p " +:+ s +:+ "; mount -n -t cgroup -o " +:+ s +:+ " cgroup " +:+ s.

(** What [Controller.mount] does when the directory of an enabled
    controller is a mount point already: it goes to the cgroup root and
    asks; a controller that is not enabled is passed over. *)
Definition probe (kv : string * Controller) : list Call :=
  if enabled kv.2 =? 1
  then [Chdir "/sys/fs/cgroup"; System (mountpoint_cmd (subsysname kv.2))]
  else [].

(** [/etc/fstab] has a cgroup line; the kernel has two controllers, one of
    them enabled, and nothing is mounted under [/sys/fs/cgroup]. *)
Definition env_cgroup_in_fstab : Env :=
  sim_env
    [("/etc/fstab", lines ["/dev/sda1 / ext4 defaults 1 1";
                           "cgroup /sys/fs/cgroup cgroup defaults 0 0"]);
     ("/proc/cgroups", lines ["#subsys_name hierarchy num_cgroups enabled";
                              "cpu 0 1 1";
                              "memory 0 1 0"])]
    ["/proc/cgroups"; "/sys/fs/cgroup"]
    (fun c _ =>
       match c with
       | System cmd => if PyStr.startswith "mountpoint" cmd then Some 256 else Some 0
       | _ => Some 0
       end).

(** The same kernel, with the hierarchy mounted. *)
Definition env_cgroup_mounted : Env :=
  sim_env
    [("/proc/cgroups", lines ["#subsys_name hierarchy num_cgroups enabled";
                              "cpu 0 1 1";
                              "memory 0 1 0"])]
    ["/proc/cgroups"; "/sys/fs/cgroup"] all_succeed.

Definition cgroup_items : list (string * Controller) :=
  [("cpu", Build_Controller "cpu" 0 1 1);
   ("memory", Build_Controller "memory" 0 1 0)].

(** ** Vocabulary of the stage procedures *)

Local Open Scope list_scope.

(** Every command answers: none of them keeps the process waiting for
    ever. *)
Definition responsive (env : Env) : Prop :=
  forall c n, is_Some (exit_status env c n).

(** The same, for the commands of the splash client alone. *)
Definition splash_answers (env : Env) : Prop :=
  forall cmd n, is_Some (exit_status env (Exec Quiet (SPLASH_client :: cmd)) n).

(** The calls of the user interface: what is written to the terminal, the
    pauses, and the commands sent to the splash screen. *)
Definition chatter (c : Call) : Prop :=
  match c with
  | Stdout _ | Sleep _ => True
  | Exec Quiet (prog :: _) => prog = SPLASH_client
  | _ => False
  end.

(** From [w] to [w'] only the user interface was active: the trace grew by
    chatter, the log by some lines, and the configuration and the state of
    the splash screen are what they were. *)
Definition chatters (w w' : World) : Prop :=
  exists evs lines,
    trace w' = trace w ++ evs /\ Forall chatter evs /\
    LOGGER w' = LOGGER w ++ lines /\
    CONFIG w' = CONFIG w /\
    SPLASH_available w' = SPLASH_available w /\
    SPLASH_running w' = SPLASH_running w.

(** The line [LOGGER.log] buffers for [msg] when [n] lines are buffered. *)
Definition log_line (env : Env) (n : nat) (msg : string) : string :=
  log_stamp env n +:+ " " +:+ strip_color msg +:+ String PyStr.LF "".

Definition info (msg : string) : Call := Stdout (colored color_green msg).
Definition warning (msg : string) : Call := Stdout (colored color_yellow msg).
Definition error (msg : string) : Call := Stdout (colored color_red msg).

Definition reboot_call : Call := Exec NoStdout ["/sbin/reboot"; "-f"].
Definition sulogin_call : Call := Exec Inherit ["/sbin/sulogin"].
Definition bell : Call := Stdout (String BEL "" +:+ String PyStr.LF "").

(** What [load_file path] returns in the world [w]. *)
Definition loaded (env : Env) (path : string) (w : World) : string :=
  match file_data env path (seen (Open path) w) with
  | Some data =>
      PyStr.join (String PyStr.LF "")
        (List.filter kept_line (PyStr.split PyStr.LF data))
  | None => ""
  end.

Definition table_of (text : string) : list (list string) :=
  List.map PyStr.split_ws (PyStr.split PyStr.LF text).

(** The command lines of the two checks, forced or not. *)
Definition fsck_root_cmd (forced : bool) : list string :=
  if forced then ["/sbin/fsck"; "-C"; "-y"; "-f"; "/"]
  else ["/sbin/fsck"; "-C"; "-T"; "-a"; "/"].

Definition fsck_all_cmd (forced : bool) : list string :=
  if forced then ["/sbin/fsck"; "-C"; "-R"; "-A"; "-a"; "-f"]
  else ["/sbin/fsck"; "-C"; "-T"; "-R"; "-A"; "-a"].

(** The calls around [fsck -A] that are about the sentinel file. *)
Definition sentinel_call (c : Call) : Prop :=
  c = Exists "/forcefsck" \/ c = Unlink "/forcefsck".

(** The table [get_fstab_entry_with_mountpoint] searches in the world
    [w]: the cached one, or the one read from [/etc/fstab]. *)
Definition fstab_table (env : Env) (w : World) : list (list string) :=
  match fstab (CONFIG w) with
  | Some (e :: t) => e :: t
  | _ => table_of (loaded env "/etc/fstab" w)
  end.

Definition root_entry (env : Env) (w : World) : option (list string) :=
  List.find (fstab_entry_matches "/") (fstab_table env w).

Definition remount_ro_call : Call :=
  Exec Quiet ["/bin/mount"; "-n"; "-o"; "remount,ro"; "/"].

(** Every command but [c0] answers. *)
Definition responsive_but (env : Env) (c0 : Call) : Prop :=
  forall c n, c <> c0 -> is_Some (exit_status env c n).

(** The forced-reboot path of the root check, from the first warning to
    the reboot. *)
Definition reboot_path (env : Env) : list Call :=
  [warning (tr env "Filesystem repaired, but reboot needed!");
   bell; Sleep 1; bell; Sleep 1; bell; Sleep 1; bell; Sleep 1;
   warning (tr env "Rebooting in 10 seconds...");
   Sleep 10;
   warning (tr env "Rebooting...");
   reboot_call].

(** The calls of the root check up to [fsck]. *)
Definition root_prelude (c : Call) : Prop :=
  chatter c \/ c = Open "/etc/fstab" \/ c = remount_ro_call.

(** The root file system is in [/etc/fstab] with a check pass number;
    [fsck] repairs it and asks for a reboot (status 2), and the reboot
    takes the machine down: [reboot -f] does not come back. *)
Definition env_root_repaired : Env :=
  sim_env [("/etc/fstab", lines ["/dev/sda1 / ext4 defaults 1 1"])] []
    (fun c _ =>
       if decide (c = reboot_call) then None
       else if decide (c = Exec Inherit (fsck_root_cmd false)) then Some 2
       else Some 0).

(** [fsck -A] corrects errors on another file system (status 3). *)
Definition env_others_repaired : Env :=
  sim_env [("/etc/fstab", lines ["/dev/sda1 / ext4 defaults 1 1"])] []
    (fun c _ =>
       if decide (c = Exec Inherit (fsck_all_cmd false)) then Some 3
       else if decide (c = Exec Inherit (fsck_root_cmd false)) then Some 3
       else Some 0).

(** ** Vocabulary of the shutdown *)

Definition killall_call : Call := Exec Quiet ["/sbin/killall5"; "-9"].
Definition umount_root_call : Call := Exec Quiet ["/bin/umount"; "-n"; "-r"; "/"].

(** The events from [w] to [w']. *)
Definition new_events (w w' : World) : list Call :=
  drop (List.length (trace w)) (trace w').

(** The mount point of a first, plain unmount attempt [umount mp]. *)
Definition attempt_of (c : Call) : option string :=
  match c with
  | Exec Quiet [prog; mp] =>
      if String.eqb prog "/bin/umount" then Some mp else None
  | _ => None
  end.

(** The mount points of the unmount attempts among the events, in order. *)
Definition attempts (evs : list Call) : list string := omap attempt_of evs.

(** The entries [get_fs_entries] returns in the world [w]. *)
Definition fs_entries (env : Env) (w : World) : list (list string) :=
  sort_desc (List.filter fs_entry (table_of (loaded env "/proc/mounts" w))).

(** [c] lies under [p]: the path [p] is a proper prefix of [c]. *)
Definition nested_in (c p : string) : Prop :=
  exists rest, rest <> "" /\ c = p +:+ rest.

(** [a] does not sort before [b]. *)
Definition not_before (a b : string) : Prop := PyStr.ltb a b = false.

(** Every read of [/proc/mounts] lists the root file system. *)
Definition root_listed (env : Env) : Prop :=
  forall n, exists data fields,
    file_data env "/proc/mounts" n = Some data /\
    List.find rootfs_entry
      (table_of (PyStr.join (String PyStr.LF "")
                   (List.filter kept_line (PyStr.split PyStr.LF data))))
    = Some fields.

(** The calls of the remount ladder. *)
Definition ladder_call (c : Call) : Prop :=
  chatter c \/ c = Open "/proc/mounts" \/ c = remount_ro_call \/
  c = umount_root_call \/ c = killall_call.

(** The claim of the specification about the ladder, in the world [w]:
    when the two remounts fail, the kill-all signal is sent not at all if
    the forced unmount succeeds, and once if it fails. *)
Definition kill_only_as_last_resort (env : Env) (w : World) : Prop :=
  forall r1 r2 r3,
    exit_status env remount_ro_call (seen remount_ro_call w) = Some r1 ->
    exit_status env remount_ro_call (S (seen remount_ro_call w)) = Some r2 ->
    exit_status env umount_root_call (seen umount_root_call w) = Some r3 ->
    r1 <> 0 -> r2 <> 0 ->
    let evs := new_events w (remount_ladder env w).2 in
    (r3 = 0 -> occ killall_call evs = 0%nat) /\
    (r3 <> 0 -> occ killall_call evs = 1%nat).

(** The example of the specification for the order of the unmounts. *)
Definition deepest_first_example (env : Env) (w : World) : Prop :=
  attempts (new_events w (unmount_filesystems env w).2) =
  ["/data/nested"; "/data"; "/mnt"].

Definition proc_mounts_three : string :=
  lines ["rootfs / rootfs rw 0 0";
         "/dev/sda1 / ext4 rw,relatime 0 0";
         "proc /proc proc rw 0 0";
         "/dev/sda2 /data ext4 rw 0 0";
         "/dev/sda3 /data/nested ext4 rw 0 0";
         "/dev/sdb1 /mnt ext4 rw 0 0";
         "tmpfs /run tmpfs rw 0 0"].

(** Mounts at [/data], [/data/nested] and [/mnt]; every command succeeds. *)
Definition env_three_mounts : Env :=
  sim_env [("/proc/mounts", proc_mounts_three)] [] all_succeed.

(** The root file system stays busy: both remounts fail with status 32;
    [forced_ok] says whether the forced unmount succeeds. *)
Definition env_busy_root (forced_ok : bool) : Env :=
  sim_env [("/proc/mounts", proc_mounts_three)] []
    (fun c _ =>
       if decide (c = remount_ro_call) then Some 32
       else if decide (c = umount_root_call)
            then Some (if forced_ok then 0 else 32)
            else Some 0).

(** The command of one step of the ladder. *)
Definition ladder_cmd (force : bool) : Call :=
  if force then umount_root_call else remount_ro_call.

(** The calls of one step of the ladder on a listed root, where [mid] is
    what is sent to the splash screen and [rc] the exit status. *)
Definition ladder_step (force : bool) (mid : list Call) (rc : Z) : list Call :=
  [Open "/proc/mounts"] ++ mid ++ [ladder_cmd force] ++
  (if rc =? 0 then [] else [killall_call]).

(** The order of [sort_desc] on the entries: by mount point, descending. *)
Definition desc (a b : list string) : Prop := not_before (key1 a) (key1 b).

(** ** Properties of every run *)

(** Every call [m] makes, in any world and with any outcome, satisfies
    [P]. *)
Definition emits {A} (P : Call -> Prop) (m : M A) : Prop :=
  forall w, exists evs, trace (m w).2 = trace w ++ evs /\ Forall P evs.

(** Every exception [m] lets escape satisfies [E]. *)
Definition raises_only {A} (E : exn -> Prop) (m : M A) : Prop :=
  forall w e, (m w).1 = Raise e -> E e.

(** A call other than the reading of [/etc/fstab]; an exception other
    than the exit with the status kept for a cgroup line in [/etc/fstab]. *)
Definition not_fstab (c : Call) : Prop := c <> Open "/etc/fstab".
Definition not_exit_1 (e : exn) : Prop := e <> SystemExit (-1).

(** No plain unmount attempt. *)
Definition no_attempt (c : Call) : Prop := attempt_of c = None.

(** No command of the remount ladder. *)
Definition off_ladder (c : Call) : Prop :=
  c <> remount_ro_call /\ c <> umount_root_call /\ c <> killall_call.

(** The plain unmount attempts of [m] are made in descending order of
    their mount points, however [m] ends. *)
Definition attempts_sorted {A} (m : M A) : Prop :=
  forall w, exists evs,
    trace (m w).2 = trace w ++ evs /\ StronglySorted not_before (attempts evs).

(** [m], started in a world where [I] holds, makes only calls in [P] and
    keeps [I]; what it returns is in [Q] and what it raises in [E]. *)
Definition triple {A} (I : World -> Prop) (P : Call -> Prop)
  (Q : A -> Prop) (E : exn -> Prop) (m : M A) : Prop :=
  forall w, I w ->
    exists evs,
      trace (m w).2 = trace w ++ evs /\ Forall P evs /\ I (m w).2 /\
      (forall a, (m w).1 = Ok a -> Q a) /\
      (forall e, (m w).1 = Raise e -> E e).

(** [I] does not depend on the trace, on the log or on the cached table
    of [/etc/fstab]. *)
Definition stable (I : World -> Prop) : Prop :=
  (forall c w, I w -> I (push c w)) /\
  (forall l w, I w -> I (set_LOGGER l w)) /\
  (forall f w, I w -> I (set_CONFIG (with_fstab (CONFIG w) f) w)).

(** The system is a container guest. *)
Definition guest (w : World) : Prop :=
  options (CONFIG w) !! "lxc_guest" = Some (VStr "yes").

(** What the shutdown of a container guest may call: the user interface,
    the system bus and the services, the bus daemon, the record of the
    halt. *)
Definition guest_call (c : Call) : Prop :=
  chatter c \/ c = SystemBus \/ c = ListServices \/ c = BusClose \/
  (exists service, c = Popen ["/bin/service"; "--quiet"; service; "stop"]) \/
  c = Exec NoStdout ["/sbin/start-stop-daemon"; "--stop"; "--quiet";
                     "--pidfile"; "/run/dbus/pid"] \/
  c = Exec NoStdout ["/sbin/halt"; "-w"].

(** The run of [m] from [w] only talks to the user: it calls nothing
    else and raises nothing. *)
Definition only_chatters (m : M unit) (w : World) : Prop :=
  exists evs,
    trace (m w).2 = trace w ++ evs /\ Forall chatter evs /\
    forall e, (m w).1 <> Raise e.

(** The world before [Config()] has run, with the option map [o]. *)
Definition world_with (o : gmap string PyVal) : World :=
  set_CONFIG (with_options (CONFIG fresh_world) o) fresh_world.

(** What the loop over the mounts would do to the root file system: the
    plain unmount, the killing of the processes that use it, the forced
    unmount. *)
Definition loop_on_root (c : Call) : Prop :=
  c = Exec Quiet ["/bin/umount"; "/"] \/
  c = Exec Quiet ["/bin/fuser"; "-k"; "-9"; "-m"; "/"] \/
  c = Exec Quiet ["/bin/umount"; "-f"; "-r"; "/"].

Definition spares_root (c : Call) : Prop := ~ loop_on_root c.

Definition any_world (w : World) : Prop := True.
Definition any_exn (e : exn) : Prop := True.

(** The calls of a root check that checks nothing: the user interface and
    the reading of [/etc/fstab]. *)
Definition fstab_or_chatter (c : Call) : Prop :=
  chatter c \/ c = Open "/etc/fstab".

(** [/etc/fstab] gives the root file system with four fields: there is no
    pass number. *)
Definition env_root_without_passno : Env :=
  sim_env [("/etc/fstab", lines ["/dev/sda1 / ext4 defaults"])] [] all_succeed.

(** The keys [_k not in ("thin")] rejects: the substrings of ["thin"]. *)
Definition thin_like : list string :=
  [""; "t"; "h"; "i"; "n"; "th"; "hi"; "in"; "thi"; "hin"; "thin"].

(** The kernel command line carries fragments named like a part of
    ["thin"]; the configuration file sets one of these names. *)
Definition env_thin_like : Env :=
  sim_env [("/etc/conf.d/mudur", lines ["hin=file"]);
           ("/proc/cmdline", lines ["root=/dev/sda1 mudur=hin:1,in,safe quiet"])]
    ["/etc/conf.d/mudur"] all_succeed.

(** ** The console *)

Section Console.

Variable env : Env.

(** [LANGUAGES[lang]], raising [KeyError]. *)
Definition LANGUAGES_item (lang : PyVal) : M Language :=
  match LANGUAGES_get lang with
  | Some l => ret l
  | None => raise KeyError
  end.

(** An argument of [subprocess.call]: the child cannot be executed with
    an argument that is not a string, and the [TypeError] of [execvp] is
    raised in the parent. *)
Definition argv_item (v : PyVal) : M string :=
  match v with
  | VStr s => ret s
  | _ => raise TypeError
  end.

Definition set_console_parameters : M unit :=
  lang <- CONFIG_get "language" ;;
  keymap <- CONFIG_get "keymap" ;;
  language <- LANGUAGES_item lang ;;
  _ <- run env ["/usr/bin/kbd_mode"; "-u"] ;;
  km <- argv_item keymap ;;
  _ <- run_quiet env ["/bin/loadkeys"; km] ;;
  _ <- run env ["/usr/bin/setfont"; "-f"; font language; "-m"; trans language] ;;
  ret tt.

End Console.

(** The configuration [Config()] leaves behind names a language of the
    table and a keymap that is not empty. *)
Definition console_ready (cfg : Config) : Prop :=
  exists lang l km,
    options cfg !! "language" = Some lang /\ LANGUAGES_get lang = Some l /\
    options cfg !! "keymap" = Some km /\ truthy km = true.

(** The calls of [set_console_parameters] for the keymap [km] and the
    table entry [l]. *)
Definition console_calls (km : string) (l : Language) : list Call :=
  [Exec NoStdout ["/usr/bin/kbd_mode"; "-u"];
   Exec Quiet ["/bin/loadkeys"; km];
   Exec NoStdout ["/usr/bin/setfont"; "-f"; font l; "-m"; trans l]].

(** What [load_config] does to the quotes around a value: the single
    quotes are stripped first, then the double quotes. *)
Definition unquote (value : string) : string :=
  PyStr.strip_char PyStr.DQUOTE (PyStr.strip_char "'" value).

(** ** The colours of the user interface *)

(** [Ui.colors]. *)
Definition UI_colors : gmap string string :=
  list_to_map
    [ ("red",         String ESC "[31;01m");
      ("blue",        String ESC "[34;01m");
      ("cyan",        String ESC "[36;01m");
      ("gray",        String ESC "[30;01m");
      ("green",       String ESC "[32;01m");
      ("light",       String ESC "[37;01m");
      ("yellow",      String ESC "[33;01m");
      ("magenta",     String ESC "[35;01m");
      ("reddark",     String ESC "[31;0m");
      ("bluedark",    String ESC "[34;0m");
      ("cyandark",    String ESC "[36;0m");
      ("graydark",    String ESC "[30;0m");
      ("greendark",   String ESC "[32;0m");
      ("magentadark", String ESC "[35;0m");
      ("normal",      String ESC "[0m") ].

(** [self.colors[name]], raising [KeyError]. *)
Definition UI_colors_item (name : string) : M string :=
  match UI_colors !! name with
  | Some c => ret c
  | None => raise KeyError
  end.

(** [Ui.colorize]. *)
Definition UI_colorize (uicolor msg : string) : M string :=
  color <- UI_colors_item uicolor ;;
  normal <- UI_colors_item "normal" ;;
  ret (color +:+ msg +:+ normal).

(** A line [check_fstab] counts: it is no comment and does not begin with
    [cgroup]. *)
Definition counted_line (line : string) : bool :=
  (negb (PyStr.startswith "#" line) && negb (PyStr.startswith "cgroup" line))%bool.

(** An [/etc/fstab] that does not mention cgroup at all. *)
Definition env_plain_fstab : Env :=
  sim_env [("/etc/fstab", lines ["# /etc/fstab"; "/dev/sda1 / ext4 defaults 1 1"])]
    [] all_succeed.

(** The command line of a process that is started and not waited for. *)
Definition spawned (c : Call) : option (list string) :=
  match c with
  | Popen argv => Some argv
  | _ => None
  end.

(** The calls of a shutdown that stops at the list of the services. *)
Definition bus_or_chatter (c : Call) : Prop :=
  chatter c \/ c = SystemBus \/ c = ListServices.

(** A system with the services [services], and one whose bus answers but
    gives no list of services. *)
Definition env_services (services : list string) : Env :=
  {| exit_status := all_succeed;
     captured := fun _ _ => ("", "");
     file_data := fun _ _ => None;
     path_test := fun _ _ => false;
     call_ok := fun _ _ => true;
     bus_services := fun _ => Some services;
     dir_entries := fun _ _ => Some [];
     uname_release := "4.4.0";
     log_stamp := fun _ => "[0.000] Jan 01 00:00:00";
     ugettext := fun msg => msg |}.

Definition env_no_service_list : Env :=
  {| exit_status := all_succeed;
     captured := fun _ _ => ("", "");
     file_data := fun _ _ => None;
     path_test := fun _ _ => false;
     call_ok := fun _ _ => true;
     bus_services := fun _ => None;
     dir_entries := fun _ _ => Some [];
     uname_release := "4.4.0";
     log_stamp := fun _ => "[0.000] Jan 01 00:00:00";
     ugettext := fun msg => msg |}.

(** ** Reboot through kexec *)

Section Kexec.

Variable env : Env.

(** The decorator [skip_for_lxc_guests] around a function that returns
    something: [None] when the call is skipped. *)
Definition skip_for_lxc_guests_result {A} (function : M A) : M (option A) :=
  g <- CONFIG_get "lxc_guest" ;;
  if eq_str g "no" then a <- function ;; ret (Some a) else ret None.

(** [grub_default ^ 0x4000 < 0x4000]: the default entry was set for one
    boot only. *)
Definition grub_once (grub_default : Z) : bool :=
  Z.lxor grub_default 16384 <? 16384.

Definition NUL : ascii := "000"%char.

(** [s.upper()] on the letters of ASCII. *)
Definition upper_char (a : ascii) : ascii :=
  let n := nat_of_ascii a in
  if (Nat.leb 97 n && Nat.leb n 122)%bool then ascii_of_nat (n - 32) else a.

Definition py_upper (s : string) : string :=
  string_of_list_ascii (List.map upper_char (list_ascii_of_string s)).

(** [s.split("-")[-1]]. *)
Definition last_part (s : string) : string :=
  List.last (PyStr.split "-" s) "".

(** [conf.get(key, default)] and the truth value of [conf.get(key)]. *)
Definition conf_get (conf : gmap string string) (key default : string) : string :=
  match conf !! key with
  | Some v => v
  | None => default
  end.

Definition conf_set (conf : gmap string string) (key : string) : bool :=
  match conf !! key with
  | Some v => negb (String.eqb v "")
  | None => false
  end.

(** The image of the running kernel, or the latest one with the suffix
    of the running kernel. *)
Definition default_image (latest versioned kernel_ver : string)
  (kernel_suffix : option string) : M string :=
  there <- os_path_exists env latest ;;
  if negb there then ret (versioned +:+ kernel_ver)
  else match kernel_suffix with
       | Some suffix =>
           if negb (String.eqb suffix "") then ret (latest +:+ "-" +:+ suffix)
           else ret latest
       | None => ret latest
       end.

Definition kexec_command (conf : gmap string string) (stage : string)
  (kernel_image initrd_image : string) : list string :=
  let append_params := "APPEND_CMDLINE_" +:+ py_upper stage in
  let owrite_params := "OVERWRITE_CMDLINE_" +:+ py_upper stage in
  if conf_set conf owrite_params then
    ["/usr/sbin/kexec"; "--load"; kernel_image; "--initrd"; initrd_image;
     "--command-line"; conf_get conf owrite_params ""]
  else if conf_set conf append_params then
    ["/usr/sbin/kexec"; "--load"; kernel_image; "--initrd"; initrd_image;
     "--reuse-cmdline"; "--append"; conf_get conf append_params ""]
  else
    ["/usr/sbin/kexec"; "--load"; kernel_image; "--initrd"; initrd_image;
     "--reuse-cmdline"].

(** [kexec_reboot and stage == "reboot" or (kexec_shutdown and stage ==
    "shutdown")]. *)
Definition kexec_wanted (conf : gmap string string) (stage : string) : bool :=
  let kexec_reboot := String.eqb (conf_get conf "KEXEC_REBOOT" "no") "yes" in
  let kexec_shutdown := String.eqb (conf_get conf "KEXEC_SHUTDOWN" "no") "yes" in
  ((kexec_reboot && String.eqb stage "reboot") ||
   (kexec_shutdown && String.eqb stage "shutdown"))%bool.

(** [load_kexec_image], for the stage [sys.argv[1]]. *)
Definition load_kexec_image (stage : string) : M (option bool) :=
  skip_for_lxc_guests_result
    (let kexec_conf := "/etc/conf.d/kexec" in
     grub_default <- load_file env "/boot/grub/default" ;;
     grub_default <- (if negb (String.eqb grub_default "") then
                        n <- py_int (PyStr.rstrip_by (Ascii.eqb NUL) grub_default) ;;
                        ret (grub_once n)
                      else ret false) ;;
     proceed <- (if negb grub_default then
                   has_kexec <- os_path_exists env "/usr/sbin/kexec" ;;
                   if has_kexec then os_path_exists env kexec_conf else ret false
                 else ret false) ;;
     if proceed : bool then
       conf <- load_config env kexec_conf ;;
       if kexec_wanted conf stage then
         emit Uname ;;
         let kernel_ver := uname_release env in
         let kernel_suffix :=
           if PyStr.has_char "-" kernel_ver then Some (last_part kernel_ver)
           else None in
         default_kernel <- default_image "/boot/latest-kernel" "/boot/kernel-"
                             kernel_ver kernel_suffix ;;
         default_initrd <- default_image "/boot/latest-initramfs" "/boot/initramfs-"
                             kernel_ver kernel_suffix ;;
         let kernel_image := conf_get conf "KERNEL_IMAGE" default_kernel in
         let initrd_image := conf_get conf "INITRD_IMAGE" default_initrd in
         _ <- run_quiet env (kexec_command conf stage kernel_image initrd_image) ;;
         try_except
           (text <- open_read env "/sys/kernel/kexec_loaded" ;;
            ret (String.eqb (PyStr.strip text) "1"))
           (fun e => match e with OSError => Some (ret false) | _ => None end)
       else ret false
     else ret false).

Definition kexec_halt : M unit :=
  skip_for_lxc_guests (_ <- run_quiet env ["/usr/sbin/kexec"; "-e"] ;; ret tt).

End Kexec.

(** [kexec] is installed and configured for the reboot, with a command
    line of its own; the kernel does not say whether the image is
    loaded. *)
Definition env_kexec : Env :=
  sim_env [("/etc/conf.d/kexec",
            lines ["KEXEC_REBOOT=yes"; "OVERWRITE_CMDLINE_REBOOT='root=/dev/sda1 quiet'"])]
    ["/usr/sbin/kexec"; "/etc/conf.d/kexec"; "/boot/latest-kernel"] all_succeed.

(** ** Disk parameters *)

(** ["%s" % l] for a list of strings. *)
Definition py_str_list (l : list string) : string :=
  "[" +:+ String.concat ", " (List.map py_repr l) +:+ "]".

(** [key, value = s]: a string unpacks into two names when it has two
    characters. *)
Definition unpack_pair (s : string) : M (string * string) :=
  match s with
  | String a (String b EmptyString) => ret (String a "", String b "")
  | _ => raise ValueError
  end.

Section Disks.

Variable env : Env.

(** [set_disk_parameters].  The dictionary is walked in the order of
    [map_to_list]; Python fixes no order. *)
Definition set_disk_parameters : M unit :=
  skip_for_lxc_guests
    (safe <- CONFIG_get "safe" ;;
     skip <- (if truthy safe then ret true
              else there <- os_path_exists env "/etc/conf.d/hdparm" ;; ret (negb there)) ;;
     if skip : bool then ret tt
     else
       conf <- load_config env "/etc/conf.d/hdparm" ;;
       if Nat.ltb 0 (size conf) then
         UI_info env (tr env "Setting disk parameters") ;;
         (match conf !! "all" with
          | Some all =>
              names <- os_listdir env "/sys/block/" ;;
              for_each names (fun name =>
                if (PyStr.startswith "sd" name && Nat.eqb (String.length name) 3 &&
                    negb (bool_decide (is_Some (conf !! name))))%bool
                then _ <- run_quiet env ["/sbin/hdparm"; py_str_list (PyStr.split_ws all);
                                         "/dev/" +:+ name] ;;
                     ret tt
                else ret tt)
          | None => ret tt
          end) ;;
         for_each (map_to_list conf).*1 (fun k =>
           kv <- unpack_pair k ;;
           let '(key, value) := kv in
           if negb (String.eqb key "all")
           then _ <- run_quiet env ["/sbin/hdparm"; py_str_list (PyStr.split_ws value);
                                    "/dev/" +:+ key] ;;
                ret tt
           else ret tt)
       else ret tt).

End Disks.

(** A configuration of [hdparm] in the form its file documents. *)
Definition env_hdparm : Env :=
  sim_env [("/etc/conf.d/hdparm", lines ["# hdparm"; "sda='-d1 -c3'"])]
    ["/etc/conf.d/hdparm"] all_succeed.

(** The option [lxc_guest] has the value [g]. *)
Definition lxc_guest_is (g : PyVal) (w : World) : Prop :=
  options (CONFIG w) !! "lxc_guest" = Some g.

(** What a step under [skip_for_lxc_guests] does when it is skipped:
    nothing but the user interface. *)
Definition skipped (m : M unit) (w : World) : Prop :=
  exists evs,
    trace (m w).2 = trace w ++ evs /\ Forall chatter evs /\ (m w).1 = Ok tt.

(** What [check_filesystems] does about the sentinel file after [fsck]:
    nothing when the check is not forced; else it asks whether the file
    is there, and removes it when it is. *)
Definition sentinel_calls (forced there : bool) : list Call :=
  if forced then
    if there then [Exists "/forcefsck"; Unlink "/forcefsck"] else [Exists "/forcefsck"]
  else [].

(** The calls that follow: the user interface and the rescue shell. *)
Definition report_call (c : Call) : Prop := chatter c \/ c = sulogin_call.

(** The sentinel file is there and cannot be removed: the root file
    system is read-only. *)
Definition env_sentinel_stays : Env :=
  {| exit_status := all_succeed;
     captured := fun _ _ => ("", "");
     file_data := fun _ _ => None;
     path_test := fun c _ => bool_decide (c = Exists "/forcefsck");
     call_ok := fun c _ => negb (bool_decide (c = Unlink "/forcefsck"));
     bus_services := fun _ => Some [];
     dir_entries := fun _ _ => Some [];
     uname_release := "4.4.0";
     log_stamp := fun _ => "[0.000] Jan 01 00:00:00";
     ugettext := fun msg => msg |}.

(** A file table with a comment, an empty line and two entries. *)
Definition env_commented_fstab : Env :=
  sim_env [("/etc/fstab",
            lines ["# <fs> <mountpoint> <type> <opts> <dump> <pass>";
                   "/dev/sda1 / ext4 defaults 1 1";
                   "";
                   "#/dev/sdb1 /old ext3 defaults 0 0";
                   "/dev/sda2 /home ext4 defaults 0 2"])]
    [] all_succeed.

(** The same system, on which the reboot fails: [reboot -f] comes back
    with status 1. *)
Definition env_reboot_comes_back : Env :=
  sim_env [("/etc/fstab", lines ["/dev/sda1 / ext4 defaults 1 1"])] []
    (fun c _ =>
       if decide (c = reboot_call) then Some 1
       else if decide (c = Exec Inherit (fsck_root_cmd false)) then Some 2
       else Some 0).


(** The languages of the table [LANGUAGES], each with its keymap, written
    out. *)
Definition table_keymaps : list (string * string) :=
  [("ca", "es"); ("de", "de"); ("en", "us"); ("es", "es"); ("fr", "fr");
   ("hu", "hu"); ("it", "it"); ("nl", "nl"); ("pl", "pl");
   ("pt_BR", "br-abnt2"); ("ru", "ru"); ("sv", "sv-latin1"); ("tr", "trq")].

(** The characters of a plain word: no white space and none of the
    characters the two readers give a meaning to (the comma, the colon,
    the equals sign, the hash and the two quotes). *)
Definition word_char (a : ascii) : bool :=
  (negb (PyStr.is_space a) &&
   negb (existsb (Ascii.eqb a) [","%char; ":"%char; "="%char; "#"%char; "'"%char; PyStr.DQUOTE]))%bool.

Fixpoint plain_word (s : string) : bool :=
  match s with
  | EmptyString => true
  | String a s' => (word_char a && plain_word s')%bool
  end.


(** A line of [/proc/cgroups] that [find_controllers] cannot take: it is
    blank, or it is no comment and has not exactly four fields. *)
Definition unreadable_line (line : string) : bool :=
  match PyStr.strip line with
  | EmptyString => true
  | String a _ =>
      negb (Ascii.eqb a "#") &&
      negb (Nat.eqb (List.length (PyStr.split_ws (PyStr.strip line))) 4)
  end.

(** The outcome of reading the controllers: the world is left as it is,
    and the only errors are those of a line that cannot be taken. *)
Definition parse_error (e : exn) : Prop := e = IndexError \/ e = ValueError.

Definition parsed {A} (r : Outcome A * World) (w : World) : Prop :=
  r.2 = w /\ ((exists a, r.1 = Ok a) \/ (exists e, r.1 = Raise e /\ parse_error e)).

Definition parse_failed {A} (r : Outcome A * World) (w : World) : Prop :=
  r.2 = w /\ exists e, r.1 = Raise e /\ parse_error e.

(** What [mount_cgroup] runs for a given answer of [mountpoint]. *)
Definition tmpfs_calls (status : option Z) : list Call :=
  match status with
  | Some 0 => []
  | _ => [System " mount -t tmpfs -o uid=0,gid=0,mode=0755 cgroup /sys/fs/cgroup"]
  end.

(** A kernel whose table of controllers ends with a blank line. *)
Definition env_cgroups_blank_line : Env :=
  sim_env
    [("/proc/cgroups", lines ["#subsys_name hierarchy num_cgroups enabled";
                              "cpu 0 1 1";
                              ""])]
    ["/proc/cgroups"; "/sys/fs/cgroup"] all_succeed.

(** A system on which the system bus cannot be reached. *)
Definition env_no_bus : Env :=
  {| exit_status := all_succeed;
     captured := fun _ _ => ("", "");
     file_data := fun _ _ => None;
     path_test := fun _ _ => false;
     call_ok := fun c _ => negb (bool_decide (c = SystemBus));
     bus_services := fun _ => Some ["sshd"];
     dir_entries := fun _ _ => Some [];
     uname_release := "4.4.0";
     log_stamp := fun _ => "[0.000] Jan 01 00:00:00";
     ugettext := fun msg => msg |}.

(** * Properties *)

Local Open Scope py_scope.
Local Open Scope list_scope.

(** ** Strings *)

Lemma split_not_nil c s : PyStr.split c s <> [].
Proof.
  destruct s as [|a s]; simpl; [discriminate|].
  destruct (Ascii.eqb a c); [discriminate|].
  destruct (PyStr.split c s); discriminate.
Qed.

Lemma split_free c s : Forall (fun l => free_of c l = true) (PyStr.split c s).
Proof.
  induction s as [|a s IH]; simpl.
  - repeat constructor.
  - destruct (Ascii.eqb a c) eqn:E.
    + constructor; [reflexivity | exact IH].
    + destruct (PyStr.split c s) as [|h t]; simpl.
      * repeat constructor. simpl. now rewrite E.
      * inversion IH; subst. constructor; [|assumption].
        simpl. rewrite E. assumption.
Qed.

Lemma split_free_id c x : free_of c x = true -> PyStr.split c x = [x].
Proof.
  induction x as [|a x IH]; simpl; [reflexivity|].
  intros H. apply andb_true_iff in H as [Ha Hx].
  apply negb_true_iff in Ha. rewrite Ha, (IH Hx). reflexivity.
Qed.

Lemma split_app_sep c x r :
  free_of c x = true ->
  PyStr.split c (x +:+ String c r) = x :: PyStr.split c r.
Proof.
  induction x as [|a x IH]; simpl.
  - intros _. now rewrite Ascii.eqb_refl.
  - intros H. apply andb_true_iff in H as [Ha Hx].
    apply negb_true_iff in Ha. rewrite Ha.
    change (x ++ String c r)%string with (x +:+ String c r).
    rewrite (IH Hx). reflexivity.
Qed.

(** Splitting what [join] built gives the lines back. *)
Lemma split_join c ls :
  ls <> [] -> Forall (fun l => free_of c l = true) ls ->
  PyStr.split c (PyStr.join (String c "") ls) = ls.
Proof.
  unfold PyStr.join.
  induction ls as [|x xs IH]; [congruence|].
  intros _ Hall. inversion Hall as [|? ? Hx Hxs]; subst.
  destruct xs as [|y ys].
  - simpl. now apply split_free_id.
  - change (String.concat (String c "") (x :: y :: ys))
      with (x +:+ String c (String.concat (String c "") (y :: ys))).
    rewrite split_app_sep by assumption.
    f_equal. apply IH; [discriminate | assumption].
Qed.

(** ** load_file *)

Lemma kept_line_cases line :
  kept_line line =
  match line with
  | EmptyString => false
  | String a _ => negb (Ascii.eqb a "#")
  end.
Proof.
  destruct line as [|a r]; [reflexivity|].
  unfold kept_line, PyStr.startswith. cbn [String.eqb andb negb].
  cbn [String.prefix]. destruct (ascii_dec "#" a) as [<- | Hne].
  - now destruct r.
  - destruct (Ascii.eqb_spec a "#") as [-> | _]; [contradiction | reflexivity].
Qed.

(** C10. [load_file] returns for every path and every state of the file
    and never raises.  When the file cannot be opened it returns the empty
    string.  When the file holds the lines [ls], separated by line feeds,
    it returns those of them that are not empty and do not begin with
    [#], in their order and separated by line feeds. *)
Theorem load_file_total (env : Env) (path : string) (w : World) :
  (exists s, load_file env path w = (Ok s, push (Open path) w)) /\
  (file_data env path (seen (Open path) w) = None ->
   load_file env path w = (Ok "", push (Open path) w)) /\
  (forall ls,
     Forall (fun l => free_of "010" l = true) ls ->
     file_data env path (seen (Open path) w) = Some (String.concat (String "010" "") ls) ->
     load_file env path w =
     (Ok (String.concat (String "010" "")
            (List.filter (fun l => match l with
                                   | EmptyString => false
                                   | String a _ => negb (Ascii.eqb a "#")
                                   end) ls)),
      push (Open path) w)).
Proof.
  unfold load_file, try_except, bind, open_read, ret.
  split; [|split].
  - destruct (file_data env path (seen (Open path) w)); eauto.
  - now intros ->.
  - intros ls Hfree ->. f_equal. f_equal. unfold PyStr.join.
    change PyStr.LF with "010"%char. f_equal.
    rewrite (List.filter_ext _ _ kept_line_cases).
    destruct ls as [|l ls]; [reflexivity|].
    f_equal. apply (split_join "010" (l :: ls)); [discriminate | exact Hfree].
Qed.

(** On the file table of [env_commented_fstab] the two entries are what
    is left; a file that is not there gives the empty string. *)
Lemma load_file_total_witness :
  load_file env_commented_fstab "/etc/fstab" fresh_world =
    (Ok ("/dev/sda1 / ext4 defaults 1 1" +:+ String "010"
         "/dev/sda2 /home ext4 defaults 0 2"),
     push (Open "/etc/fstab") fresh_world) /\
  load_file env_commented_fstab "/etc/mtab" fresh_world =
    (Ok "", push (Open "/etc/mtab") fresh_world).
Proof.
  split.
  - apply (proj2 (proj2 (load_file_total env_commented_fstab "/etc/fstab" fresh_world))
             ["# <fs> <mountpoint> <type> <opts> <dump> <pass>";
              "/dev/sda1 / ext4 defaults 1 1";
              "";
              "#/dev/sdb1 /old ext3 defaults 0 0";
              "/dev/sda2 /home ext4 defaults 0 2";
              ""]).
    + repeat constructor.
    + reflexivity.
  - apply (proj1 (proj2 (load_file_total env_commented_fstab "/etc/mtab" fresh_world))).
    reflexivity.
Defined.

(** ** The monad and the trace *)

Lemma bind_ok {A B} (m : M A) (k : A -> M B) w a w1 :
  m w = (Ok a, w1) -> bind m k w = k a w1.
Proof. unfold bind. now intros ->. Qed.

Lemma bind_raise {A B} (m : M A) (k : A -> M B) w e w1 :
  m w = (Raise e, w1) -> bind m k w = (Raise e, w1).
Proof. unfold bind. now intros ->. Qed.

Lemma bind_halt {A B} (m : M A) (k : A -> M B) w w1 :
  m w = (Halt, w1) -> bind m k w = (Halt, w1).
Proof. unfold bind. now intros ->. Qed.

Lemma occ_app c t1 t2 : occ c (t1 ++ t2) = (occ c t1 + occ c t2)%nat.
Proof. induction t1 as [|e t1 IH]; simpl; [reflexivity|]. rewrite IH. lia. Qed.

Lemma seen_push_ne c c' w : c' <> c -> seen c (push c' w) = seen c w.
Proof.
  intros H. unfold seen, push. simpl. rewrite occ_app. simpl.
  destruct (decide (c' = c)); [contradiction|]. lia.
Qed.

Lemma seen_push_eq c w : seen c (push c w) = S (seen c w).
Proof.
  unfold seen, push. simpl. rewrite occ_app. simpl.
  destruct (decide (c = c)); [lia | contradiction].
Qed.

(** *** What every run emits and raises *)

Section Emits.

Context (P : Call -> Prop).

Lemma emits_ret {A} (a : A) : emits P (ret a).
Proof. intros w. exists []. rewrite app_nil_r. split; [reflexivity | constructor]. Qed.

Lemma emits_raise {A} e : emits P (raise e : M A).
Proof. intros w. exists []. rewrite app_nil_r. split; [reflexivity | constructor]. Qed.

Lemma emits_bind {A B} (m : M A) (k : A -> M B) :
  emits P m -> (forall a, emits P (k a)) -> emits P (bind m k).
Proof.
  intros Hm Hk w. destruct (Hm w) as (e1 & Ht1 & Hf1). unfold bind.
  destruct (m w) as [[a|e|] w1]; simpl in Ht1; [|eauto|eauto].
  destruct (Hk a w1) as (e2 & Ht2 & Hf2).
  exists (e1 ++ e2). split; [|now apply Forall_app].
  rewrite Ht2, Ht1. now rewrite app_assoc.
Qed.

Lemma emits_try_except {A} (m : M A) catch :
  emits P m -> (forall e h, catch e = Some h -> emits P h) ->
  emits P (try_except m catch).
Proof.
  intros Hm Hc w. destruct (Hm w) as (e1 & Ht1 & Hf1). unfold try_except.
  destruct (m w) as [[a|e|] w1]; simpl in Ht1; [eauto| |eauto].
  destruct (catch e) as [h|] eqn:E; [|eauto].
  destruct (Hc e h E w1) as (e2 & Ht2 & Hf2).
  exists (e1 ++ e2). split; [|now apply Forall_app].
  rewrite Ht2, Ht1. now rewrite app_assoc.
Qed.

Lemma emits_push {A} (c : Call) (f : World -> Outcome A) :
  P c -> emits P (fun w => (f w, push c w)).
Proof. intros Hc w. exists [c]. split; [reflexivity | now repeat constructor]. Qed.

Lemma emits_emit c : P c -> emits P (emit c).
Proof. intros Hc. exact (emits_push c (fun _ => Ok tt) Hc). Qed.

Lemma emits_call_status env c : P c -> emits P (call_status env c).
Proof.
  intros Hc w. exists [c]. unfold call_status.
  destruct (exit_status env c _); split; try reflexivity; now repeat constructor.
Qed.

Lemma emits_call_test env c : P c -> emits P (call_test env c).
Proof. intros Hc w. exists [c]. split; [reflexivity | now repeat constructor]. Qed.

Lemma emits_call_or_raise env c e : P c -> emits P (call_or_raise env c e).
Proof.
  intros Hc w. exists [c]. unfold call_or_raise.
  destruct (call_ok env c _); split; try reflexivity; now repeat constructor.
Qed.

Lemma emits_open_read env p : P (Open p) -> emits P (open_read env p).
Proof.
  intros Hc w. exists [Open p]. unfold open_read.
  destruct (file_data env p _); split; try reflexivity; now repeat constructor.
Qed.

Lemma emits_for_each {A} (l : list A) body :
  (forall x, emits P (body x)) -> emits P (for_each l body).
Proof.
  intros Hb. induction l as [|x l IH]; simpl.
  - apply emits_ret.
  - apply emits_bind; [apply Hb | intros _; exact IH].
Qed.

Lemma emits_fold_left {A B} (f : B -> A -> M B) (l : list A) (acc : M B) :
  emits P acc -> (forall b x, emits P (f b x)) ->
  emits P (fold_left (fun acc x => bind acc (fun b => f b x)) l acc).
Proof.
  intros Ha Hf. revert acc Ha. induction l as [|x l IH]; intros acc Ha; simpl.
  - exact Ha.
  - apply IH. apply emits_bind; [exact Ha | intros b; apply Hf].
Qed.

Lemma emits_modify (f : World -> World) :
  (forall w, trace (f w) = trace w) -> emits P (modify f).
Proof.
  intros Hf w. exists []. rewrite app_nil_r. split; [apply Hf | constructor].
Qed.

Lemma emits_get_world : emits P get_world.
Proof. intros w. exists []. rewrite app_nil_r. split; [reflexivity | constructor]. Qed.

End Emits.

Section RaisesOnly.

Context (E : exn -> Prop).

Lemma raises_only_ret {A} (a : A) : raises_only E (ret a).
Proof. intros w e H. discriminate H. Qed.

Lemma raises_only_raise {A} e : E e -> raises_only E (raise e : M A).
Proof. intros He w e' H. injection H as <-. exact He. Qed.

Lemma raises_only_bind {A B} (m : M A) (k : A -> M B) :
  raises_only E m -> (forall a, raises_only E (k a)) -> raises_only E (bind m k).
Proof.
  intros Hm Hk w e. unfold bind. specialize (Hm w).
  destruct (m w) as [[a|e'|] w1]; simpl in *; intros H.
  - exact (Hk a w1 e H).
  - injection H as <-. now apply Hm.
  - discriminate H.
Qed.

Lemma raises_only_call_status env c : raises_only E (call_status env c).
Proof.
  intros w e. unfold call_status. destruct (exit_status env c _); discriminate.
Qed.

Lemma raises_only_call_test env c : raises_only E (call_test env c).
Proof. intros w e H. discriminate H. Qed.

Lemma raises_only_call_or_raise env c e :
  E e -> raises_only E (call_or_raise env c e).
Proof.
  intros He w e'. unfold call_or_raise. destruct (call_ok env c _); intros H.
  - discriminate H.
  - injection H as <-. exact He.
Qed.

Lemma raises_only_open_read env p : E IOError -> raises_only E (open_read env p).
Proof.
  intros He w e. unfold open_read. destruct (file_data env p _); intros H.
  - discriminate H.
  - injection H as <-. exact He.
Qed.

Lemma raises_only_emit c : raises_only E (emit c).
Proof. intros w e H. discriminate H. Qed.

Lemma raises_only_for_each {A} (l : list A) body :
  (forall x, raises_only E (body x)) -> raises_only E (for_each l body).
Proof.
  intros Hb. induction l as [|x l IH]; simpl.
  - apply raises_only_ret.
  - apply raises_only_bind; [apply Hb | intros _; exact IH].
Qed.

Lemma raises_only_fold_left {A B} (f : B -> A -> M B) (l : list A) (acc : M B) :
  raises_only E acc -> (forall b x, raises_only E (f b x)) ->
  raises_only E (fold_left (fun acc x => bind acc (fun b => f b x)) l acc).
Proof.
  intros Ha Hf. revert acc Ha. induction l as [|x l IH]; intros acc Ha; simpl.
  - exact Ha.
  - apply IH. apply raises_only_bind; [exact Ha | intros b; apply Hf].
Qed.

End RaisesOnly.

Ltac emits_step :=
  first
    [ apply emits_ret | apply emits_raise | apply emits_get_world
    | apply emits_bind; [|intros ?]
    | apply emits_for_each; intros ?
    | apply emits_fold_left; [|intros ? ?]
    | apply emits_try_except; [|intros ? ? ?]
    | apply emits_emit | apply emits_call_status | apply emits_call_test
    | apply emits_call_or_raise | apply emits_open_read ].

Ltac raises_step :=
  first
    [ apply raises_only_ret | apply raises_only_raise
    | apply raises_only_bind; [|intros ?]
    | apply raises_only_for_each; intros ?
    | apply raises_only_fold_left; [|intros ? ?]
    | apply raises_only_emit | apply raises_only_call_status
    | apply raises_only_call_test
    | apply raises_only_call_or_raise | apply raises_only_open_read ].

Lemma emits_first_char_is P c line : emits P (first_char_is c line).
Proof. destruct line; [apply emits_raise | apply emits_ret]. Qed.

Lemma emits_py_int P s : emits P (py_int s).
Proof.
  unfold py_int. repeat case_match; first [apply emits_raise | apply emits_ret].
Qed.

Lemma raises_only_first_char_is E c line :
  E IndexError -> raises_only E (first_char_is c line).
Proof. intros H. destruct line; [now apply raises_only_raise | apply raises_only_ret]. Qed.

Lemma raises_only_py_int E s : E ValueError -> raises_only E (py_int s).
Proof.
  intros H. unfold py_int.
  repeat case_match; first [now apply raises_only_raise | apply raises_only_ret].
Qed.

Ltac emits_auto :=
  repeat (first
    [ emits_step
    | apply emits_first_char_is | apply emits_py_int
    | match goal with
      | |- emits _ (if ?b then _ else _) => destruct b
      | |- emits _ (match ?x with _ => _ end) => destruct x
      end ];
    try discriminate).

Ltac raises_auto :=
  repeat (first
    [ raises_step
    | apply raises_only_first_char_is | apply raises_only_py_int
    | match goal with
      | |- raises_only _ (if ?b then _ else _) => destruct b
      | |- raises_only _ (match ?x with _ => _ end) => destruct x
      end ];
    try discriminate).


(** ** Config *)

Lemma lookup_foldr_insert {V W} (f : V -> W) (l : list (string * V))
  (o : gmap string W) (k : string) :
  foldr (fun kv acc => <[kv.1 := f kv.2]> acc) o l !! k =
  match (list_to_map l : gmap string V) !! k with
  | Some v => Some (f v)
  | None => o !! k
  end.
Proof.
  induction l as [|[k0 v0] l IH]; simpl.
  - now rewrite lookup_empty.
  - destruct (decide (k0 = k)) as [->|Hne].
    + now rewrite !lookup_insert_eq.
    + rewrite !lookup_insert_ne by assumption. exact IH.
Qed.

Lemma lookup_filtered_items {V} (p : string -> bool) (m : gmap string V)
  (k : string) :
  (list_to_map (List.filter (fun kv => p kv.1) (map_to_list m)) : gmap string V) !! k =
  if p k then m !! k else None.
Proof.
  assert (Hnd : NoDup (List.filter (fun kv => p kv.1) (map_to_list m)).*1).
  { pose proof (NoDup_fst_map_to_list m) as H.
    induction (map_to_list m) as [|[k0 v0] l IH]; simpl in *; [constructor|].
    inversion H as [|? ? Hnot Hl]; subst.
    destruct (p k0); simpl; [|now apply IH].
    constructor; [|now apply IH].
    intros Hin. apply Hnot.
    apply list_elem_of_fmap in Hin as [[k1 v1] [-> Hin]].
    apply list_elem_of_fmap. exists (k1, v1). split; [reflexivity|].
    apply list_elem_of_In in Hin. apply List.filter_In in Hin as [Hin _].
    now apply list_elem_of_In. }
  destruct (list_to_map _ !! k) as [v|] eqn:E.
  - apply elem_of_list_to_map in E; [|exact Hnd].
    apply list_elem_of_In, List.filter_In in E as [Hin Hp]. simpl in Hp.
    rewrite Hp. symmetry. apply elem_of_map_to_list. now apply list_elem_of_In.
  - destruct (p k) eqn:Hp; [|reflexivity].
    destruct (m !! k) as [v|] eqn:Em; [|reflexivity].
    exfalso. apply not_elem_of_list_to_map in E. apply E.
    apply list_elem_of_fmap. exists (k, v). split; [reflexivity|].
    apply list_elem_of_In, List.filter_In. split; [|exact Hp].
    apply list_elem_of_In. now apply elem_of_map_to_list.
Qed.

(** What the loop of [parse_kernel_options] leaves under a key. *)
Lemma lookup_apply_kernel_options kopts (o : gmap string PyVal) k :
  apply_kernel_options kopts o !! k =
  match kopts !! k with
  | Some v => if kernel_key k then Some (kernel_value v) else o !! k
  | None => o !! k
  end.
Proof.
  unfold apply_kernel_options.
  rewrite lookup_foldr_insert, lookup_filtered_items.
  destruct (kernel_key k), (kopts !! k); reflexivity.
Qed.

Lemma options_item_some (c : Config) k v w :
  options c !! k = Some v -> options_item c k w = (Ok v, w).
Proof. intros H. unfold options_item. now rewrite H. Qed.

Lemma kernel_cmdline_push env c w :
  c <> Open "/proc/cmdline" ->
  kernel_cmdline env (push c w) = kernel_cmdline env w.
Proof. intros H. unfold kernel_cmdline. now rewrite seen_push_ne. Qed.

Lemma live_flag_push env c w :
  c <> Open "/proc/cmdline" -> c <> Exists "/run/pisilinux/livemedia" ->
  live_flag env (push c w) = live_flag env w.
Proof.
  intros H1 H2. unfold live_flag.
  now rewrite kernel_cmdline_push, seen_push_ne.
Qed.

(** [parse_kernel_options] returns, and its option map is the normalised
    merge of the kernel options into the map it started from. *)
Lemma parse_kernel_options_spec env self w :
  is_Some (options self !! "language") ->
  is_Some (options self !! "keymap") ->
  exists cfg w',
    parse_kernel_options env self w = (Ok cfg, w') /\
    fstab cfg = fstab self /\
    options cfg =
      normalize (apply_kernel_options (kernel_cmdline env w)
                   (<["live" := VBool (live_flag env w)]> (options self))).
Proof.
  intros [lang0 Hl] [km0 Hk].
  unfold parse_kernel_options.
  assert (Hko : exists w1, get_kernel_option env "mudur" w = (Ok (kernel_cmdline env w), w1) /\ w1 = push (Open "/proc/cmdline") w).
  { unfold get_kernel_option, try_except, bind, open_read, kernel_cmdline, ret.
    destruct (file_data env "/proc/cmdline" _); eexists; split; reflexivity. }
  destruct Hko as (w1 & E1 & ->).
  rewrite (bind_ok _ _ _ _ _ E1).
  set (kopts := kernel_cmdline env w).
  assert (Hlive : exists w2, (if decide (is_Some (kopts !! "thin")) then ret true
           else os_path_exists env "/run/pisilinux/livemedia") (push (Open "/proc/cmdline") w) = (Ok (live_flag env w), w2)).
  { unfold live_flag. fold kopts. destruct (decide (is_Some (kopts !! "thin"))).
    - eexists; reflexivity.
    - unfold os_path_exists, call_test. rewrite seen_push_ne by discriminate. eexists; reflexivity. }
  destruct Hlive as (w2 & E2).
  rewrite (bind_ok _ _ _ _ _ E2).
  cbv zeta.
  set (o := apply_kernel_options kopts _).
  assert (Hpres : forall k, k <> "live" -> is_Some (options self !! k) -> is_Some (o !! k)).
  { intros k Hne Hs. unfold o. rewrite lookup_apply_kernel_options.
    rewrite lookup_insert_ne by congruence.
    destruct (kopts !! k); [destruct (kernel_key k)|]; eauto. }
  destruct (Hpres "language") as [lang Hlang]; [discriminate | eauto |].
  destruct (Hpres "keymap") as [km Hkm]; [discriminate | eauto |].
  assert (Hitem : forall (c : Config) k v w0, options c !! k = Some v ->
            options_item c k w0 = (Ok v, w0)).
  { intros c k v w0 H. unfold options_item. now rewrite H. }
  rewrite (bind_ok _ _ _ _ _ (Hitem (with_options self o) "language" lang w2 Hlang)).
  unfold normalize. rewrite Hlang. simpl default.
  destruct (LANGUAGES_get lang) as [l|] eqn:El.
  - rewrite (bind_ok _ _ _ (lang, o) w2) by reflexivity.
    rewrite (bind_ok _ _ _ _ _ (Hitem (with_options (with_options self o) o) "keymap" km w2 Hkm)).
    simpl snd. simpl fst. rewrite Hkm. simpl default.
    destruct (truthy km); simpl negb; cbv iota.
    + eexists _, _. split; [reflexivity|]. split; reflexivity.
    + rewrite El. eexists _, _. split; [reflexivity|]. split; reflexivity.
  - rewrite (bind_ok _ _ _ (VStr "en", <["language" := VStr "en"]> o)
               (push (Stdout (("Unknown language option '" +:+ py_str lang +:+ "'") +:+ String PyStr.LF "")) w2)) by reflexivity.
    assert (Hkm' : (<["language" := VStr "en"]> o) !! "keymap" = Some km).
    { rewrite lookup_insert_ne by discriminate. exact Hkm. }
    rewrite (bind_ok _ _ _ _ _ (Hitem (with_options (with_options self o) (<["language" := VStr "en"]> o)) "keymap" km _ Hkm')).
    simpl snd. simpl fst. rewrite Hkm'. simpl default.
    destruct (truthy km); simpl negb; cbv iota.
    + eexists _, _. split; [reflexivity|]. split; reflexivity.
    + change (LANGUAGES_get (VStr "en")) with (Some (Build_Language "us" "iso01.16" "8859-1" "en_US.UTF-8")).
      eexists _, _. split; [reflexivity|]. split; reflexivity.
Qed.

(** [Config()] returns when the configuration file, if it exists, can be
    read, and its option map is the normalised merge. *)
Lemma Config_init_spec env w conf :
  config_file env w = Some conf ->
  exists cfg w',
    Config_init env w = (Ok cfg, w') /\
    options cfg =
      normalize (apply_kernel_options (kernel_cmdline env w)
                   (<["live" := VBool (live_flag env w)]> (file_options env w conf))).
Proof.
  intros Hconf. unfold Config_init.
  rewrite (bind_ok _ _ _ tt (push Uname w)) by reflexivity.
  cbv zeta.
  set (self0 := {| fstab := None; kernel := _; options := default_options |}).
  unfold config_file in Hconf.
  rewrite (bind_ok _ _ _ (path_test env (Exists "/etc/conf.d/mudur") (seen (Exists "/etc/conf.d/mudur") w))
             (push (Exists "/etc/conf.d/mudur") (push Uname w))).
  2:{ unfold os_path_exists, call_test. now rewrite seen_push_ne by discriminate. }
  assert (Hself : exists w2,
    ((if path_test env (Exists "/etc/conf.d/mudur") (seen (Exists "/etc/conf.d/mudur") w)
      then bind (load_config env "/etc/conf.d/mudur")
             (fun conf => ret (with_options self0 ((VStr <$> conf) ∪ options self0)))
      else ret self0) (push (Exists "/etc/conf.d/mudur") (push Uname w))
     = (Ok (with_options self0 ((VStr <$> conf) ∪ default_options)), w2)) /\
    seen (Exists "/forcefsck") w2 = seen (Exists "/forcefsck") w /\
    kernel_cmdline env w2 = kernel_cmdline env w /\
    live_flag env w2 = live_flag env w).
  { destruct (path_test env _ _).
    - destruct (file_data env "/etc/conf.d/mudur" _) as [text|] eqn:Et; [|discriminate].
      injection Hconf as <-.
      exists (push (Open "/etc/conf.d/mudur") (push (Exists "/etc/conf.d/mudur") (push Uname w))).
      split.
      + unfold load_config, bind, open_read, ret.
        rewrite !seen_push_ne by discriminate. now rewrite Et.
      + rewrite !seen_push_ne, !kernel_cmdline_push, !live_flag_push by discriminate. auto.
    - injection Hconf as <-. eexists. split.
      + unfold ret. rewrite fmap_empty, (left_id_L ∅ (∪)). reflexivity.
      + rewrite !seen_push_ne, !kernel_cmdline_push, !live_flag_push by discriminate. auto. }
  destruct Hself as (w2 & E2 & Hs & Hk & Hlv).
  rewrite (bind_ok _ _ _ _ _ E2).
  rewrite (bind_ok _ _ _ (sentinel env w) (push (Exists "/forcefsck") w2)).
  2:{ unfold os_path_exists, call_test, sentinel. now rewrite Hs. }
  cbv zeta.
  edestruct (parse_kernel_options_spec env) as (cfg & w' & E & _ & Ho); 
    [| | exists cfg, w'; split; [exact E|]].
  - simpl. rewrite lookup_insert_ne by discriminate.
    rewrite lookup_union, lookup_fmap. destruct (conf !! "language"); simpl; eauto.
  - simpl. rewrite lookup_insert_ne by discriminate.
    rewrite lookup_union, lookup_fmap. destruct (conf !! "keymap"); simpl; eauto.
  - rewrite Ho. rewrite kernel_cmdline_push, live_flag_push, Hk, Hlv by discriminate.
    reflexivity.
Qed.

Lemma file_options_lookup env w conf k :
  k <> "forcefsck" ->
  file_options env w conf !! k =
  match conf !! k with
  | Some v => Some (VStr v)
  | None => default_options !! k
  end.
Proof.
  intros H. unfold file_options. rewrite lookup_insert_ne by congruence.
  rewrite lookup_union, lookup_fmap.
  destruct (conf !! k); simpl; [|now rewrite (left_id_L None union)].
  now destruct (default_options !! k).
Qed.

Lemma merged_lookup env w conf k :
  k <> "live" ->
  apply_kernel_options (kernel_cmdline env w)
    (<["live" := VBool (live_flag env w)]> (file_options env w conf)) !! k =
  match kernel_cmdline env w !! k with
  | Some v => if kernel_key k then Some (kernel_value v)
              else file_options env w conf !! k
  | None => file_options env w conf !! k
  end.
Proof.
  intros H. rewrite lookup_apply_kernel_options.
  now rewrite lookup_insert_ne by congruence.
Qed.

Lemma merged_precedence env w conf k :
  k <> "live" -> k <> "forcefsck" ->
  kernel_key k = true \/ kernel_cmdline env w !! k = None ->
  apply_kernel_options (kernel_cmdline env w)
    (<["live" := VBool (live_flag env w)]> (file_options env w conf)) !! k =
  precedence (kernel_cmdline env w) conf k.
Proof.
  intros H1 H2 H3. rewrite merged_lookup by assumption.
  unfold precedence. rewrite file_options_lookup by assumption.
  destruct (kernel_cmdline env w !! k) eqn:E; [|reflexivity].
  destruct H3 as [-> | ?]; [reflexivity | discriminate].
Qed.

Lemma normalize_lookup_other o k :
  k <> "language" -> k <> "keymap" -> normalize o !! k = o !! k.
Proof.
  intros H1 H2. unfold normalize.
  repeat case_match; simpl;
    rewrite ?lookup_insert_ne by congruence; reflexivity.
Qed.

Lemma supported_en : LANGUAGES_get (VStr "en") =
  Some (Build_Language "us" "iso01.16" "8859-1" "en_US.UTF-8").
Proof. reflexivity. Qed.

Lemma normalize_language o lang :
  o !! "language" = Some lang ->
  normalize o !! "language" = Some (resolved_language lang).
Proof.
  intros H. unfold normalize, resolved_language, supported.
  rewrite H. simpl default.
  destruct (LANGUAGES_get lang) eqn:E; cbv beta iota zeta; simpl fst; simpl snd.
  - destruct (truthy _); [exact H|]. rewrite E.
    now rewrite lookup_insert_ne by discriminate.
  - rewrite supported_en.
    destruct (truthy _).
    + now rewrite lookup_insert_eq.
    + rewrite lookup_insert_ne by discriminate. now rewrite lookup_insert_eq.
Qed.

Lemma normalize_keymap o lang km :
  o !! "language" = Some lang -> o !! "keymap" = Some km ->
  normalize o !! "keymap" =
  Some (if truthy km then km
        else match LANGUAGES_get (resolved_language lang) with
             | Some l => VStr (keymap l)
             | None => km
             end).
Proof.
  intros Hl Hk. unfold normalize, resolved_language, supported.
  rewrite Hl. simpl default.
  destruct (LANGUAGES_get lang) eqn:E; cbv beta iota zeta; simpl fst; simpl snd.
  - rewrite Hk. simpl default. destruct (truthy km); [exact Hk|].
    rewrite E. now rewrite lookup_insert_eq.
  - rewrite lookup_insert_ne by discriminate. rewrite Hk. simpl default.
    rewrite supported_en.
    destruct (truthy km).
    + now rewrite lookup_insert_ne by discriminate.
    + now rewrite lookup_insert_eq.
Qed.

Lemma table_keymaps_known l km :
  In (l, km) table_keymaps ->
  exists entry, LANGUAGES_get (VStr l) = Some entry /\ keymap entry = km.
Proof.
  unfold table_keymaps. simpl.
  intros H.
  repeat (destruct H as [H|H]; [injection H as <- <-; eexists; split; reflexivity|]).
  contradiction.
Qed.

Lemma table_keymaps_unknown lang :
  (forall l km, In (l, km) table_keymaps -> lang <> VStr l) ->
  LANGUAGES_get lang = None.
Proof.
  intros H. destruct lang as [|b|s]; try reflexivity.
  unfold LANGUAGES_get. destruct (LANGUAGES !! s) as [entry|] eqn:E; [|reflexivity].
  exfalso. unfold LANGUAGES in E.
  apply elem_of_list_to_map_2 in E. apply list_elem_of_In in E. simpl in E.
  repeat (destruct E as [E|E];
          [injection E as <- <-;
           eapply H; [|reflexivity]; unfold table_keymaps; simpl;
           repeat (first [left; reflexivity | right])|]).
  contradiction.
Qed.

(** C9. Let [lang] be the configured language (kernel command line, else
    configuration file, else default).  When it is none of the thirteen
    languages of the table, the resolved language is ["en"], and the
    resolved keymap is ["us"] when neither the kernel command line nor the
    configuration file gives a keymap.  When it is a language of the
    table it is kept, and the resolved keymap is the keymap of its table
    entry when no keymap is configured. *)
Theorem unknown_language_falls_back (env : Env) (w : World)
  (conf : gmap string string) (lang : PyVal) :
  config_file env w = Some conf ->
  precedence (kernel_cmdline env w) conf "language" = Some lang ->
  exists cfg w',
    Config_init env w = (Ok cfg, w') /\
    ((forall l km, In (l, km) table_keymaps -> lang <> VStr l) ->
     options cfg !! "language" = Some (VStr "en") /\
     (kernel_cmdline env w !! "keymap" = None -> conf !! "keymap" = None ->
      options cfg !! "keymap" = Some (VStr "us"))) /\
    (forall l km,
       In (l, km) table_keymaps -> lang = VStr l ->
       options cfg !! "language" = Some (VStr l) /\
       (kernel_cmdline env w !! "keymap" = None -> conf !! "keymap" = None ->
        options cfg !! "keymap" = Some (VStr km))).
Proof.
  intros Hconf Hlang.
  destruct (Config_init_spec env w conf Hconf) as (cfg & w' & E & Ho).
  set (merged := apply_kernel_options _ _) in Ho.
  assert (Hl : merged !! "language" = Some lang).
  { rewrite <- Hlang. apply merged_precedence; [discriminate | discriminate | now left]. }
  assert (Hk : merged !! "keymap" = precedence (kernel_cmdline env w) conf "keymap").
  { apply merged_precedence; [discriminate | discriminate | now left]. }
  assert (Hres : options cfg !! "language" = Some (resolved_language lang)).
  { rewrite Ho. now apply normalize_language. }
  assert (Hkm : kernel_cmdline env w !! "keymap" = None -> conf !! "keymap" = None ->
     options cfg !! "keymap" =
     Some (match LANGUAGES_get (resolved_language lang) with
           | Some entry => VStr (keymap entry)
           | None => VNone
           end)).
  { intros Hk1 Hk2. unfold precedence in Hk. rewrite Hk1, Hk2 in Hk.
    change (default_options !! "keymap") with (Some VNone) in Hk.
    rewrite Ho, (normalize_keymap _ _ _ Hl Hk). reflexivity. }
  exists cfg, w'. split; [exact E|]. split.
  - intros Hun. apply table_keymaps_unknown in Hun.
    assert (Hr : resolved_language lang = VStr "en").
    { unfold resolved_language, supported. now rewrite Hun. }
    rewrite Hr in Hres, Hkm. split; [exact Hres|].
    intros Hk1 Hk2. rewrite (Hkm Hk1 Hk2). reflexivity.
  - intros l km Hin ->. destruct (table_keymaps_known l km Hin) as (entry & He & <-).
    assert (Hr : resolved_language (VStr l) = VStr l).
    { unfold resolved_language, supported. now rewrite He. }
    rewrite Hr in Hres, Hkm. split; [exact Hres|].
    intros Hk1 Hk2. rewrite (Hkm Hk1 Hk2), He. reflexivity.
Qed.

(** The language [xx] of the configuration file of [env_configured] is
    resolved to ["en"], the keymap to ["us"]. *)
Lemma unknown_language_falls_back_witness :
  exists cfg w',
    Config_init env_configured fresh_world = (Ok cfg, w') /\
    options cfg !! "language" = Some (VStr "en") /\
    options cfg !! "keymap" = Some (VStr "us").
Proof.
  destruct (unknown_language_falls_back env_configured fresh_world conf_configured
              (VStr "xx"))
    as (cfg & w' & E & Hun & _).
  - vm_compute. reflexivity.
  - vm_compute. reflexivity.
  - exists cfg, w'. split; [exact E|].
    destruct Hun as [Hl Hk].
    + intros l km Hin Heq. injection Heq as <-.
      unfold table_keymaps in Hin. simpl in Hin.
      repeat (destruct Hin as [Hin|Hin]; [discriminate Hin|]). contradiction.
    + split; [exact Hl|]. apply Hk; vm_compute; reflexivity.
Defined.

(** C7, as the specification states it, fails: with [mudur=forcefsck] on
    the kernel command line the resolved [forcefsck] is [True] although the
    sentinel file does not exist. *)
Lemma forcefsck_without_sentinel :
  ~ forcefsck_iff_sentinel env_forcefsck_in_cmdline fresh_world.
Proof.
  intros H.
  assert (Hc : config_file env_forcefsck_in_cmdline fresh_world = Some ∅).
  { vm_compute. reflexivity. }
  destruct (Config_init_spec _ _ _ Hc) as (cfg & w' & E & Ho).
  destruct (H _ _ E) as (v & Hv & Hiff).
  rewrite Ho in Hv. vm_compute in Hv. injection Hv as <-.
  destruct Hiff as [Hiff _]. specialize (Hiff eq_refl).
  vm_compute in Hiff. discriminate.
Qed.

(** C7, amended.  When the [mudur=] option of the kernel command line has
    no [forcefsck] fragment, the resolved [forcefsck] is the boolean that
    says whether the sentinel file exists, whatever the configuration file
    sets. *)
Theorem forcefsck_follows_sentinel (env : Env) (w : World)
  (conf : gmap string string) :
  config_file env w = Some conf ->
  kernel_cmdline env w !! "forcefsck" = None ->
  exists cfg w',
    Config_init env w = (Ok cfg, w') /\
    options cfg !! "forcefsck" = Some (VBool (sentinel env w)) /\
    (forall v, options cfg !! "forcefsck" = Some v ->
               truthy v = true <-> sentinel env w = true).
Proof.
  intros Hconf Hk.
  destruct (Config_init_spec env w conf Hconf) as (cfg & w' & E & Ho).
  assert (Hf : options cfg !! "forcefsck" = Some (VBool (sentinel env w))).
  { rewrite Ho, normalize_lookup_other by discriminate.
    rewrite merged_lookup by discriminate. rewrite Hk.
    unfold file_options. now rewrite lookup_insert_eq. }
  exists cfg, w'. repeat split; try assumption.
  - intros Ht. rewrite Hf in H. now injection H as <-.
  - intros Hs. rewrite Hf in H. now injection H as <-.
Qed.

(** The sentinel file of [env_configured] exists, and its kernel command
    line has no [forcefsck] fragment. *)
Lemma forcefsck_follows_sentinel_witness :
  exists cfg w',
    Config_init env_configured fresh_world = (Ok cfg, w') /\
    options cfg !! "forcefsck" = Some (VBool (sentinel env_configured fresh_world)) /\
    (forall v, options cfg !! "forcefsck" = Some v ->
               truthy v = true <-> sentinel env_configured fresh_world = true).
Proof.
  apply (forcefsck_follows_sentinel env_configured fresh_world conf_configured).
  - vm_compute. reflexivity.
  - vm_compute. reflexivity.
Defined.

(** ** Cgroup bootstrap *)

(** On every system [Cgroupfs()] leaves [/etc/fstab] unread, and the exit
    with the status of the fstab guard never happens. *)
Lemma Cgroupfs_init_emits env : emits not_fstab (Cgroupfs_init env).
Proof.
  unfold Cgroupfs_init, Cgroupfs_kernel_support, Cgroupfs_check_sysfs,
    Cgroupfs_mount_cgroup, Cgroupfs_find_controllers, find_controllers_line,
    mount_controllers, Controller_mount, os_chdir,
    os_path_isfile, os_path_isdir, mountpoint, os_system, print.
  cbv zeta. change (obj_eq (OMethod "check_fstab") (OBool true)) with false. cbv iota.
  unfold not_fstab. emits_auto.
Qed.

(** The exceptions of [Cgroupfs()] on every system. *)
Lemma Cgroupfs_init_raises env : raises_only not_exit_1 (Cgroupfs_init env).
Proof.
  unfold Cgroupfs_init, Cgroupfs_kernel_support, Cgroupfs_check_sysfs,
    Cgroupfs_mount_cgroup, Cgroupfs_find_controllers, find_controllers_line,
    mount_controllers, Controller_mount, os_chdir,
    os_path_isfile, os_path_isdir, mountpoint, os_system, print.
  cbv zeta. change (obj_eq (OMethod "check_fstab") (OBool true)) with false. cbv iota.
  unfold not_exit_1. raises_auto.
Qed.

(** C5, at the failing input.  [/etc/fstab] has a cgroup line, and
    [Cgroupfs()] does not exit: it returns, without having opened
    [/etc/fstab], after mounting the cgroup root and the enabled
    controller.  ([check_fstab] itself, had it been called, answers
    [True] here.)  On no system does [Cgroupfs()] read [/etc/fstab] or
    exit with the status of the fstab guard. *)
Theorem cgroup_line_in_fstab_is_not_checked :
  (let r := Cgroupfs_init env_cgroup_in_fstab fresh_world in
   (exists controllers, r.1 = Ok controllers) /\
   trace r.2 =
     [IsFile "/proc/cgroups"; IsDir "/sys/fs/cgroup";
      System "mountpoint -q /sys/fs/cgroup";
      System " mount -t tmpfs -o uid=0,gid=0,mode=0755 cgroup /sys/fs/cgroup";
      Open "/proc/cgroups"; Chdir "/sys/fs/cgroup";
      System "mountpoint -q cpu";
      System "mkdir -p cpu; mount -n -t cgroup -o cpu cgroup cpu"] /\
   (Cgroupfs_check_fstab env_cgroup_in_fstab fresh_world).1 = Ok true) /\
  (forall env,
     emits not_fstab (Cgroupfs_init env) /\
     raises_only not_exit_1 (Cgroupfs_init env)).
Proof.
  split.
  - cbv zeta. split; [|split].
    + vm_compute. eexists. reflexivity.
    + vm_compute. reflexivity.
    + vm_compute. reflexivity.
  - intros env. split; [apply Cgroupfs_init_emits | apply Cgroupfs_init_raises].
Qed.

Lemma Controller_mount_disabled env c w :
  enabled c <> 1 -> Controller_mount env c w = (Ok None, w).
Proof.
  intros H. unfold Controller_mount.
  destruct (Z.eqb_spec (enabled c) 1); [contradiction | reflexivity].
Qed.

Lemma Controller_mount_mounted env c w :
  enabled c = 1 ->
  call_ok env (Chdir "/sys/fs/cgroup") (seen (Chdir "/sys/fs/cgroup") w) = true ->
  exit_status env (System (mountpoint_cmd (subsysname c)))
    (seen (System (mountpoint_cmd (subsysname c))) w) = Some 0 ->
  Controller_mount env c w =
  (Ok None, push (System (mountpoint_cmd (subsysname c)))
              (push (Chdir "/sys/fs/cgroup") w)).
Proof.
  intros He Hc Hm. unfold Controller_mount. rewrite He, Z.eqb_refl.
  rewrite (bind_ok _ _ _ tt (push (Chdir "/sys/fs/cgroup") w)).
  2:{ unfold os_chdir, call_or_raise. now rewrite Hc. }
  rewrite (bind_ok _ _ _ true
             (push (System (mountpoint_cmd (subsysname c)))
                (push (Chdir "/sys/fs/cgroup") w))).
  2:{ unfold mountpoint, os_system.
      rewrite (bind_ok _ _ _ 0 (push (System (mountpoint_cmd (subsysname c)))
                                  (push (Chdir "/sys/fs/cgroup") w))).
      - reflexivity.
      - unfold call_status. fold (mountpoint_cmd (subsysname c)).
        rewrite seen_push_ne by discriminate. now rewrite Hm. }
  reflexivity.
Qed.

Lemma trace_push c w : trace (push c w) = trace w ++ [c].
Proof. reflexivity. Qed.

(** Every shell command of [Controller.mount] is the question whether the
    directory is a mount point, or the mount that follows the answer no. *)
Lemma Controller_mount_commands env c w :
  exists evs,
    trace (Controller_mount env c w).2 = trace w ++ evs /\
    forall cmd, In (System cmd) evs ->
      enabled c = 1 /\
      (cmd = mountpoint_cmd (subsysname c) \/
       cmd = mount_cmd (subsysname c) /\
       exists n z,
         exit_status env (System (mountpoint_cmd (subsysname c))) n = Some z /\
         z <> 0).
Proof.
  unfold Controller_mount.
  destruct (Z.eqb_spec (enabled c) 1) as [He|He].
  2:{ exists []. simpl. rewrite app_nil_r. split; [reflexivity | contradiction]. }
  unfold bind at 1. unfold os_chdir, call_or_raise.
  destruct (call_ok env _ _).
  2:{ exists [Chdir "/sys/fs/cgroup"]. split; [reflexivity|].
      intros cmd [H|[]]. discriminate. }
  unfold bind at 1. unfold mountpoint, os_system. unfold bind at 1.
  unfold call_status at 1. fold (mountpoint_cmd (subsysname c)).
  set (w1 := push (Chdir "/sys/fs/cgroup") w).
  destruct (exit_status env (System (mountpoint_cmd (subsysname c))) _) as [z|] eqn:Ez.
  2:{ exists [Chdir "/sys/fs/cgroup"; System (mountpoint_cmd (subsysname c))].
      split; [simpl; now rewrite <- app_assoc|].
      intros cmd [H|[H|[]]]; [discriminate|]. injection H as <-. auto. }
  destruct (Z.eqb_spec z 0) as [Hz|Hz]; unfold ret at 1; simpl negb; cbv iota.
  - exists [Chdir "/sys/fs/cgroup"; System (mountpoint_cmd (subsysname c))].
    split; [simpl; now rewrite <- app_assoc|].
    intros cmd [H|[H|[]]]; [discriminate|]. injection H as <-. auto.
  - exists [Chdir "/sys/fs/cgroup"; System (mountpoint_cmd (subsysname c));
            System (mount_cmd (subsysname c))].
    split.
    + cbv zeta. unfold bind, call_status. fold (mount_cmd (subsysname c)).
      change (negb false) with true. cbv beta iota.
      destruct (exit_status env (System (mount_cmd (subsysname c))) _) as [z'|];
        [destruct (z' =? 0)|]; simpl; now rewrite <- !app_assoc.
    + intros cmd [H|[H|[H|[]]]]; [discriminate| |]; injection H as <-;
        (split; [assumption|]); [now left | right].
      split; [reflexivity|]. eauto.
Qed.

Lemma mount_cmd_not_mountpoint_cmd s s' : mount_cmd s <> mountpoint_cmd s'.
Proof. unfold mount_cmd, mountpoint_cmd. simpl. discriminate. Qed.

Lemma probe_has_no_mount items s :
  ~ In (System (mount_cmd s)) (flat_map probe items).
Proof.
  intros H. apply in_flat_map in H as (kv & _ & H).
  unfold probe in H. destruct (enabled kv.2 =? 1); [|contradiction].
  destruct H as [H|[H|[]]]; [discriminate|].
  apply (mount_cmd_not_mountpoint_cmd s (subsysname kv.2)). congruence.
Qed.

(** The shell commands of the controller-mount step, on any system. *)
Lemma mount_controllers_commands env items w :
  exists evs,
    trace (mount_controllers env items w).2 = trace w ++ evs /\
    forall cmd, In (System cmd) evs ->
      exists kv, In kv items /\ enabled kv.2 = 1 /\
        (cmd = mountpoint_cmd (subsysname kv.2) \/
         cmd = mount_cmd (subsysname kv.2) /\
         exists n z,
           exit_status env (System (mountpoint_cmd (subsysname kv.2))) n = Some z /\
           z <> 0).
Proof.
  revert w. induction items as [|kv items IH]; intros w.
  - exists []. simpl. rewrite app_nil_r. split; [reflexivity | contradiction].
  - unfold mount_controllers. simpl for_each.
    destruct (Controller_mount_commands env kv.2 w) as (e1 & Ht1 & Hc1).
    unfold bind at 1. unfold bind at 1.
    destruct (Controller_mount env kv.2 w) as [[r| |] w1] eqn:E1; simpl in Ht1.
    + unfold ret at 1. fold (mount_controllers env items).
      destruct (IH w1) as (e2 & Ht2 & Hc2).
      exists (e1 ++ e2). split.
      * rewrite Ht2, Ht1. now rewrite app_assoc.
      * intros cmd Hin. apply in_app_or in Hin as [Hin|Hin].
        -- exists kv. split; [now left|]. now apply Hc1.
        -- destruct (Hc2 cmd Hin) as (kv' & Hkv' & H'). exists kv'.
           split; [now right | exact H'].
    + exists e1. split; [exact Ht1|]. intros cmd Hin.
      exists kv. split; [now left|]. now apply Hc1.
    + exists e1. split; [exact Ht1|]. intros cmd Hin.
      exists kv. split; [now left|]. now apply Hc1.
Qed.

(** C8. On a hierarchy in which the directory of every enabled controller
    is a mount point, the controller-mount step returns having asked
    [mountpoint -q] for each enabled controller and nothing else: no
    [mount] is run.  A controller whose [enabled] is not [1] makes
    [Controller.mount] do nothing, in every state; and on any system a
    [mount] is run only for a controller with [enabled == 1] whose
    [mountpoint -q] answered with a status other than [0]. *)
Theorem controller_mount_step_idempotent (env : Env)
  (items : list (string * Controller)) (w : World) :
  (forall n, call_ok env (Chdir "/sys/fs/cgroup") n = true) ->
  (forall kv n, In kv items -> enabled kv.2 = 1 ->
     exit_status env (System (mountpoint_cmd (subsysname kv.2))) n = Some 0) ->
  (exists w',
     mount_controllers env items w = (Ok tt, w') /\
     trace w' = trace w ++ flat_map probe items /\
     forall s, ~ In (System (mount_cmd s)) (flat_map probe items)) /\
  (forall kv w0, In kv items -> enabled kv.2 <> 1 ->
     Controller_mount env kv.2 w0 = (Ok None, w0)) /\
  (forall env' w0, exists evs,
     trace (mount_controllers env' items w0).2 = trace w0 ++ evs /\
     forall s, In (System (mount_cmd s)) evs ->
       exists kv n z, In kv items /\ enabled kv.2 = 1 /\
         mount_cmd s = mount_cmd (subsysname kv.2) /\
         exit_status env' (System (mountpoint_cmd (subsysname kv.2))) n = Some z /\
         z <> 0).
Proof.
  intros Hcd Hmp. split; [|split].
  - revert w. induction items as [|kv items IH]; intros w.
    + exists w. simpl. rewrite app_nil_r. repeat split. intros s [].
    + unfold mount_controllers. simpl for_each.
      assert (Hstep : exists w1,
                 Controller_mount env kv.2 w = (Ok None, w1) /\
                 trace w1 = trace w ++ probe kv).
      { unfold probe. destruct (Z.eqb_spec (enabled kv.2) 1) as [He|He].
        - eexists. split.
          + apply Controller_mount_mounted; [exact He | apply Hcd |].
            apply Hmp; [now left | exact He].
          + simpl. now rewrite <- app_assoc.
        - exists w. split; [now apply Controller_mount_disabled|].
          now rewrite app_nil_r. }
      destruct Hstep as (w1 & E1 & Ht1).
      rewrite (bind_ok _ _ _ tt w1).
      2:{ now rewrite (bind_ok _ _ _ _ _ E1). }
      fold (mount_controllers env items).
      destruct (IH (fun kv' n Hin => Hmp kv' n (or_intror Hin)) w1)
        as (w' & E & Ht & _).
      exists w'. split; [exact E|]. split.
      * rewrite Ht, Ht1. simpl. now rewrite app_assoc.
      * apply probe_has_no_mount.
  - intros kv w0 _ He. now apply Controller_mount_disabled.
  - intros env' w0.
    destruct (mount_controllers_commands env' items w0) as (evs & Ht & Hc).
    exists evs. split; [exact Ht|]. intros s Hin.
    destruct (Hc _ Hin) as (kv & Hkv & He & [Heq | (Heq & n & z & Hz & Hnz)]).
    + now apply mount_cmd_not_mountpoint_cmd in Heq.
    + exists kv, n, z. auto.
Qed.

(** The hierarchy of [env_cgroup_mounted]: [cpu] is enabled and mounted,
    [memory] is not enabled. *)
Lemma controller_mount_step_idempotent_witness :
  (exists w',
     mount_controllers env_cgroup_mounted cgroup_items fresh_world = (Ok tt, w') /\
     trace w' = trace fresh_world ++ flat_map probe cgroup_items /\
     forall s, ~ In (System (mount_cmd s)) (flat_map probe cgroup_items)) /\
  (forall kv w0, In kv cgroup_items -> enabled kv.2 <> 1 ->
     Controller_mount env_cgroup_mounted kv.2 w0 = (Ok None, w0)) /\
  (forall env' w0, exists evs,
     trace (mount_controllers env' cgroup_items w0).2 = trace w0 ++ evs /\
     forall s, In (System (mount_cmd s)) evs ->
       exists kv n z, In kv cgroup_items /\ enabled kv.2 = 1 /\
         mount_cmd s = mount_cmd (subsysname kv.2) /\
         exit_status env' (System (mountpoint_cmd (subsysname kv.2))) n = Some z /\
         z <> 0).
Proof.
  apply (controller_mount_step_idempotent env_cgroup_mounted cgroup_items fresh_world).
  - intros n. reflexivity.
  - intros kv n _ _. reflexivity.
Defined.

(** The step run twice on the system of [env_cgroup_in_fstab] once its
    mounts have succeeded: the second run asks and mounts nothing. *)
Example second_run_mounts_nothing :
  trace (mount_controllers env_cgroup_mounted cgroup_items
           (mount_controllers env_cgroup_mounted cgroup_items fresh_world).2).2 =
  [Chdir "/sys/fs/cgroup"; System "mountpoint -q cpu";
   Chdir "/sys/fs/cgroup"; System "mountpoint -q cpu"].
Proof. vm_compute. reflexivity. Qed.

(** ** The user interface only chatters *)

Lemma chatters_refl w : chatters w w.
Proof.
  exists [], []. rewrite !app_nil_r. repeat split. constructor.
Qed.

Lemma chatters_trans w1 w2 w3 :
  chatters w1 w2 -> chatters w2 w3 -> chatters w1 w3.
Proof.
  intros (e1 & l1 & Ht1 & Hf1 & Hl1 & Hc1 & Ha1 & Hr1)
         (e2 & l2 & Ht2 & Hf2 & Hl2 & Hc2 & Ha2 & Hr2).
  exists (e1 ++ e2), (l1 ++ l2).
  rewrite Ht2, Ht1, Hl2, Hl1, Hc2, Hc1, Ha2, Ha1, Hr2, Hr1, !app_assoc.
  repeat split. now apply Forall_app.
Qed.

Lemma chatters_push c w : chatter c -> chatters w (push c w).
Proof.
  intros H. exists [c], []. rewrite app_nil_r. repeat split.
  now repeat constructor.
Qed.

Lemma occ_chatter c evs : ~ chatter c -> Forall chatter evs -> occ c evs = 0%nat.
Proof.
  intros Hc. induction 1 as [|e evs He _ IH]; simpl; [reflexivity|].
  rewrite IH. destruct (decide (e = c)) as [->|]; [contradiction | reflexivity].
Qed.

Lemma chatters_seen c w w' : ~ chatter c -> chatters w w' -> seen c w' = seen c w.
Proof.
  intros Hc (evs & l & Ht & Hf & _). unfold seen. rewrite Ht, occ_app.
  rewrite (occ_chatter c evs Hc Hf). lia.
Qed.

Lemma chatters_options w w' : chatters w w' -> options (CONFIG w') = options (CONFIG w).
Proof. intros (evs & l & _ & _ & _ & -> & _). reflexivity. Qed.

Lemma chatters_running w w' : chatters w w' -> SPLASH_running w' = SPLASH_running w.
Proof. intros (evs & l & _ & _ & _ & _ & _ & ->). reflexivity. Qed.

Lemma CONFIG_get_some key v w :
  options (CONFIG w) !! key = Some v -> CONFIG_get key w = (Ok v, w).
Proof.
  intros H. unfold CONFIG_get, get_world.
  rewrite (bind_ok _ _ w w w) by reflexivity.
  unfold try_except. now rewrite (options_item_some _ _ _ _ H).
Qed.

(** [CONFIG.get] always returns, after some chatter for an unknown key. *)
Lemma CONFIG_get_returns key w :
  exists v w', CONFIG_get key w = (Ok v, w') /\ chatters w w' /\
    (forall x, options (CONFIG w) !! key = Some x -> v = x /\ w' = w).
Proof.
  destruct (options (CONFIG w) !! key) as [v|] eqn:E.
  - exists v, w. rewrite (CONFIG_get_some _ _ _ E).
    split; [reflexivity|]. split; [apply chatters_refl|].
    intros x Hx. now injection Hx as <-.
  - eexists VNone, _. split; [|split].
    + unfold CONFIG_get, get_world.
      rewrite (bind_ok _ _ w w w) by reflexivity.
      unfold try_except, options_item. rewrite E. unfold raise.
      unfold bind, print, time_sleep, emit, ret. reflexivity.
    + eapply chatters_trans; apply chatters_push; exact I.
    + intros x Hx. discriminate.
Qed.

Lemma LOGGER_log_spec env msg w :
  exists w', LOGGER_log env msg w = (Ok tt, w') /\ chatters w w' /\
    LOGGER w' = LOGGER w ++ [log_line env (List.length (LOGGER w)) msg].
Proof.
  eexists. split; [reflexivity|]. split; [|reflexivity].
  exists [], [log_line env (List.length (LOGGER w)) msg].
  rewrite app_nil_r. repeat split. constructor.
Qed.

Lemma when_true (m : M unit) : when true m = m.
Proof. reflexivity. Qed.

Lemma when_false (m : M unit) w : when false m w = (Ok tt, w).
Proof. reflexivity. Qed.

Lemma UI_info_spec env msg w :
  exists w', UI_info env msg w = (Ok tt, w') /\ chatters w w'.
Proof.
  unfold UI_info.
  destruct (CONFIG_get_returns "debug" w) as (d & w1 & E1 & C1 & _).
  rewrite (bind_ok _ _ _ _ _ E1).
  assert (H2 : exists w2, when (truthy d) (LOGGER_log env msg) w1 = (Ok tt, w2) /\
                          chatters w1 w2).
  { destruct (truthy d).
    - destruct (LOGGER_log_spec env msg w1) as (w2 & E2 & C2 & _). eauto.
    - exists w1. split; [reflexivity | apply chatters_refl]. }
  destruct H2 as (w2 & E2 & C2).
  rewrite (bind_ok _ _ _ _ _ E2).
  eexists. split; [reflexivity|].
  eapply chatters_trans; [exact C1|]. eapply chatters_trans; [exact C2|].
  now apply chatters_push.
Qed.

(** [UI.warn] logs the message and writes it in yellow. *)
Lemma UI_warn_spec env msg w :
  exists w',
    UI_warn env msg w = (Ok tt, w') /\ chatters w w' /\
    trace w' = trace w ++ [warning msg] /\
    LOGGER w' = LOGGER w ++ [log_line env (List.length (LOGGER w)) msg].
Proof.
  unfold UI_warn.
  destruct (LOGGER_log_spec env msg w) as (w1 & E1 & C1 & L1).
  rewrite (bind_ok _ _ _ _ _ E1).
  eexists. split; [reflexivity|]. split; [|split].
  - eapply chatters_trans; [exact C1|]. now apply chatters_push.
  - unfold LOGGER_log, modify in E1. injection E1 as <-. reflexivity.
  - unfold stdout_write, emit. simpl. exact L1.
Qed.

Lemma SPLASH_send_cmd_spec env cmd w :
  splash_answers env ->
  exists w', SPLASH_send_cmd env cmd w = (Ok tt, w') /\ chatters w w'.
Proof.
  intros Ha. unfold SPLASH_send_cmd, get_world.
  rewrite (bind_ok _ _ w w w) by reflexivity.
  destruct (SPLASH_running w).
  - destruct (Ha cmd (seen (Exec Quiet (SPLASH_client :: cmd)) w)) as [z Hz].
    rewrite (bind_ok _ _ _ z (push (Exec Quiet (SPLASH_client :: cmd)) w)).
    + eexists. split; [reflexivity|]. apply chatters_push. reflexivity.
    + unfold run_quiet, call_status. now rewrite Hz.
  - exists w. split; [reflexivity | apply chatters_refl].
Qed.

Lemma SPLASH_update_spec env name w :
  splash_answers env ->
  exists w', SPLASH_update env name w = (Ok tt, w') /\ chatters w w'.
Proof. apply SPLASH_send_cmd_spec. Qed.

Lemma SPLASH_hide_splash_spec env w :
  splash_answers env ->
  exists w', SPLASH_hide_splash env w = (Ok tt, w') /\ chatters w w'.
Proof. apply SPLASH_send_cmd_spec. Qed.

Lemma SPLASH_quit_spec env b w :
  splash_answers env ->
  exists w', SPLASH_quit env b w = (Ok tt, w') /\ chatters w w'.
Proof. apply SPLASH_send_cmd_spec. Qed.

(** [UI.error] reports to the splash screen, logs the message and writes
    it in red. *)
Lemma UI_error_spec env msg w :
  splash_answers env ->
  exists w' w1,
    UI_error env msg w = (Ok tt, w') /\ chatters w w' /\
    chatters w w1 /\ trace w' = trace w1 ++ [error msg].
Proof.
  intros Ha. unfold UI_error.
  destruct (SPLASH_send_cmd_spec env ["report-error"] w Ha) as (w1 & E1 & C1).
  unfold SPLASH_report_error. rewrite (bind_ok _ _ _ _ _ E1).
  destruct (LOGGER_log_spec env msg w1) as (w2 & E2 & C2 & L2).
  rewrite (bind_ok _ _ _ _ _ E2).
  eexists _, w2. split; [reflexivity|]. split; [|split].
  - eapply chatters_trans; [exact C1|]. eapply chatters_trans; [exact C2|].
    now apply chatters_push.
  - eapply chatters_trans; eassumption.
  - reflexivity.
Qed.

Lemma responsive_splash env : responsive env -> splash_answers env.
Proof. intros H cmd n. apply H. Qed.

Lemma call_status_some env c z w :
  exit_status env c (seen c w) = Some z ->
  call_status env c w = (Ok z, push c w).
Proof. intros H. unfold call_status. now rewrite H. Qed.

Lemma call_status_none env c w :
  exit_status env c (seen c w) = None ->
  call_status env c w = (Halt, push c w).
Proof. intros H. unfold call_status. now rewrite H. Qed.

Lemma bind_assoc {A B C} (m : M A) (k : A -> M B) (k2 : B -> M C) w :
  bind (bind m k) k2 w = bind m (fun x => bind (k x) k2) w.
Proof. unfold bind. destruct (m w) as [[a|e|] w1]; reflexivity. Qed.

Lemma bind_ret {A B} (a : A) (k : A -> M B) w : bind (ret a) k w = k a w.
Proof. reflexivity. Qed.

Lemma chatters_trace w w' :
  chatters w w' -> exists evs, trace w' = trace w ++ evs /\ Forall chatter evs.
Proof. intros (evs & l & Ht & Hf & _). eauto. Qed.

Lemma chatters_logger w w' :
  chatters w w' -> exists lines, LOGGER w' = LOGGER w ++ lines.
Proof. intros (evs & l & _ & _ & Hl & _). eauto. Qed.

Ltac step E := rewrite (bind_ok _ _ _ _ _ E).

Ltac negb_norm :=
  try change (negb false) with true; try change (negb true) with false;
  cbv beta iota.

(** ** The check of all file systems *)

(** One run of [check_filesystems] in which [fsck] is started and exits
    with [rc]: the calls before [fsck] are chatter, the calls right after
    it are about the sentinel file, then comes what the exit status asks
    for, and the milestone is sent to the splash screen. *)
Lemma check_filesystems_run env w forced live rc :
  options (CONFIG w) !! "lxc_guest" = Some (VStr "no") ->
  options (CONFIG w) !! "live" = Some live -> truthy live = false ->
  options (CONFIG w) !! "forcefsck" = Some forced ->
  responsive env ->
  (forall n, call_ok env (Unlink "/forcefsck") n = true) ->
  exit_status env (Exec Inherit (fsck_all_cmd (truthy forced)))
    (seen (Exec Inherit (fsck_all_cmd (truthy forced))) w) = Some rc ->
  exists w' pre mid out post,
    check_filesystems env w = (Ok tt, w') /\
    trace w' = trace w ++ pre ++ [Exec Inherit (fsck_all_cmd (truthy forced))]
                 ++ mid ++ out ++ post /\
    Forall chatter pre /\ Forall sentinel_call mid /\ Forall chatter post /\
    (rc = 0 -> out = []) /\
    (rc = 2 \/ rc = 3 ->
     out = [warning (tr env "Filesystem errors corrected")] /\
     exists n, In (log_line env n (tr env "Filesystem errors corrected")) (LOGGER w')) /\
    (rc <> 0 -> rc <> 2 -> rc <> 3 ->
     exists rpt,
       out = rpt ++ [error (tr env "Fsck could not correct all errors, manual repair needed");
                     sulogin_call] /\
       Forall chatter rpt).
Proof.
  intros Hg Hl Hlf Hf Hr Hu Hrc.
  pose proof (responsive_splash env Hr) as Ha.
  unfold check_filesystems, skip_for_lxc_guests.
  step (CONFIG_get_some "lxc_guest" _ w Hg).
  change (eq_str (VStr "no") "no") with true. cbv iota.
  unfold plymouth_update_milestone.
  rewrite bind_assoc.
  step (CONFIG_get_some "live" _ w Hl). rewrite Hlf. simpl negb. rewrite when_true.
  rewrite bind_assoc.
  destruct (UI_info_spec env (tr env "Checking all filesystems") w) as (w1 & E1 & C1).
  step E1. rewrite bind_assoc.
  assert (Hf1 : options (CONFIG w1) !! "forcefsck" = Some forced).
  { now rewrite (chatters_options _ _ C1). }
  step (CONFIG_get_some "forcefsck" _ w1 Hf1).
  rewrite bind_assoc.
  set (fsck := Exec Inherit (fsck_all_cmd (truthy forced))) in *.
  assert (Hphase : exists w2 pre mid,
    (if truthy forced
     then bind (SPLASH_hide_splash env) (fun _ =>
          bind (UI_info env (tr env "A full fsck has been forced")) (fun _ =>
          bind (run_full env ["/sbin/fsck"; "-C"; "-R"; "-A"; "-a"; "-f"]) (fun rc0 =>
          bind (os_path_exists env "/forcefsck") (fun there =>
          bind (when there (os_unlink env "/forcefsck")) (fun _ => ret rc0)))))
     else run_full env ["/sbin/fsck"; "-C"; "-T"; "-R"; "-A"; "-a"]) w1 = (Ok rc, w2) /\
    trace w2 = trace w ++ pre ++ [fsck] ++ mid /\
    Forall chatter pre /\ Forall sentinel_call mid).
  { destruct (chatters_trace _ _ C1) as (e1 & Ht1 & Hc1).
    unfold fsck in *. destruct (truthy forced).
    - destruct (SPLASH_hide_splash_spec env w1 Ha) as (wa & Ea & Ca). step Ea.
      destruct (UI_info_spec env (tr env "A full fsck has been forced") wa) as (wb & Eb & Cb).
      step Eb.
      pose proof (chatters_trans _ _ _ C1 (chatters_trans _ _ _ Ca Cb)) as Cwb.
      destruct (chatters_trace _ _ Cwb) as (eb & Htb & Hcb).
      unfold run_full. rewrite (bind_ok _ _ _ rc (push (Exec Inherit (fsck_all_cmd true)) wb)).
      2:{ apply call_status_some. rewrite (chatters_seen (Exec Inherit (fsck_all_cmd true)) _ _ (fun H => H) Cwb). exact Hrc. }
      unfold os_path_exists, call_test at 1. unfold bind at 1.
      destruct (path_test env _ _).
      + rewrite when_true. unfold os_unlink, call_or_raise, bind. rewrite Hu.
        eexists _, eb, [Exists "/forcefsck"; Unlink "/forcefsck"].
        split; [reflexivity|]. split; [|split; [exact Hcb|]].
        * simpl. rewrite Htb. now rewrite <- !app_assoc.
        * constructor; [now left|]. constructor; [now right|]. constructor.
      + eexists _, eb, [Exists "/forcefsck"].
        split; [reflexivity|]. split; [|split; [exact Hcb|]].
        * simpl. rewrite Htb. now rewrite <- !app_assoc.
        * constructor; [now left|]. constructor.
    - unfold run_full.
      exists (push (Exec Inherit (fsck_all_cmd false)) w1), e1, [].
      split; [|split; [|split; [exact Hc1 | constructor]]].
      + apply call_status_some. rewrite (chatters_seen (Exec Inherit (fsck_all_cmd false)) _ _ (fun H => H) C1). exact Hrc.
      + simpl. rewrite Ht1. now rewrite <- !app_assoc. }
  destruct Hphase as (w2 & pre & mid & E2 & Ht2 & Hpre & Hmid).
  step E2. clear E2.
  assert (Hout : exists w3 out,
    (if rc =? 0 then ret tt
     else if ((2 <=? rc) && (rc <=? 3))%bool
          then UI_warn env (tr env "Filesystem errors corrected")
          else bind (UI_error env (tr env "Fsck could not correct all errors, manual repair needed"))
                 (fun _ => bind (run_full env ["/sbin/sulogin"]) (fun _ => ret tt))) w2
    = (Ok tt, w3) /\
    trace w3 = trace w2 ++ out /\
    (rc = 0 -> out = []) /\
    (rc = 2 \/ rc = 3 ->
     out = [warning (tr env "Filesystem errors corrected")] /\
     exists n, In (log_line env n (tr env "Filesystem errors corrected")) (LOGGER w3)) /\
    (rc <> 0 -> rc <> 2 -> rc <> 3 ->
     exists rpt,
       out = rpt ++ [error (tr env "Fsck could not correct all errors, manual repair needed");
                     sulogin_call] /\
       Forall chatter rpt)).
  { destruct (Z.eqb_spec rc 0) as [->|Hn0].
    - exists w2, []. rewrite app_nil_r. repeat split; try lia.
    - destruct ((2 <=? rc) && (rc <=? 3))%bool eqn:E23.
      + apply andb_true_iff in E23 as [H2 H3].
        apply Z.leb_le in H2, H3.
        destruct (UI_warn_spec env (tr env "Filesystem errors corrected") w2)
          as (w3 & E3 & C3 & Ht3 & Hl3).
        exists w3, [warning (tr env "Filesystem errors corrected")].
        repeat split; try assumption; try lia.
        eexists. rewrite Hl3. apply in_or_app. right. now left.
      + destruct (UI_error_spec env (tr env "Fsck could not correct all errors, manual repair needed") w2 Ha)
          as (w3 & wr & E3 & C3 & Cr & Ht3).
        step E3.
        destruct (Hr sulogin_call (seen sulogin_call w3)) as [z Hz].
        unfold run_full. rewrite (bind_ok _ _ _ _ _ (call_status_some _ _ _ _ Hz)).
        destruct (chatters_trace _ _ Cr) as (rpt & Htr & Hcr).
        eexists _, (rpt ++ [error (tr env "Fsck could not correct all errors, manual repair needed"); sulogin_call]).
        split; [reflexivity|]. split; [|split; [|split]].
        * simpl. rewrite Ht3, Htr. now rewrite <- !app_assoc.
        * intros ->. contradiction.
        * intros [->| ->]; discriminate.
        * intros _ _ _. exists rpt. split; [reflexivity | exact Hcr]. }
  destruct Hout as (w3 & out & E3 & Ht3 & H0 & H23 & Hother).
  step E3.
  destruct (SPLASH_update_spec env "check_filesystems" w3 Ha) as (w4 & E4 & C4).
  rewrite E4.
  destruct (chatters_trace _ _ C4) as (post & Ht4 & Hpost).
  exists w4, pre, mid, out, post.
  split; [reflexivity|]. split; [|repeat split; try assumption].
  - rewrite Ht4, Ht3, Ht2. now rewrite <- !app_assoc.
  - apply H23. assumption.
  - destruct (H23 H) as (_ & n & Hin).
    destruct (chatters_logger _ _ C4) as (l & Hl4).
    exists n. rewrite Hl4. apply in_or_app. now left.
Qed.

Lemma occ_none c evs : Forall (fun e => e <> c) evs -> occ c evs = 0%nat.
Proof.
  induction 1 as [|e evs He _ IH]; simpl; [reflexivity|].
  rewrite IH. destruct (decide (e = c)); [contradiction | reflexivity].
Qed.

Lemma occ_one c : occ c [c] = 1%nat.
Proof. simpl. destruct (decide (c = c)); [reflexivity | contradiction]. Qed.

Lemma occ_other c e : e <> c -> occ c [e] = 0%nat.
Proof. intros H. apply occ_none. now repeat constructor. Qed.

Lemma chatter_ne c e : ~ chatter c -> chatter e -> e <> c.
Proof. intros Hc He ->. contradiction. Qed.

Lemma occ_chatter_app c evs :
  ~ chatter c -> Forall chatter evs -> Forall (fun e => e <> c) evs.
Proof.
  intros Hc. apply List.Forall_impl. intros e He. now apply (chatter_ne c e).
Qed.

(** ** The check of the root file system *)

Lemma load_file_loaded env path w :
  load_file env path w = (Ok (loaded env path w), push (Open path) w).
Proof.
  unfold load_file, loaded, try_except, bind, open_read, ret.
  destruct (file_data env path _); reflexivity.
Qed.

Lemma get_fstab_entry_spec env mp w :
  exists w' evs,
    get_fstab_entry_with_mountpoint env mp w =
      (Ok (List.find (fstab_entry_matches mp) (fstab_table env w)), w') /\
    trace w' = trace w ++ evs /\ Forall (fun c => c = Open "/etc/fstab") evs /\
    options (CONFIG w') = options (CONFIG w) /\
    LOGGER w' = LOGGER w /\
    SPLASH_running w' = SPLASH_running w.
Proof.
  unfold get_fstab_entry_with_mountpoint, get_world, fstab_table.
  rewrite (bind_ok _ _ w w w) by reflexivity.
  assert (Hread : exists w',
     bind (load_file env "/etc/fstab") (fun text =>
       let table := List.map PyStr.split_ws (PyStr.split PyStr.LF text) in
       bind (modify (fun w => set_CONFIG (with_fstab (CONFIG w) (Some table)) w))
         (fun _ => ret table)) w
     = (Ok (table_of (loaded env "/etc/fstab" w)), w') /\
     trace w' = trace w ++ [Open "/etc/fstab"] /\
     options (CONFIG w') = options (CONFIG w) /\
     LOGGER w' = LOGGER w /\ SPLASH_running w' = SPLASH_running w).
  { step (load_file_loaded env "/etc/fstab" w).
    cbv zeta. unfold bind, modify, ret, table_of. eexists. split; [reflexivity|].
    repeat split. }
  destruct (fstab (CONFIG w)) as [[|e t]|].
  - destruct Hread as (w' & E & Ht & Ho & Hl & Hr). step E.
    exists w', [Open "/etc/fstab"]. repeat split; try assumption. now repeat constructor.
  - rewrite bind_ret. exists w, []. rewrite app_nil_r. repeat split. constructor.
  - destruct Hread as (w' & E & Ht & Ho & Hl & Hr). step E.
    exists w', [Open "/etc/fstab"]. repeat split; try assumption. now repeat constructor.
Qed.

(** The forced-reboot path: the reboot is its last call, and the path
    returns exactly when the reboot command does. *)
Lemma forced_reboot_run env w :
  splash_answers env ->
  exists w2 hide,
    (bind (SPLASH_hide_splash env) (fun _ =>
     bind (UI_warn env (tr env "Filesystem repaired, but reboot needed!")) (fun _ =>
     bind (times 4 (bind (print (String BEL "")) (fun _ => time_sleep 1))) (fun _ =>
     bind (UI_warn env (tr env "Rebooting in 10 seconds...")) (fun _ =>
     bind (time_sleep 10) (fun _ =>
     bind (UI_warn env (tr env "Rebooting...")) (fun _ =>
     bind (run env ["/sbin/reboot"; "-f"]) (fun _ => ret tt)))))))) w
    = (match exit_status env reboot_call (seen reboot_call w) with
       | Some _ => Ok tt
       | None => Halt
       end, w2) /\
    trace w2 = trace w ++ hide ++ reboot_path env /\
    Forall chatter hide.
Proof.
  intros Ha.
  destruct (SPLASH_hide_splash_spec env w Ha) as (w1 & E1 & C1). step E1.
  destruct (chatters_trace _ _ C1) as (hide & Ht1 & Hh).
  destruct (UI_warn_spec env (tr env "Filesystem repaired, but reboot needed!") w1)
    as (wa & Ea & Ca & Hta & _). step Ea.
  set (wb := push (Sleep 1) (push bell (push (Sleep 1) (push bell
             (push (Sleep 1) (push bell (push (Sleep 1) (push bell wa)))))))).
  rewrite (bind_ok _ _ _ tt wb) by reflexivity.
  assert (Cb : chatters wa wb).
  { unfold wb. repeat (eapply chatters_trans; [|apply chatters_push; exact I]).
    apply chatters_refl. }
  destruct (UI_warn_spec env (tr env "Rebooting in 10 seconds...") wb)
    as (wc & Ec & Cc & Htc & _). step Ec.
  rewrite (bind_ok _ _ _ tt (push (Sleep 10) wc)) by reflexivity.
  destruct (UI_warn_spec env (tr env "Rebooting...") (push (Sleep 10) wc))
    as (wd & Ed & Cd & Htd & _). step Ed.
  assert (Cwd : chatters w wd).
  { eapply chatters_trans; [exact C1|]. eapply chatters_trans; [exact Ca|].
    eapply chatters_trans; [exact Cb|]. eapply chatters_trans; [exact Cc|].
    eapply chatters_trans; [apply (chatters_push (Sleep 10)); exact I | exact Cd]. }
  assert (Hs : seen reboot_call wd = seen reboot_call w).
  { apply chatters_seen; [|exact Cwd]. intros H. exact H. }
  exists (push reboot_call wd), hide.
  split; [|split; [|exact Hh]].
  - unfold run, bind, call_status. fold reboot_call. rewrite Hs.
    destruct (exit_status env reboot_call (seen reboot_call w)); reflexivity.
  - simpl. rewrite Htd. simpl. rewrite Htc. unfold wb. simpl. rewrite Hta, Ht1.
    unfold reboot_path. now rewrite <- !app_assoc.
Qed.

Lemma chatter_prelude c : chatter c -> root_prelude c.
Proof. now left. Qed.

Lemma Forall_chatter_prelude evs : Forall chatter evs -> Forall root_prelude evs.
Proof. apply List.Forall_impl. exact chatter_prelude. Qed.

(** One run of [check_root_filesystem] in which [fsck] is started and
    exits with [rc]. *)
Lemma check_root_filesystem_run env w forced live entry rc :
  options (CONFIG w) !! "lxc_guest" = Some (VStr "no") ->
  options (CONFIG w) !! "live" = Some live -> truthy live = false ->
  options (CONFIG w) !! "forcefsck" = Some forced ->
  root_entry env w = Some entry ->
  (truthy forced || passno_set entry)%bool = true ->
  responsive_but env reboot_call ->
  exit_status env (Exec Inherit (fsck_root_cmd (truthy forced)))
    (seen (Exec Inherit (fsck_root_cmd (truthy forced))) w) = Some rc ->
  exists r w' pre out post,
    check_root_filesystem env w = (r, w') /\
    trace w' = trace w ++ pre ++ [Exec Inherit (fsck_root_cmd (truthy forced))]
                 ++ out ++ post /\
    Forall root_prelude pre /\ Forall chatter post /\
    (rc = 0 -> r = Ok tt /\ out = []) /\
    (rc = 2 \/ rc = 3 ->
     (exists hide, out = hide ++ reboot_path env /\ Forall chatter hide) /\
     match exit_status env reboot_call (seen reboot_call w) with
     | Some _ => r = Ok tt
     | None => r = Halt /\ post = []
     end) /\
    (rc <> 0 -> rc <> 2 -> rc <> 3 ->
     r = Ok tt /\
     exists rpt,
       out = rpt ++ [error (tr env "Filesystem could not be repaired"); sulogin_call] /\
       Forall chatter rpt).
Proof.
  intros Hg Hl Hlf Hf Hroot Hcond Hr Hrc.
  assert (Ha : splash_answers env).
  { intros cmd n. apply Hr. discriminate. }
  unfold check_root_filesystem, skip_for_lxc_guests.
  step (CONFIG_get_some "lxc_guest" _ w Hg).
  change (eq_str (VStr "no") "no") with true. cbv iota.
  unfold plymouth_update_milestone.
  rewrite bind_assoc.
  step (CONFIG_get_some "live" _ w Hl). rewrite Hlf. simpl negb. rewrite when_true.
  rewrite bind_assoc.
  destruct (get_fstab_entry_spec env "/" w) as (wf & ef & Ef & Htf & Hef & Hof & _ & _).
  fold (root_entry env w) in Ef. rewrite Hroot in Ef. step Ef.
  rewrite bind_assoc.
  assert (Hff : options (CONFIG wf) !! "forcefsck" = Some forced) by now rewrite Hof.
  step (CONFIG_get_some "forcefsck" _ wf Hff). rewrite Hcond.
  rewrite bind_assoc.
  destruct (UI_info_spec env (tr env "Remounting root filesystem read-only") wf)
    as (w1 & E1 & C1). step E1.
  rewrite bind_assoc.
  destruct (Hr remount_ro_call (seen remount_ro_call w1)) as [z Hz]; [discriminate|].
  unfold run_quiet at 1. fold remount_ro_call.
  step (call_status_some _ _ _ _ Hz).
  rewrite bind_assoc.
  set (w2 := push remount_ro_call w1).
  assert (Hf2 : options (CONFIG w2) !! "forcefsck" = Some forced).
  { unfold w2. simpl. now rewrite (chatters_options _ _ C1). }
  step (CONFIG_get_some "forcefsck" _ w2 Hf2).
  rewrite bind_assoc.
  set (fsck := Exec Inherit (fsck_root_cmd (truthy forced))) in *.
  destruct (chatters_trace _ _ C1) as (e1 & Ht1 & Hc1).
  assert (Hpre2 : trace w2 = trace w ++ (ef ++ e1 ++ [remount_ro_call]) /\
                  Forall root_prelude (ef ++ e1 ++ [remount_ro_call])).
  { split.
    - unfold w2. simpl. rewrite Ht1, Htf. now rewrite <- !app_assoc.
    - apply Forall_app. split.
      + eapply List.Forall_impl; [|exact Hef]. intros c ->. right. now left.
      + apply Forall_app. split; [now apply Forall_chatter_prelude|].
        constructor; [right; now right | constructor]. }
  destruct Hpre2 as [Ht2 Hp2].
  assert (Hnp : ~ root_prelude fsck).
  { unfold fsck. intros [H|[H|H]]; [exact H | discriminate H |].
    unfold remount_ro_call in H. discriminate H. }
  assert (Hseen : forall w' evs, trace w' = trace w ++ evs -> Forall root_prelude evs ->
                                 seen fsck w' = seen fsck w).
  { intros w' evs Ht Hfa. unfold seen. rewrite Ht, occ_app.
    assert (occ fsck evs = 0%nat) as ->; [|lia].
    apply occ_none. eapply List.Forall_impl; [|exact Hfa].
    intros e He ->. contradiction. }
  assert (Hphase : exists w3 pre,
    (if truthy forced
     then bind (SPLASH_hide_splash env) (fun _ =>
          bind (UI_info env (tr env "Checking root filesystem (full check forced)")) (fun _ =>
          run_full env ["/sbin/fsck"; "-C"; "-y"; "-f"; "/"]))
     else bind (UI_info env (tr env "Checking root filesystem")) (fun _ =>
          run_full env ["/sbin/fsck"; "-C"; "-T"; "-a"; "/"])) w2 = (Ok rc, w3) /\
    trace w3 = trace w ++ pre ++ [fsck] /\ Forall root_prelude pre).
  { unfold fsck in *. destruct (truthy forced).
    - destruct (SPLASH_hide_splash_spec env w2 Ha) as (wa & Ea & Ca). step Ea.
      destruct (UI_info_spec env (tr env "Checking root filesystem (full check forced)") wa)
        as (wb & Eb & Cb). step Eb.
      destruct (chatters_trace _ _ (chatters_trans _ _ _ Ca Cb)) as (eb & Htb & Hcb).
      assert (Htb' : trace wb = trace w ++ ((ef ++ e1 ++ [remount_ro_call]) ++ eb)).
      { rewrite Htb, Ht2. now rewrite <- !app_assoc. }
      assert (Hpb : Forall root_prelude ((ef ++ e1 ++ [remount_ro_call]) ++ eb)).
      { apply Forall_app. split; [exact Hp2 | now apply Forall_chatter_prelude]. }
      eexists _, _. split; [|split; [|exact Hpb]].
      + apply (call_status_some env (Exec Inherit (fsck_root_cmd true))). rewrite (Hseen _ _ Htb' Hpb). exact Hrc.
      + simpl. rewrite Htb'. now rewrite <- !app_assoc.
    - destruct (UI_info_spec env (tr env "Checking root filesystem") w2)
        as (wb & Eb & Cb). step Eb.
      destruct (chatters_trace _ _ Cb) as (eb & Htb & Hcb).
      assert (Htb' : trace wb = trace w ++ ((ef ++ e1 ++ [remount_ro_call]) ++ eb)).
      { rewrite Htb, Ht2. now rewrite <- !app_assoc. }
      assert (Hpb : Forall root_prelude ((ef ++ e1 ++ [remount_ro_call]) ++ eb)).
      { apply Forall_app. split; [exact Hp2 | now apply Forall_chatter_prelude]. }
      eexists _, _. split; [|split; [|exact Hpb]].
      + apply (call_status_some env (Exec Inherit (fsck_root_cmd false))). rewrite (Hseen _ _ Htb' Hpb). exact Hrc.
      + simpl. rewrite Htb'. now rewrite <- !app_assoc. }
  destruct Hphase as (w3 & pre & E3 & Ht3 & Hpre).
  step E3. clear E3.
  assert (Hs3 : seen reboot_call w3 = seen reboot_call w).
  { unfold seen. rewrite Ht3, !occ_app.
    assert (occ reboot_call pre = 0%nat) as ->.
    { apply occ_none. eapply List.Forall_impl; [|exact Hpre].
      intros e [H|[->| ->]]; [|discriminate|discriminate].
      apply (chatter_ne reboot_call e); [intros H'; exact H' | exact H]. }
    rewrite occ_other; [lia|]. unfold fsck. discriminate. }
  destruct (Z.eqb_spec rc 0) as [->|Hn0].
  { rewrite bind_ret.
    destruct (SPLASH_update_spec env "check_root_filesystem" w3 Ha) as (w4 & E4 & C4).
    rewrite E4.
    destruct (chatters_trace _ _ C4) as (post & Ht4 & Hpost).
    exists (Ok tt), w4, pre, [], post.
    split; [reflexivity|]. split; [|repeat split; try assumption; try lia].
    rewrite Ht4, Ht3. now rewrite <- !app_assoc. }
  destruct ((rc =? 2) || (rc =? 3))%bool eqn:E23.
  - assert (H23 : rc = 2 \/ rc = 3).
    { apply orb_true_iff in E23 as [H|H]; apply Z.eqb_eq in H; auto. }
    destruct (forced_reboot_run env w3 Ha) as (w4 & hide & E4 & Ht4 & Hh).
    rewrite Hs3 in E4.
    rewrite bind_assoc.
    assert (Hflat : forall wz,
      bind (SPLASH_hide_splash env) (fun x =>
        bind (bind (UI_warn env (tr env "Filesystem repaired, but reboot needed!")) (fun _ =>
              bind (times 4 (bind (print (String BEL "")) (fun _ => time_sleep 1))) (fun _ =>
              bind (UI_warn env (tr env "Rebooting in 10 seconds...")) (fun _ =>
              bind (time_sleep 10) (fun _ =>
              bind (UI_warn env (tr env "Rebooting...")) (fun _ =>
              bind (run env ["/sbin/reboot"; "-f"]) (fun _ => ret tt)))))))
          (fun _ => SPLASH_update env "check_root_filesystem")) wz
      = bind (bind (SPLASH_hide_splash env) (fun _ =>
              bind (UI_warn env (tr env "Filesystem repaired, but reboot needed!")) (fun _ =>
              bind (times 4 (bind (print (String BEL "")) (fun _ => time_sleep 1))) (fun _ =>
              bind (UI_warn env (tr env "Rebooting in 10 seconds...")) (fun _ =>
              bind (time_sleep 10) (fun _ =>
              bind (UI_warn env (tr env "Rebooting...")) (fun _ =>
              bind (run env ["/sbin/reboot"; "-f"]) (fun _ => ret tt))))))))
          (fun _ => SPLASH_update env "check_root_filesystem") wz).
    { intros wz. now rewrite bind_assoc. }
    rewrite Hflat. clear Hflat.
    destruct (exit_status env reboot_call (seen reboot_call w)) as [zr|].
    + step E4.
      destruct (SPLASH_update_spec env "check_root_filesystem" w4 Ha) as (w5 & E5 & C5).
      rewrite E5.
      destruct (chatters_trace _ _ C5) as (post & Ht5 & Hpost).
      exists (Ok tt), w5, pre, (hide ++ reboot_path env), post.
      split; [reflexivity|]. split; [|repeat split; try assumption; try lia; eauto].
      rewrite Ht5, Ht4, Ht3. now rewrite <- !app_assoc.
    + rewrite (bind_halt _ _ _ _ E4).
      exists Halt, w4, pre, (hide ++ reboot_path env), [].
      split; [reflexivity|]. split; [|repeat split; try assumption; try lia; eauto].
      rewrite Ht4, Ht3, app_nil_r. now rewrite <- !app_assoc.
  - assert (Hn2 : rc <> 2 /\ rc <> 3).
    { apply orb_false_iff in E23 as [H2 H3]. apply Z.eqb_neq in H2, H3. auto. }
    rewrite !bind_assoc.
    destruct (UI_error_spec env (tr env "Filesystem could not be repaired") w3 Ha)
      as (w4 & wr & E4 & C4 & Cr & Ht4).
    step E4. rewrite bind_assoc.
    destruct (Hr sulogin_call (seen sulogin_call w4)) as [z' Hz']; [discriminate|].
    unfold run_full. fold sulogin_call. step (call_status_some _ _ _ _ Hz').
    rewrite bind_ret.
    destruct (SPLASH_update_spec env "check_root_filesystem" (push sulogin_call w4) Ha)
      as (w5 & E5 & C5).
    rewrite E5.
    destruct (chatters_trace _ _ C5) as (post & Ht5 & Hpost).
    destruct (chatters_trace _ _ Cr) as (rpt & Htr & Hcr).
    exists (Ok tt), w5, pre,
      (rpt ++ [error (tr env "Filesystem could not be repaired"); sulogin_call]), post.
    split; [reflexivity|]. split; [|repeat split; try assumption; try lia; eauto].
    rewrite Ht5. simpl. rewrite Ht4, Htr, Ht3. now rewrite <- !app_assoc.
Qed.

Lemma occ_reboot_path env : occ reboot_call (reboot_path env) = 1%nat.
Proof. reflexivity. Qed.


Lemma prelude_ne c :
  ~ chatter c -> c <> Open "/etc/fstab" -> c <> remount_ro_call ->
  forall evs, Forall root_prelude evs -> occ c evs = 0%nat.
Proof.
  intros Hc Ho Hm evs H. apply occ_none.
  eapply List.Forall_impl; [|exact H].
  intros e [He|[->| ->]]; [|congruence|congruence].
  now apply (chatter_ne c e).
Qed.

Lemma sentinel_ne c :
  c <> Exists "/forcefsck" -> c <> Unlink "/forcefsck" ->
  forall evs, Forall sentinel_call evs -> occ c evs = 0%nat.
Proof.
  intros H1 H2 evs H. apply occ_none.
  eapply List.Forall_impl; [|exact H].
  intros e [->| ->]; congruence.
Qed.

Lemma not_chatter_reboot : ~ chatter reboot_call.
Proof. intros H. exact H. Qed.

Lemma not_chatter_sulogin : ~ chatter sulogin_call.
Proof. intros H. exact H. Qed.





(** The same run, evaluated: the procedure halts in the reboot. *)
Example root_check_repaired_run :
  let r := check_root_filesystem env_root_repaired fresh_world in
  r.1 = Halt /\
  trace r.2 =
    [Open "/etc/fstab";
     info "Remounting root filesystem read-only";
     remount_ro_call;
     info "Checking root filesystem";
     Exec Inherit (fsck_root_cmd false)] ++ reboot_path env_root_repaired.
Proof. vm_compute. split; reflexivity. Qed.

(** The run on which the reboot fails: the root check returns, after the
    milestone of the splash screen. *)
Example reboot_comes_back_run :
  let r := check_root_filesystem env_reboot_comes_back fresh_world in
  r.1 = Ok tt /\
  trace r.2 =
    [Open "/etc/fstab";
     info "Remounting root filesystem read-only";
     remount_ro_call;
     info "Checking root filesystem";
     Exec Inherit (fsck_root_cmd false)] ++ reboot_path env_reboot_comes_back.
Proof. vm_compute. split; reflexivity. Qed.

(** ** The two checks differ *)

(** C4. When the check of all file systems runs [fsck] and it exits with
    2 or 3, the procedure only warns: the warning is written and logged,
    no reboot and no rescue shell is started, and it returns; the root
    check, with the same status, runs [reboot -f].  With status 0 nothing
    is reported; with any other status the rescue shell [sulogin] is
    started once, after the error message. *)
Theorem all_check_repaired_only_warns (env : Env) (w : World)
  (forced live : PyVal) (rc : Z) :
  options (CONFIG w) !! "lxc_guest" = Some (VStr "no") ->
  options (CONFIG w) !! "live" = Some live -> truthy live = false ->
  options (CONFIG w) !! "forcefsck" = Some forced ->
  responsive env ->
  (forall n, call_ok env (Unlink "/forcefsck") n = true) ->
  exit_status env (Exec Inherit (fsck_all_cmd (truthy forced)))
    (seen (Exec Inherit (fsck_all_cmd (truthy forced))) w) = Some rc ->
  exists w' evs,
    check_filesystems env w = (Ok tt, w') /\
    trace w' = trace w ++ evs /\
    occ reboot_call evs = 0%nat /\
    (rc = 0 -> occ sulogin_call evs = 0%nat) /\
    (rc = 2 \/ rc = 3 ->
     occ sulogin_call evs = 0%nat /\
     (exists pre mid post,
        evs = pre ++ [Exec Inherit (fsck_all_cmd (truthy forced))] ++ mid ++
              [warning (tr env "Filesystem errors corrected")] ++ post /\
        Forall chatter pre /\ Forall sentinel_call mid /\ Forall chatter post) /\
     (exists n, In (log_line env n (tr env "Filesystem errors corrected")) (LOGGER w')) /\
     (forall w0 live0 entry0,
        options (CONFIG w0) !! "lxc_guest" = Some (VStr "no") ->
        options (CONFIG w0) !! "live" = Some live0 -> truthy live0 = false ->
        options (CONFIG w0) !! "forcefsck" = Some forced ->
        root_entry env w0 = Some entry0 ->
        (truthy forced || passno_set entry0)%bool = true ->
        exit_status env (Exec Inherit (fsck_root_cmd (truthy forced)))
          (seen (Exec Inherit (fsck_root_cmd (truthy forced))) w0) = Some rc ->
        exists r0 w0' evs0,
          check_root_filesystem env w0 = (r0, w0') /\
          trace w0' = trace w0 ++ evs0 /\
          occ reboot_call evs0 = 1%nat)) /\
    (rc <> 0 -> rc <> 2 -> rc <> 3 ->
     occ sulogin_call evs = 1%nat /\
     exists before after,
       evs = before ++
             [error (tr env "Fsck could not correct all errors, manual repair needed");
              sulogin_call] ++ after).
Proof.
  intros Hg Hl Hlf Hf Hr Hu Hrc.
  destruct (check_filesystems_run env w forced live rc Hg Hl Hlf Hf Hr Hu Hrc)
    as (w' & pre & mid & out & post & E & Ht & Hpre & Hmid & Hpost & H0 & H23 & Hoth).
  set (fsck := Exec Inherit (fsck_all_cmd (truthy forced))) in *.
  pose proof (occ_chatter sulogin_call pre not_chatter_sulogin Hpre) as Hpre_s.
  pose proof (occ_chatter reboot_call pre not_chatter_reboot Hpre) as Hpre_r.
  pose proof (occ_chatter sulogin_call post not_chatter_sulogin Hpost) as Hpost_s.
  pose proof (occ_chatter reboot_call post not_chatter_reboot Hpost) as Hpost_r.
  assert (Hmid_s : occ sulogin_call mid = 0%nat).
  { apply sentinel_ne; [discriminate | discriminate | exact Hmid]. }
  assert (Hmid_r : occ reboot_call mid = 0%nat).
  { apply sentinel_ne; [discriminate | discriminate | exact Hmid]. }
  assert (Hf_s : occ sulogin_call [fsck] = 0%nat).
  { apply occ_other. unfold fsck. destruct (truthy forced); discriminate. }
  assert (Hf_r : occ reboot_call [fsck] = 0%nat).
  { apply occ_other. unfold fsck. discriminate. }
  assert (Hout_r : occ reboot_call out = 0%nat).
  { destruct (Z.eq_dec rc 0) as [Hz|Hn0]; [now rewrite (H0 Hz)|].
    destruct (Z.eq_dec rc 2) as [Hz|Hn2]; [destruct (H23 (or_introl Hz)) as [-> _]; reflexivity|].
    destruct (Z.eq_dec rc 3) as [Hz|Hn3]; [destruct (H23 (or_intror Hz)) as [-> _]; reflexivity|].
    destruct (Hoth Hn0 Hn2 Hn3) as (rpt & -> & Hrpt).
    rewrite occ_app, (occ_chatter reboot_call rpt not_chatter_reboot Hrpt). reflexivity. }
  exists w', (pre ++ [fsck] ++ mid ++ out ++ post).
  split; [exact E|]. split; [exact Ht|]. split; [|split; [|split]].
  - rewrite !occ_app, Hpre_r, Hf_r, Hmid_r, Hout_r, Hpost_r. reflexivity.
  - intros Hz. rewrite (H0 Hz).
    rewrite !occ_app, Hpre_s, Hf_s, Hmid_s, Hpost_s. reflexivity.
  - intros Hz. destruct (H23 Hz) as (-> & Hlog).
    split; [|split; [|split]].
    + rewrite !occ_app, Hpre_s, Hf_s, Hmid_s, Hpost_s. reflexivity.
    + exists pre, mid, post. repeat split; assumption.
    + exact Hlog.
    + intros w0 live0 entry0 Hg0 Hl0 Hlf0 Hf0 Hroot0 Hcond0 Hrc0.
      assert (Hrb : responsive_but env reboot_call) by (intros c n _; apply Hr).
      destruct (check_root_filesystem_run env w0 forced live0 entry0 rc
                  Hg0 Hl0 Hlf0 Hf0 Hroot0 Hcond0 Hrb Hrc0)
        as (r0 & w0' & pre0 & out0 & post0 & E0 & Ht0 & Hpre0 & Hpost0 & _ & H23' & _).
      destruct (H23' Hz) as ((hide & -> & Hh) & _).
      exists r0, w0', (pre0 ++ [Exec Inherit (fsck_root_cmd (truthy forced))] ++
                       (hide ++ reboot_path env) ++ post0).
      split; [exact E0|]. split; [exact Ht0|].
      rewrite !occ_app, occ_reboot_path.
      rewrite (prelude_ne reboot_call not_chatter_reboot) by (try discriminate; exact Hpre0).
      rewrite (occ_chatter reboot_call hide not_chatter_reboot Hh).
      rewrite (occ_chatter reboot_call post0 not_chatter_reboot Hpost0).
      rewrite occ_other by discriminate. reflexivity.
  - intros Hn0 Hn2 Hn3. destruct (Hoth Hn0 Hn2 Hn3) as (rpt & -> & Hrpt).
    split.
    + rewrite !occ_app, Hpre_s, Hf_s, Hmid_s, Hpost_s.
      rewrite (occ_chatter sulogin_call rpt not_chatter_sulogin Hrpt). reflexivity.
    + exists (pre ++ [fsck] ++ mid ++ rpt), post. now rewrite <- !app_assoc.
Qed.

Lemma env_others_repaired_responsive : responsive env_others_repaired.
Proof.
  intros c n. unfold env_others_repaired, sim_env. cbn [exit_status].
  destruct (decide (c = Exec Inherit (fsck_all_cmd false))); [eexists; reflexivity|].
  destruct (decide (c = Exec Inherit (fsck_root_cmd false))); eexists; reflexivity.
Defined.

(** On the system of [env_others_repaired], where [fsck -A] exits with 3. *)
Lemma all_check_repaired_only_warns_witness :
  exists w' evs,
    check_filesystems env_others_repaired fresh_world = (Ok tt, w') /\
    trace w' = trace fresh_world ++ evs /\
    occ reboot_call evs = 0%nat /\
    (3 = 0 -> occ sulogin_call evs = 0%nat) /\
    (3 = 2 \/ 3 = 3 ->
     occ sulogin_call evs = 0%nat /\
     (exists pre mid post,
        evs = pre ++ [Exec Inherit (fsck_all_cmd (truthy (VBool false)))] ++ mid ++
              [warning (tr env_others_repaired "Filesystem errors corrected")] ++ post /\
        Forall chatter pre /\ Forall sentinel_call mid /\ Forall chatter post) /\
     (exists n, In (log_line env_others_repaired n
                      (tr env_others_repaired "Filesystem errors corrected"))
                  (LOGGER w')) /\
     (forall w0 live0 entry0,
        options (CONFIG w0) !! "lxc_guest" = Some (VStr "no") ->
        options (CONFIG w0) !! "live" = Some live0 -> truthy live0 = false ->
        options (CONFIG w0) !! "forcefsck" = Some (VBool false) ->
        root_entry env_others_repaired w0 = Some entry0 ->
        (truthy (VBool false) || passno_set entry0)%bool = true ->
        exit_status env_others_repaired
          (Exec Inherit (fsck_root_cmd (truthy (VBool false))))
          (seen (Exec Inherit (fsck_root_cmd (truthy (VBool false)))) w0) = Some 3 ->
        exists r0 w0' evs0,
          check_root_filesystem env_others_repaired w0 = (r0, w0') /\
          trace w0' = trace w0 ++ evs0 /\
          occ reboot_call evs0 = 1%nat)) /\
    (3 <> 0 -> 3 <> 2 -> 3 <> 3 ->
     occ sulogin_call evs = 1%nat /\
     exists before after,
       evs = before ++
             [error (tr env_others_repaired
                       "Fsck could not correct all errors, manual repair needed");
              sulogin_call] ++ after).
Proof.
  apply (all_check_repaired_only_warns env_others_repaired fresh_world
           (VBool false) (VBool false) 3).
  - vm_compute. reflexivity.
  - vm_compute. reflexivity.
  - reflexivity.
  - vm_compute. reflexivity.
  - exact env_others_repaired_responsive.
  - intros n. reflexivity.
  - vm_compute. reflexivity.
Defined.

(** The two checks on that system, evaluated: the same exit status, a
    warning in one and a reboot in the other. *)
Example checks_differ_on_status_3 :
  trace (check_filesystems env_others_repaired fresh_world).2 =
    [info "Checking all filesystems";
     Exec Inherit (fsck_all_cmd false);
     warning "Filesystem errors corrected"] /\
  trace (check_root_filesystem env_others_repaired fresh_world).2 =
    [Open "/etc/fstab";
     info "Remounting root filesystem read-only";
     remount_ro_call;
     info "Checking root filesystem";
     Exec Inherit (fsck_root_cmd false)] ++ reboot_path env_others_repaired.
Proof. vm_compute. split; reflexivity. Qed.

(** ** The shutdown: the remount ladder *)

Lemma rootfs_entry_item1 fields :
  rootfs_entry fields = true -> item1 fields = ret "/".
Proof.
  unfold rootfs_entry, item1. intros H.
  apply andb_true_iff in H as [_ H].
  destruct (fields !! 1%nat) as [m|]; [|discriminate].
  apply String.eqb_eq in H. now subst.
Qed.

Lemma find_rootfs_item1 tbl fields :
  List.find rootfs_entry tbl = Some fields -> item1 fields = ret "/".
Proof. intros H. apply List.find_some in H as [_ H]. now apply rootfs_entry_item1. Qed.

Lemma not_chatter_ladder_cmd force : ~ chatter (ladder_cmd force).
Proof. destruct force; intros H; discriminate H. Qed.

(** One attempt of the ladder on a listed root: the attempt, and the
    kill-all signal when it fails. *)
Lemma remount_ro_run env force w rc :
  responsive env -> root_listed env ->
  exit_status env (ladder_cmd force) (seen (ladder_cmd force) w) = Some rc ->
  exists w' mid,
    remount_ro env force w = (Ok rc, w') /\
    trace w' = trace w ++ ladder_step force mid rc /\
    Forall chatter mid.
Proof.
  intros Hr Hroot Hrc. unfold ladder_step.
  pose proof (responsive_splash env Hr) as Ha.
  unfold remount_ro.
  step (load_file_loaded env "/proc/mounts" w).
  destruct (Hroot (seen (Open "/proc/mounts") w)) as (data & fields & Hd & Hfind).
  unfold loaded. rewrite Hd. unfold table_of in Hfind. rewrite Hfind.
  set (w0 := push (Open "/proc/mounts") w).
  destruct (SPLASH_update_spec env "remount_ro" w0 Ha) as (w1 & E1 & C1). step E1.
  destruct (SPLASH_quit_spec env true w1 Ha) as (w2 & E2 & C2). step E2.
  rewrite (find_rootfs_item1 _ _ Hfind). rewrite bind_ret.
  pose proof (chatters_trans _ _ _ C1 C2) as C02.
  destruct (chatters_trace _ _ C02) as (mid & Htm & Hmid).
  assert (Hs : seen (ladder_cmd force) w2 = seen (ladder_cmd force) w).
  { rewrite (chatters_seen _ _ _ (not_chatter_ladder_cmd force) C02).
    unfold w0. apply seen_push_ne. destruct force; discriminate. }
  assert (Hcall : (if force then run_quiet env ["/bin/umount"; "-n"; "-r"; "/"]
                   else run_quiet env ["/bin/mount"; "-n"; "-o"; "remount,ro"; "/"]) w2
                  = (Ok rc, push (ladder_cmd force) w2)).
  { destruct force; apply call_status_some; rewrite <- Hs in Hrc; exact Hrc. }
  step Hcall. cbv zeta. rewrite Z.add_0_l.
  destruct (Z.eqb_spec rc 0) as [Hz|Hz]; simpl negb; cbv iota.
  - rewrite bind_ret. exists (push (ladder_cmd force) w2), mid.
    split; [reflexivity|]. split; [|exact Hmid].
    simpl. rewrite Htm. unfold w0. simpl. now rewrite <- !app_assoc.
  - destruct (Hr killall_call (seen killall_call (push (ladder_cmd force) w2))) as [z Hk].
    unfold run_quiet. fold killall_call. rewrite bind_assoc.
    step (call_status_some _ _ _ _ Hk). rewrite !bind_ret.
    eexists _, mid. split; [reflexivity|]. split; [|exact Hmid].
    simpl. rewrite Htm. unfold w0. simpl. now rewrite <- !app_assoc.
Qed.

Lemma not_chatter_killall : ~ chatter killall_call.
Proof. intros H. discriminate H. Qed.

Lemma ladder_step_kills force mid rc :
  Forall chatter mid ->
  occ killall_call (ladder_step force mid rc) = if rc =? 0 then 0%nat else 1%nat.
Proof.
  intros Hmid. unfold ladder_step. rewrite !occ_app.
  rewrite (occ_chatter _ _ not_chatter_killall Hmid).
  rewrite (occ_other killall_call (Open "/proc/mounts")) by discriminate.
  rewrite (occ_other killall_call (ladder_cmd force)) by (destruct force; discriminate).
  destruct (rc =? 0); [reflexivity | now rewrite occ_one].
Qed.

Lemma ladder_step_cmds force force' mid rc :
  Forall chatter mid ->
  occ (ladder_cmd force') (ladder_step force mid rc) =
  if Bool.eqb force force' then 1%nat else 0%nat.
Proof.
  intros Hmid. unfold ladder_step. rewrite !occ_app.
  rewrite (occ_chatter _ _ (not_chatter_ladder_cmd force') Hmid).
  rewrite (occ_other (ladder_cmd force') (Open "/proc/mounts"))
    by (destruct force'; discriminate).
  assert (Hk : occ (ladder_cmd force') (if rc =? 0 then [] else [killall_call]) = 0%nat).
  { destruct (rc =? 0); [reflexivity|]. apply occ_other. destruct force'; discriminate. }
  rewrite Hk.
  destruct force, force'; simpl Bool.eqb;
    first [rewrite occ_one; reflexivity | rewrite occ_other by discriminate; reflexivity].
Qed.

Lemma seen_after c w w' evs :
  trace w' = trace w ++ evs -> seen c w' = (seen c w + occ c evs)%nat.
Proof. intros H. unfold seen. now rewrite H, occ_app. Qed.

(** C1, as the specification states it, fails: both remounts fail and the
    forced unmount succeeds, and the kill-all signal has been sent twice,
    once after each failed remount. *)
Lemma kill_sent_after_each_failed_remount :
  ~ kill_only_as_last_resort (env_busy_root true) fresh_world.
Proof.
  intros H.
  destruct (H 32 32 0) as [H0 _]; try reflexivity; try discriminate.
  specialize (H0 eq_refl). vm_compute in H0. discriminate.
Qed.

(** The ladder on a listed root: every failed attempt is followed by one
    kill-all signal, and the ladder stops at the first attempt that
    succeeds. *)
Lemma remount_ladder_run (env : Env) (w : World) (r1 r2 r3 : Z) :
  responsive env -> root_listed env ->
  exit_status env remount_ro_call (seen remount_ro_call w) = Some r1 ->
  exit_status env remount_ro_call (S (seen remount_ro_call w)) = Some r2 ->
  exit_status env umount_root_call (seen umount_root_call w) = Some r3 ->
  exists w' evs,
    remount_ladder env w = (Ok tt, w') /\
    trace w' = trace w ++ evs /\
    (r1 = 0 ->
     occ killall_call evs = 0%nat /\
     occ remount_ro_call evs = 1%nat /\ occ umount_root_call evs = 0%nat) /\
    (r1 <> 0 -> r2 = 0 ->
     occ killall_call evs = 1%nat /\
     occ remount_ro_call evs = 2%nat /\ occ umount_root_call evs = 0%nat) /\
    (r1 <> 0 -> r2 <> 0 -> r3 = 0 ->
     occ killall_call evs = 2%nat /\
     occ remount_ro_call evs = 2%nat /\ occ umount_root_call evs = 1%nat) /\
    (r1 <> 0 -> r2 <> 0 -> r3 <> 0 ->
     occ killall_call evs = 3%nat /\
     occ remount_ro_call evs = 2%nat /\ occ umount_root_call evs = 1%nat).
Proof.
  intros Hr Hroot H1 H2 H3. unfold remount_ladder.
  destruct (remount_ro_run env false w r1 Hr Hroot H1) as (w1 & m1 & E1 & Ht1 & Hm1).
  step E1.
  pose proof (ladder_step_kills false m1 r1 Hm1) as K1.
  pose proof (ladder_step_cmds false false m1 r1 Hm1) as A1.
  pose proof (ladder_step_cmds false true m1 r1 Hm1) as B1.
  simpl Bool.eqb in A1, B1. cbv iota in A1, B1.
  change (ladder_cmd false) with remount_ro_call in A1.
  change (ladder_cmd true) with umount_root_call in B1.
  destruct (Z.eqb_spec r1 0) as [Hz1|Hz1]; negb_norm.
  { exists w1, (ladder_step false m1 r1).
    split; [reflexivity|]. split; [exact Ht1|].
    repeat split; intros; try contradiction; assumption. }
  assert (H2' : exit_status env (ladder_cmd false) (seen (ladder_cmd false) w1) = Some r2).
  { change (ladder_cmd false) with remount_ro_call.
    rewrite (seen_after _ _ _ _ Ht1), A1, Nat.add_1_r. exact H2. }
  destruct (remount_ro_run env false w1 r2 Hr Hroot H2') as (w2 & m2 & E2 & Ht2 & Hm2).
  step E2.
  pose proof (ladder_step_kills false m2 r2 Hm2) as K2.
  pose proof (ladder_step_cmds false false m2 r2 Hm2) as A2.
  pose proof (ladder_step_cmds false true m2 r2 Hm2) as B2.
  simpl Bool.eqb in A2, B2. cbv iota in A2, B2.
  change (ladder_cmd false) with remount_ro_call in A2.
  change (ladder_cmd true) with umount_root_call in B2.
  assert (Ht2' : trace w2 = trace w ++ (ladder_step false m1 r1 ++ ladder_step false m2 r2)).
  { rewrite Ht2, Ht1. now rewrite <- app_assoc. }
  destruct (Z.eqb_spec r2 0) as [Hz2|Hz2]; negb_norm.
  { exists w2, (ladder_step false m1 r1 ++ ladder_step false m2 r2).
    split; [reflexivity|]. split; [exact Ht2'|].
    rewrite !occ_app, K1, K2, A1, A2, B1, B2.
    repeat split; intros; try contradiction; reflexivity. }
  assert (H3' : exit_status env (ladder_cmd true) (seen (ladder_cmd true) w2) = Some r3).
  { change (ladder_cmd true) with umount_root_call.
    rewrite (seen_after _ _ _ _ Ht2'), occ_app, B1, B2, Nat.add_0_r. exact H3. }
  destruct (remount_ro_run env true w2 r3 Hr Hroot H3') as (w3 & m3 & E3 & Ht3 & Hm3).
  step E3.
  pose proof (ladder_step_kills true m3 r3 Hm3) as K3.
  pose proof (ladder_step_cmds true false m3 r3 Hm3) as A3.
  pose proof (ladder_step_cmds true true m3 r3 Hm3) as B3.
  simpl Bool.eqb in A3, B3. cbv iota in A3, B3.
  change (ladder_cmd false) with remount_ro_call in A3.
  change (ladder_cmd true) with umount_root_call in B3.
  exists w3, (ladder_step false m1 r1 ++ ladder_step false m2 r2 ++ ladder_step true m3 r3).
  split; [reflexivity|]. split.
  { rewrite Ht3, Ht2'. now rewrite <- !app_assoc. }
  rewrite !occ_app, K1, K2, K3, A1, A2, A3, B1, B2, B3.
  destruct (Z.eqb_spec r3 0);
    repeat split; intros; try contradiction; reflexivity.
Qed.

(** C1, amended.  On the ladder every failed attempt is followed by one
    kill-all signal, and the ladder stops at the first attempt that
    succeeds: no signal when the first remount succeeds, one when the
    second does, two when both remounts fail and the forced unmount
    succeeds, three when all three attempts fail.  The remount is tried at
    most twice, the forced unmount at most once. *)
Theorem remount_ladder_kills (env : Env) (w : World) (r1 r2 r3 : Z) :
  responsive env -> root_listed env ->
  exit_status env remount_ro_call (seen remount_ro_call w) = Some r1 ->
  exit_status env remount_ro_call (S (seen remount_ro_call w)) = Some r2 ->
  exit_status env umount_root_call (seen umount_root_call w) = Some r3 ->
  exists w' evs,
    remount_ladder env w = (Ok tt, w') /\
    trace w' = trace w ++ evs /\
    (r1 = 0 ->
     occ killall_call evs = 0%nat /\
     occ remount_ro_call evs = 1%nat /\ occ umount_root_call evs = 0%nat) /\
    (r1 <> 0 -> r2 = 0 ->
     occ killall_call evs = 1%nat /\
     occ remount_ro_call evs = 2%nat /\ occ umount_root_call evs = 0%nat) /\
    (r1 <> 0 -> r2 <> 0 -> r3 = 0 ->
     occ killall_call evs = 2%nat /\
     occ remount_ro_call evs = 2%nat /\ occ umount_root_call evs = 1%nat) /\
    (r1 <> 0 -> r2 <> 0 -> r3 <> 0 ->
     occ killall_call evs = 3%nat /\
     occ remount_ro_call evs = 2%nat /\ occ umount_root_call evs = 1%nat).
Proof. exact (remount_ladder_run env w r1 r2 r3). Qed.

Lemma env_busy_root_responsive b : responsive (env_busy_root b).
Proof.
  intros c n. unfold env_busy_root, sim_env. cbn [exit_status].
  destruct (decide (c = remount_ro_call)); [eexists; reflexivity|].
  destruct (decide (c = umount_root_call)); eexists; reflexivity.
Defined.

Lemma env_busy_root_listed b : root_listed (env_busy_root b).
Proof.
  intros n.
  exists proc_mounts_three, ["/dev/sda1"; "/"; "ext4"; "rw,relatime"; "0"; "0"].
  split; [reflexivity|]. vm_compute. reflexivity.
Defined.

(** Both remounts fail, the forced unmount succeeds: two signals. *)
Lemma remount_ladder_kills_witness :
  exists w' evs,
    remount_ladder (env_busy_root true) fresh_world = (Ok tt, w') /\
    trace w' = trace fresh_world ++ evs /\
    (32 = 0 ->
     occ killall_call evs = 0%nat /\
     occ remount_ro_call evs = 1%nat /\ occ umount_root_call evs = 0%nat) /\
    (32 <> 0 -> 32 = 0 ->
     occ killall_call evs = 1%nat /\
     occ remount_ro_call evs = 2%nat /\ occ umount_root_call evs = 0%nat) /\
    (32 <> 0 -> 32 <> 0 -> 0 = 0 ->
     occ killall_call evs = 2%nat /\
     occ remount_ro_call evs = 2%nat /\ occ umount_root_call evs = 1%nat) /\
    (32 <> 0 -> 32 <> 0 -> 0 <> 0 ->
     occ killall_call evs = 3%nat /\
     occ remount_ro_call evs = 2%nat /\ occ umount_root_call evs = 1%nat).
Proof.
  apply (remount_ladder_kills (env_busy_root true) fresh_world 32 32 0).
  - exact (env_busy_root_responsive true).
  - exact (env_busy_root_listed true).
  - reflexivity.
  - reflexivity.
  - reflexivity.
Defined.

(** The whole of [stop_system] on the two busy systems: the signal is
    sent twice when the forced unmount succeeds, three times when it
    fails. *)
Example stop_system_kills :
  occ killall_call (trace (stop_system (env_busy_root true) fresh_world).2) = 2%nat /\
  occ killall_call (trace (stop_system (env_busy_root false) fresh_world).2) = 3%nat.
Proof. vm_compute. split; reflexivity. Qed.

(** ** The shutdown: the order of the unmounts *)

Lemma ascii_compare_refl a : Ascii.compare a a = Eq.
Proof. unfold Ascii.compare. apply N.compare_refl. Qed.

Lemma ascii_compare_trans a b c :
  Ascii.compare a b = Lt -> Ascii.compare b c = Lt -> Ascii.compare a c = Lt.
Proof.
  unfold Ascii.compare. rewrite !N.compare_lt_iff. apply N.lt_trans.
Qed.

Lemma string_compare_trans a : forall b c,
  String.compare a b = Lt -> String.compare b c = Lt -> String.compare a c = Lt.
Proof.
  induction a as [|x a IH]; intros [|y b] [|z c]; simpl; try discriminate; auto.
  destruct (Ascii.compare x y) eqn:Exy; try discriminate;
    destruct (Ascii.compare y z) eqn:Eyz; try discriminate; intros H1 H2.
  - apply Ascii.compare_eq_iff in Exy, Eyz. subst. rewrite ascii_compare_refl. eauto.
  - apply Ascii.compare_eq_iff in Exy. subst. now rewrite Eyz.
  - apply Ascii.compare_eq_iff in Eyz. subst. now rewrite Exy.
  - now rewrite (ascii_compare_trans _ _ _ Exy Eyz).
Qed.

Lemma ltb_lt a b : PyStr.ltb a b = true <-> String.compare a b = Lt.
Proof. unfold PyStr.ltb, String.ltb. destruct (String.compare a b); split; congruence. Qed.

Lemma not_before_trans a b c : not_before a b -> not_before b c -> not_before a c.
Proof.
  unfold not_before. intros Hab Hbc.
  destruct (PyStr.ltb a c) eqn:Hac; [|reflexivity].
  apply ltb_lt in Hac.
  assert (Hba : String.compare b a <> Gt).
  { intros H. rewrite String.compare_antisym in H.
    destruct (String.compare a b) eqn:E; try discriminate.
    apply (proj2 (ltb_lt a b)) in E. congruence. }
  assert (Hcb : String.compare c b <> Gt).
  { intros H. rewrite String.compare_antisym in H.
    destruct (String.compare b c) eqn:E; try discriminate.
    apply (proj2 (ltb_lt b c)) in E. congruence. }
  destruct (String.compare b a) eqn:Eba; [| |congruence].
  - apply String.compare_eq_iff in Eba. subst b.
    apply (proj2 (ltb_lt a c)) in Hac. congruence.
  - destruct (String.compare c b) eqn:Ecb; [| |congruence].
    + apply String.compare_eq_iff in Ecb. subst c.
      rewrite String.compare_antisym, Eba in Hac. discriminate.
    + pose proof (string_compare_trans _ _ _ Ecb Eba) as Hca.
      rewrite String.compare_antisym, Hca in Hac. discriminate.
Qed.

Lemma ltb_asym a b : PyStr.ltb a b = true -> not_before a b -> False.
Proof. unfold not_before. congruence. Qed.

Lemma ltb_not_before a b : PyStr.ltb a b = true -> not_before b a.
Proof.
  unfold not_before. intros H. apply ltb_lt in H.
  destruct (PyStr.ltb b a) eqn:E; [|reflexivity].
  apply ltb_lt in E. rewrite String.compare_antisym, H in E. discriminate.
Qed.

(** A path sorts before every path under it. *)
Lemma nested_sorts_after c p : nested_in c p -> PyStr.ltb p c = true.
Proof.
  intros (rest & Hne & ->). apply ltb_lt.
  induction p as [|x p IH]; simpl.
  - destruct rest; [contradiction | reflexivity].
  - now rewrite ascii_compare_refl.
Qed.

Lemma insert_desc_perm x l : Permutation (insert_desc x l) (x :: l).
Proof.
  induction l as [|y l IH]; simpl; [reflexivity|].
  destruct (PyStr.ltb (key1 x) (key1 y)); [|reflexivity].
  rewrite IH. apply perm_swap.
Qed.

Lemma sort_desc_perm l : Permutation (sort_desc l) l.
Proof.
  induction l as [|x l IH]; simpl; [reflexivity|].
  unfold sort_desc in *. simpl. rewrite insert_desc_perm. now constructor.
Qed.

Lemma insert_desc_sorted x l :
  StronglySorted desc l -> StronglySorted desc (insert_desc x l).
Proof.
  induction 1 as [|y l Hs IH Hall]; simpl.
  - repeat constructor.
  - destruct (PyStr.ltb (key1 x) (key1 y)) eqn:E.
    + constructor; [exact IH|].
      rewrite insert_desc_perm.
      constructor; [|exact Hall]. now apply ltb_not_before.
    + constructor; [now constructor|].
      constructor; [exact E|].
      eapply List.Forall_impl; [|exact Hall].
      intros z Hz. unfold desc in *. eapply not_before_trans; [exact E | exact Hz].
Qed.

Lemma sort_desc_sorted l : StronglySorted desc (sort_desc l).
Proof.
  induction l as [|x l IH]; [constructor|].
  unfold sort_desc in *. simpl. now apply insert_desc_sorted.
Qed.

Lemma sorted_map_key1 l :
  StronglySorted desc l -> StronglySorted not_before (List.map key1 l).
Proof.
  induction 1 as [|y l Hs IH Hall]; simpl; constructor; [exact IH|].
  apply List.Forall_map. exact Hall.
Qed.

(** In a list sorted this way, a path never stands before a path under
    it. *)
Lemma sorted_nested_first (l : list string) i j p c :
  StronglySorted not_before l ->
  l !! i = Some p -> l !! j = Some c -> nested_in c p -> (j < i)%nat.
Proof.
  intros Hs. revert i j. induction Hs as [|x l Hs IH Hall]; intros i j Hi Hj Hn.
  - discriminate.
  - pose proof (nested_sorts_after _ _ Hn) as Hlt.
    destruct i as [|i], j as [|j]; simpl in *.
    + injection Hi as ->. injection Hj as ->.
      exfalso. destruct Hn as (rest & Hne & Heq).
      assert (Hl : String.length c = (String.length c + String.length rest)%nat).
      { rewrite Heq at 1. clear. induction c; simpl; auto. }
      destruct rest; [contradiction|]. simpl in Hl. lia.
    + injection Hi as ->. exfalso.
      rewrite List.Forall_forall in Hall.
      assert (Hin : In c l) by (apply list_elem_of_In; eapply list_elem_of_lookup_2; eauto).
      apply (ltb_asym _ _ Hlt). now apply Hall.
    + lia.
    + apply (IH i j Hi Hj) in Hn. lia.
Qed.

Lemma attempts_app a b : attempts (a ++ b) = attempts a ++ attempts b.
Proof. unfold attempts. apply omap_app. Qed.

Lemma chatter_no_attempt c : chatter c -> attempt_of c = None.
Proof.
  destruct c as [r argv| | | | | | | | | | | | | | | | |]; simpl; try contradiction; auto.
  destruct r; try contradiction.
  destruct argv as [|prog [|mp [|x argv]]]; try contradiction; auto.
  intros ->. reflexivity.
Qed.

Lemma ladder_no_attempt c : ladder_call c -> attempt_of c = None.
Proof.
  intros [H|[->|[->|[->| ->]]]]; [now apply chatter_no_attempt | reflexivity..].
Qed.

Lemma no_attempts P evs :
  (forall c, P c -> attempt_of c = None) -> Forall P evs -> attempts evs = [].
Proof.
  intros HP. induction 1 as [|c evs Hc _ IH]; [reflexivity|].
  unfold attempts in *. simpl. now rewrite (HP c Hc).
Qed.

Lemma fs_entry_item1 fields : fs_entry fields = true -> item1 fields = ret (key1 fields).
Proof.
  unfold fs_entry, item1, key1. intros H.
  apply andb_true_iff in H as [_ H].
  destruct (fields !! 1%nat); [reflexivity | discriminate].
Qed.

(** One turn of the loop: the unmount is attempted, once. *)
Lemma unmount_entry_run env dev w :
  responsive env -> fs_entry dev = true ->
  exists w' evs,
    unmount_entry env dev w = (Ok tt, w') /\
    trace w' = trace w ++ evs /\
    attempts evs = [key1 dev].
Proof.
  intros Hr Hdev. unfold unmount_entry.
  rewrite (fs_entry_item1 _ Hdev), bind_ret.
  set (mp := key1 dev).
  destruct (Hr (Exec Quiet ["/bin/umount"; mp]) (seen (Exec Quiet ["/bin/umount"; mp]) w))
    as [rc Hrc].
  unfold run_quiet at 1. step (call_status_some _ _ _ _ Hrc).
  destruct (Z.eqb_spec rc 0) as [Hz|Hz]; negb_norm.
  - eexists _, [_]. split; [reflexivity|]. split; reflexivity.
  - set (w1 := push (Exec Quiet ["/bin/umount"; mp]) w).
    destruct (Hr (Exec Quiet ["/bin/fuser"; "-k"; "-9"; "-m"; mp])
                (seen (Exec Quiet ["/bin/fuser"; "-k"; "-9"; "-m"; mp]) w1)) as [z1 H1].
    unfold run_quiet at 1. step (call_status_some _ _ _ _ H1).
    rewrite (bind_ok _ _ _ tt (push (Sleep 1) (push (Exec Quiet ["/bin/fuser"; "-k"; "-9"; "-m"; mp]) w1)))
      by reflexivity.
    set (w3 := push (Sleep 1) _).
    destruct (Hr (Exec Quiet ["/bin/umount"; "-f"; "-r"; mp])
                (seen (Exec Quiet ["/bin/umount"; "-f"; "-r"; mp]) w3)) as [z2 H2].
    unfold run_quiet. step (call_status_some _ _ _ _ H2).
    eexists _, [_; _; _; _]. split; [reflexivity|]. split.
    + unfold w3, w1. simpl. now rewrite <- !app_assoc.
    + reflexivity.
Qed.

Lemma unmount_loop_run env entries w :
  responsive env -> Forall (fun dev => fs_entry dev = true) entries ->
  exists w' evs,
    for_each entries (unmount_entry env) w = (Ok tt, w') /\
    trace w' = trace w ++ evs /\
    attempts evs = List.map key1 entries.
Proof.
  intros Hr Hall. revert w. induction Hall as [|dev entries Hdev _ IH]; intros w.
  - exists w, []. rewrite app_nil_r. repeat split.
  - simpl for_each.
    destruct (unmount_entry_run env dev w Hr Hdev) as (w1 & e1 & E1 & Ht1 & Ha1).
    step E1.
    destruct (IH w1) as (w2 & e2 & E2 & Ht2 & Ha2).
    exists w2, (e1 ++ e2). split; [exact E2|]. split.
    + rewrite Ht2, Ht1. now rewrite app_assoc.
    + rewrite attempts_app, Ha1, Ha2. reflexivity.
Qed.

(** The calls of one step of the ladder, whatever its outcome. *)
Lemma remount_ro_events env force w :
  responsive env ->
  exists r w' evs,
    remount_ro env force w = (r, w') /\
    trace w' = trace w ++ evs /\ Forall ladder_call evs.
Proof.
  intros Hr. pose proof (responsive_splash env Hr) as Ha.
  unfold remount_ro.
  step (load_file_loaded env "/proc/mounts" w).
  set (w0 := push (Open "/proc/mounts") w).
  destruct (SPLASH_update_spec env "remount_ro" w0 Ha) as (w1 & E1 & C1). step E1.
  destruct (SPLASH_quit_spec env true w1 Ha) as (w2 & E2 & C2). step E2.
  destruct (chatters_trace _ _ (chatters_trans _ _ _ C1 C2)) as (mid & Htm & Hmid).
  assert (Hpre : trace w2 = trace w ++ ([Open "/proc/mounts"] ++ mid) /\
                 Forall ladder_call ([Open "/proc/mounts"] ++ mid)).
  { split.
    - rewrite Htm. unfold w0. simpl. now rewrite <- app_assoc.
    - constructor; [right; now left|].
      eapply List.Forall_impl; [|exact Hmid]. intros c Hc. now left. }
  destruct Hpre as [Htp Hfp].
  destruct (List.find rootfs_entry _) as [fields|] eqn:Hfind.
  2:{ exists (Raise TypeError), w2, ([Open "/proc/mounts"] ++ mid).
      split; [reflexivity|]. split; assumption. }
  rewrite (find_rootfs_item1 _ _ Hfind), bind_ret.
  destruct (Hr (ladder_cmd force) (seen (ladder_cmd force) w2)) as [rc Hrc].
  assert (Hcall : (if force then run_quiet env ["/bin/umount"; "-n"; "-r"; "/"]
                   else run_quiet env ["/bin/mount"; "-n"; "-o"; "remount,ro"; "/"]) w2
                  = (Ok rc, push (ladder_cmd force) w2)).
  { destruct force; apply call_status_some; exact Hrc. }
  step Hcall. cbv zeta. rewrite Z.add_0_l.
  assert (Hl : ladder_call (ladder_cmd force)).
  { destruct force; right; right; [right|]; now left. }
  destruct (Z.eqb_spec rc 0) as [Hz|Hz]; negb_norm.
  - rewrite bind_ret. exists (Ok rc), (push (ladder_cmd force) w2),
      (([Open "/proc/mounts"] ++ mid) ++ [ladder_cmd force]).
    split; [reflexivity|]. split.
    + simpl. rewrite Htp. now rewrite <- !app_assoc.
    + apply Forall_app. split; [exact Hfp|]. constructor; [exact Hl | constructor].
  - destruct (Hr killall_call (seen killall_call (push (ladder_cmd force) w2))) as [z Hk].
    unfold run_quiet. fold killall_call. rewrite bind_assoc.
    step (call_status_some _ _ _ _ Hk). rewrite !bind_ret.
    exists (Ok rc), (push killall_call (push (ladder_cmd force) w2)),
      (([Open "/proc/mounts"] ++ mid) ++ [ladder_cmd force; killall_call]).
    split; [reflexivity|]. split.
    + simpl. rewrite Htp. now rewrite <- !app_assoc.
    + apply Forall_app. split; [exact Hfp|].
      constructor; [exact Hl|]. constructor; [|constructor].
      right; right; right; now right.
Qed.

Lemma remount_ladder_events env w :
  responsive env ->
  exists r w' evs,
    remount_ladder env w = (r, w') /\
    trace w' = trace w ++ evs /\ Forall ladder_call evs.
Proof.
  intros Hr. unfold remount_ladder.
  destruct (remount_ro_events env false w Hr) as (r1 & w1 & e1 & E1 & Ht1 & Hf1).
  destruct r1 as [rc1|e|];
    [|rewrite (bind_raise _ _ _ _ _ E1); eauto 6 | rewrite (bind_halt _ _ _ _ E1); eauto 6].
  step E1. destruct (rc1 =? 0); negb_norm; [eauto 6|].
  destruct (remount_ro_events env false w1 Hr) as (r2 & w2 & e2 & E2 & Ht2 & Hf2).
  assert (Ht2' : trace w2 = trace w ++ (e1 ++ e2)).
  { rewrite Ht2, Ht1. now rewrite app_assoc. }
  assert (Hf2' : Forall ladder_call (e1 ++ e2)) by (apply Forall_app; split; assumption).
  destruct r2 as [rc2|e|];
    [|rewrite (bind_raise _ _ _ _ _ E2); eauto 6 | rewrite (bind_halt _ _ _ _ E2); eauto 6].
  step E2. destruct (rc2 =? 0); negb_norm; [eauto 6|].
  destruct (remount_ro_events env true w2 Hr) as (r3 & w3 & e3 & E3 & Ht3 & Hf3).
  assert (Ht3' : trace w3 = trace w ++ ((e1 ++ e2) ++ e3)).
  { rewrite Ht3, Ht2'. now rewrite <- !app_assoc. }
  assert (Hf3' : Forall ladder_call ((e1 ++ e2) ++ e3)) by (apply Forall_app; split; assumption).
  destruct r3 as [rc3|e|];
    [step E3 |rewrite (bind_raise _ _ _ _ _ E3) | rewrite (bind_halt _ _ _ _ E3)]; eauto 6.
Qed.

Lemma not_before_antisym a b : not_before a b -> not_before b a -> a = b.
Proof.
  unfold not_before. intros Hab Hba.
  apply String.compare_eq_iff.
  destruct (String.compare a b) eqn:E; [reflexivity | |].
  - apply (proj2 (ltb_lt a b)) in E. congruence.
  - assert (H : String.compare b a = Lt).
    { rewrite String.compare_antisym, E. reflexivity. }
    apply (proj2 (ltb_lt b a)) in H. congruence.
Qed.

(** A list has one descending arrangement. *)
Lemma sorted_perm_unique (l1 : list string) : forall l2,
  StronglySorted not_before l1 -> StronglySorted not_before l2 ->
  Permutation l1 l2 -> l1 = l2.
Proof.
  induction l1 as [|x l1 IH]; intros l2 H1 H2 Hp.
  - apply Permutation_nil in Hp. now subst.
  - destruct l2 as [|y l2]; [symmetry in Hp; now apply Permutation_nil_cons in Hp|].
    inversion H1 as [|? ? Hs1 Ha1]; subst. inversion H2 as [|? ? Hs2 Ha2]; subst.
    assert (Hxy : x = y).
    { assert (Hx : In x (y :: l2)) by (eapply Permutation_in; [exact Hp | now left]).
      assert (Hy : In y (x :: l1)) by (eapply Permutation_in; [symmetry; exact Hp | now left]).
      destruct Hx as [->|Hx]; [reflexivity|].
      destruct Hy as [->|Hy]; [reflexivity|].
      rewrite List.Forall_forall in Ha1, Ha2.
      apply not_before_antisym; [now apply Ha1 | now apply Ha2]. }
    subst y. f_equal. apply IH; try assumption.
    now apply Permutation_cons_inv in Hp.
Qed.

Lemma filter_sort_desc l :
  Forall (fun dev => fs_entry dev = true) (sort_desc (List.filter fs_entry l)).
Proof.
  rewrite sort_desc_perm. apply List.Forall_forall. intros dev Hin.
  now apply List.filter_In in Hin as [_ H].
Qed.

(** C2, as the specification states it, fails in its example: with mounts
    at [/data], [/data/nested] and [/mnt] the unmounts are attempted in the
    order [/mnt], [/data/nested], [/data]. *)
Lemma mnt_is_unmounted_first :
  ~ deepest_first_example env_three_mounts fresh_world.
Proof. unfold deepest_first_example. vm_compute. discriminate. Qed.

(** C2, amended.  The shutdown attempts to unmount the live mounts that
    are neither virtual nor the root, one attempt each, in the order of
    their mount points sorted descending as byte strings: a mount point
    never comes before a mount point under it, so every nested mount is
    attempted before its parent; and for mounts at [/data],
    [/data/nested] and [/mnt] the order is [/mnt], [/data/nested],
    [/data]. *)
Theorem unmounts_in_descending_order (env : Env) (w : World) :
  responsive env ->
  exists r w' evs,
    unmount_filesystems env w = (r, w') /\
    trace w' = trace w ++ evs /\
    attempts evs = List.map key1 (fs_entries env w) /\
    Permutation (attempts evs)
      (List.map key1
         (List.filter fs_entry (table_of (loaded env "/proc/mounts" w)))) /\
    StronglySorted not_before (attempts evs) /\
    (forall i j p c,
       attempts evs !! i = Some p -> attempts evs !! j = Some c ->
       nested_in c p -> (j < i)%nat) /\
    (Permutation
       (List.map key1
          (List.filter fs_entry (table_of (loaded env "/proc/mounts" w))))
       ["/data"; "/data/nested"; "/mnt"] ->
     attempts evs = ["/mnt"; "/data/nested"; "/data"]).
Proof.
  intros Hr. pose proof (responsive_splash env Hr) as Ha.
  unfold unmount_filesystems.
  destruct (SPLASH_update_spec env "unmount_filesystems" w Ha) as (w1 & E1 & C1).
  step E1.
  destruct (UI_info_spec env (tr env "Unmounting filesystems") w1) as (w2 & E2 & C2).
  step E2.
  pose proof (chatters_trans _ _ _ C1 C2) as C12.
  destruct (chatters_trace _ _ C12) as (pre & Htp & Hpre).
  assert (Hload : loaded env "/proc/mounts" w2 = loaded env "/proc/mounts" w).
  { unfold loaded.
    now rewrite (chatters_seen (Open "/proc/mounts") _ _ (fun H => H) C12). }
  assert (Eg : get_fs_entries env w2 = (Ok (fs_entries env w), push (Open "/proc/mounts") w2)).
  { unfold get_fs_entries. step (load_file_loaded env "/proc/mounts" w2).
    rewrite Hload. reflexivity. }
  step Eg.
  destruct (unmount_loop_run env (fs_entries env w) (push (Open "/proc/mounts") w2) Hr
              (filter_sort_desc _)) as (w3 & loop & E3 & Ht3 & Hloop).
  step E3.
  destruct (UI_info_spec env (tr env "Remounting remaining filesystems read-only") w3)
    as (w4 & E4 & C4).
  step E4.
  destruct (chatters_trace _ _ C4) as (e4 & Ht4 & He4).
  assert (Hrest : exists r w' post,
            bind (shutil_copy env "/proc/mounts" "/etc/mtab")
              (fun _ => remount_ladder env) w4 = (r, w') /\
            trace w' = trace w4 ++ post /\ attempts post = []).
  { unfold shutil_copy, call_or_raise, bind at 1.
    destruct (call_ok env _ _).
    - destruct (remount_ladder_events env (push (CopyFile "/proc/mounts" "/etc/mtab") w4) Hr)
        as (r & w' & el & El & Htl & Hfl).
      exists r, w', ([CopyFile "/proc/mounts" "/etc/mtab"] ++ el).
      split; [exact El|]. split.
      + rewrite Htl. simpl. now rewrite <- app_assoc.
      + rewrite attempts_app. simpl.
        exact (no_attempts ladder_call el ladder_no_attempt Hfl).
    - exists (Raise IOError), (push (CopyFile "/proc/mounts" "/etc/mtab") w4),
        [CopyFile "/proc/mounts" "/etc/mtab"].
      repeat split. }
  destruct Hrest as (r & w' & post & Er & Htr & Hpost).
  rewrite Er.
  set (evs := pre ++ [Open "/proc/mounts"] ++ loop ++ e4 ++ post).
  assert (Hatt : attempts evs = List.map key1 (fs_entries env w)).
  { unfold evs. rewrite !attempts_app, Hloop, Hpost.
    rewrite (no_attempts chatter pre chatter_no_attempt Hpre).
    rewrite (no_attempts chatter e4 chatter_no_attempt He4).
    simpl. now rewrite app_nil_r. }
  assert (Hsorted : StronglySorted not_before (attempts evs)).
  { rewrite Hatt. apply sorted_map_key1, sort_desc_sorted. }
  assert (Hperm : Permutation (attempts evs)
            (List.map key1
               (List.filter fs_entry (table_of (loaded env "/proc/mounts" w))))).
  { rewrite Hatt. apply Permutation_map, sort_desc_perm. }
  exists r, w', evs. split; [reflexivity|]. split; [|split; [|split; [|split; [|split]]]];
    try assumption.
  - rewrite Htr, Ht4, Ht3. simpl. rewrite Htp. unfold evs. now rewrite <- !app_assoc.
  - intros i j p c Hi Hj Hn. exact (sorted_nested_first _ i j p c Hsorted Hi Hj Hn).
  - intros H3. apply sorted_perm_unique; [exact Hsorted | |].
    + repeat constructor.
    + rewrite Hperm, H3.
      apply perm_trans with ["/data/nested"; "/data"; "/mnt"]; [apply perm_swap|].
      apply perm_trans with ["/data/nested"; "/mnt"; "/data"];
        [apply perm_skip, perm_swap | apply perm_swap].
Qed.

Lemma all_succeed_responsive files present :
  responsive (sim_env files present all_succeed).
Proof. intros c n. eexists. reflexivity. Defined.

(** On the system of [env_three_mounts]. *)
Lemma unmounts_in_descending_order_witness :
  exists r w' evs,
    unmount_filesystems env_three_mounts fresh_world = (r, w') /\
    trace w' = trace fresh_world ++ evs /\
    attempts evs = List.map key1 (fs_entries env_three_mounts fresh_world) /\
    Permutation (attempts evs)
      (List.map key1
         (List.filter fs_entry
            (table_of (loaded env_three_mounts "/proc/mounts" fresh_world)))) /\
    StronglySorted not_before (attempts evs) /\
    (forall i j p c,
       attempts evs !! i = Some p -> attempts evs !! j = Some c ->
       nested_in c p -> (j < i)%nat) /\
    (Permutation
       (List.map key1
          (List.filter fs_entry
             (table_of (loaded env_three_mounts "/proc/mounts" fresh_world))))
       ["/data"; "/data/nested"; "/mnt"] ->
     attempts evs = ["/mnt"; "/data/nested"; "/data"]).
Proof.
  apply (unmounts_in_descending_order env_three_mounts fresh_world).
  apply all_succeed_responsive.
Defined.

(** The same through the whole of [stop_system]. *)
Example stop_system_unmount_order :
  attempts (trace (stop_system env_three_mounts fresh_world).2) =
  ["/mnt"; "/data/nested"; "/data"].
Proof. vm_compute. reflexivity. Qed.

(** ** The whole of [stop_system]: the order of the unmounts *)

Section EmitsChatter.

Context (P : Call -> Prop) (HP : forall c, chatter c -> P c).

Lemma emits_CONFIG_get key : emits P (CONFIG_get key).
Proof.
  unfold CONFIG_get, options_item, print, time_sleep.
  apply emits_bind; [apply emits_get_world | intros w].
  apply emits_try_except.
  - destruct (options (CONFIG w) !! key); [apply emits_ret | apply emits_raise].
  - intros e h H. destruct e; try discriminate H. injection H as <-.
    emits_auto; apply HP; exact I.
Qed.

Lemma emits_LOGGER_log env msg : emits P (LOGGER_log env msg).
Proof. unfold LOGGER_log. apply emits_modify. reflexivity. Qed.

Lemma emits_LOGGER_debug env msg : emits P (LOGGER_debug env msg).
Proof.
  unfold LOGGER_debug, when.
  apply emits_bind; [apply emits_CONFIG_get | intros d].
  destruct (truthy d); [apply emits_LOGGER_log | apply emits_ret].
Qed.

Lemma emits_SPLASH_send_cmd env cmd : emits P (SPLASH_send_cmd env cmd).
Proof.
  unfold SPLASH_send_cmd, run_quiet. emits_auto. apply HP. reflexivity.
Qed.

Lemma emits_SPLASH_update env name : emits P (SPLASH_update env name).
Proof. apply emits_SPLASH_send_cmd. Qed.

Lemma emits_SPLASH_quit env b : emits P (SPLASH_quit env b).
Proof. apply emits_SPLASH_send_cmd. Qed.

Lemma emits_UI_info env msg : emits P (UI_info env msg).
Proof.
  unfold UI_info, when, stdout_write.
  apply emits_bind; [apply emits_CONFIG_get | intros d].
  apply emits_bind; [|intros _; apply emits_emit, HP; exact I].
  destruct (truthy d); [apply emits_LOGGER_log | apply emits_ret].
Qed.

Lemma emits_UI_error env msg : emits P (UI_error env msg).
Proof.
  unfold UI_error, SPLASH_report_error, stdout_write.
  apply emits_bind; [apply emits_SPLASH_send_cmd | intros _].
  apply emits_bind; [apply emits_LOGGER_log | intros _].
  apply emits_emit, HP. exact I.
Qed.

End EmitsChatter.

Lemma emits_listModelApplications P env :
  P ListServices -> emits P (listModelApplications env).
Proof.
  intros H w. exists [ListServices]. unfold listModelApplications.
  destruct (bus_services env _); split; try reflexivity; now repeat constructor.
Qed.

Lemma emits_os_listdir P env p : P (ListDir p) -> emits P (os_listdir env p).
Proof.
  intros H w. exists [ListDir p]. unfold os_listdir.
  destruct (dir_entries env p _); split; try reflexivity; now repeat constructor.
Qed.

Lemma emits_capture P env cmd : P (Capture cmd) -> emits P (capture env cmd).
Proof. intros H w. exists [Capture cmd]. split; [reflexivity | now repeat constructor]. Qed.

Lemma emits_format_s P fmt arg : emits P (format_s fmt arg).
Proof. unfold format_s. destruct (py_format fmt arg); [apply emits_raise | apply emits_ret]. Qed.

Lemma emits_item1 P fields : emits P (item1 fields).
Proof. unfold item1. destruct (fields !! 1%nat); [apply emits_ret | apply emits_raise]. Qed.

Ltac emits_ui HP :=
  repeat (first
    [ apply (emits_CONFIG_get _ HP) | apply (emits_LOGGER_log _)
    | apply (emits_LOGGER_debug _ HP) | apply (emits_SPLASH_update _ HP)
    | apply (emits_SPLASH_quit _ HP) | apply (emits_SPLASH_send_cmd _ HP)
    | apply (emits_UI_info _ HP) | apply (emits_UI_error _ HP)
    | apply emits_format_s | apply emits_item1
    | apply emits_listModelApplications | apply emits_os_listdir
    | apply emits_capture
    | emits_step
    | match goal with
      | H : (match ?e with _ => _ end) = Some ?h |- emits _ ?h =>
          destruct e; try discriminate H; injection H as <-
      | |- emits _ (if ?b then _ else _) => destruct b
      | |- emits _ (match ?x with _ => _ end) => destruct x
      end ];
    try discriminate).

Lemma stopping_system_no_attempt env : emits no_attempt (stopping_system env).
Proof.
  pose proof chatter_no_attempt as HP.
  unfold stopping_system, stop_services, stop_dbus, stop_udev, save_clock,
    disable_swap, skip_for_lxc_guests, plymouth_update_milestone,
    get_service_list, manage_service, dbus_SystemBus, when, run, run_quiet.
  emits_ui HP.
  all: try reflexivity.
Qed.

Lemma remount_ro_no_attempt env force : emits no_attempt (remount_ro env force).
Proof.
  pose proof chatter_no_attempt as HP.
  unfold remount_ro, load_file, run_quiet. cbv zeta.
  emits_ui HP.
  all: try reflexivity.
Qed.

Lemma remount_ladder_no_attempt env : emits no_attempt (remount_ladder env).
Proof.
  unfold remount_ladder.
  repeat (first [ apply remount_ro_no_attempt | emits_step
                | match goal with |- emits _ (if ?b then _ else _) => destruct b end ]).
Qed.

Lemma sorted_of_no_attempt {A} (m : M A) : emits no_attempt m -> attempts_sorted m.
Proof.
  intros Hm w. destruct (Hm w) as (evs & Ht & Hf). exists evs. split; [exact Ht|].
  rewrite (no_attempts no_attempt evs (fun c H => H) Hf). constructor.
Qed.

Lemma sorted_bind_pre {A B} (m : M A) (k : A -> M B) :
  emits no_attempt m -> (forall a, attempts_sorted (k a)) ->
  attempts_sorted (bind m k).
Proof.
  intros Hm Hk w. destruct (Hm w) as (e1 & Ht1 & Hf1).
  pose proof (no_attempts no_attempt e1 (fun c H => H) Hf1) as Hn.
  unfold bind. destruct (m w) as [[a|e|] w1]; simpl in Ht1.
  - destruct (Hk a w1) as (e2 & Ht2 & Hs2). exists (e1 ++ e2). split.
    + rewrite Ht2, Ht1. now rewrite app_assoc.
    + now rewrite attempts_app, Hn.
  - exists e1. split; [exact Ht1|]. rewrite Hn. constructor.
  - exists e1. split; [exact Ht1|]. rewrite Hn. constructor.
Qed.

Lemma sorted_bind_post {A B} (m : M A) (k : A -> M B) :
  attempts_sorted m -> (forall a, emits no_attempt (k a)) ->
  attempts_sorted (bind m k).
Proof.
  intros Hm Hk w. destruct (Hm w) as (e1 & Ht1 & Hs1).
  unfold bind. destruct (m w) as [[a|e|] w1]; simpl in Ht1; [|eauto|eauto].
  destruct (Hk a w1) as (e2 & Ht2 & Hf2). exists (e1 ++ e2). split.
  - rewrite Ht2, Ht1. now rewrite app_assoc.
  - rewrite attempts_app, (no_attempts no_attempt e2 (fun c H => H) Hf2), app_nil_r.
    exact Hs1.
Qed.

(** One turn of the loop, on any system: the plain unmount of the entry's
    mount point is the only attempt, and without a mount point the turn
    raises. *)
Lemma unmount_entry_any env dev w :
  exists evs,
    trace (unmount_entry env dev w).2 = trace w ++ evs /\
    (attempts evs = [key1 dev] \/
     attempts evs = [] /\ forall u, (unmount_entry env dev w).1 <> Ok u).
Proof.
  unfold unmount_entry, item1, key1.
  destruct (dev !! 1%nat) as [mp|].
  - rewrite bind_ret.
    assert (Hrest : forall rc : Z, emits no_attempt
              (if negb (rc =? 0)
               then _ <- run_quiet env ["/bin/fuser"; "-k"; "-9"; "-m"; mp] ;;
                    time_sleep 1 ;;
                    _ <- run_quiet env ["/bin/umount"; "-f"; "-r"; mp] ;; ret tt
               else ret tt)%py).
    { intros rc. unfold run_quiet, time_sleep. emits_auto; reflexivity. }
    unfold bind at 1. unfold run_quiet at 1, call_status.
    destruct (exit_status env _ _) as [rc|].
    + destruct (Hrest rc (push (Exec Quiet ["/bin/umount"; mp]) w)) as (e2 & Ht2 & Hf2).
      exists ([Exec Quiet ["/bin/umount"; mp]] ++ e2). split.
      * rewrite Ht2. simpl. now rewrite <- app_assoc.
      * left. rewrite attempts_app, (no_attempts no_attempt e2 (fun c H => H) Hf2).
        reflexivity.
    + exists [Exec Quiet ["/bin/umount"; mp]]. split; [reflexivity|]. now left.
  - exists []. split; [now rewrite app_nil_r|]. right. split; [reflexivity|].
    intros u H. discriminate H.
Qed.

Lemma unmount_loop_any env entries w :
  exists evs k,
    trace (for_each entries (unmount_entry env) w).2 = trace w ++ evs /\
    attempts evs = take k (List.map key1 entries).
Proof.
  revert w. induction entries as [|dev entries IH]; intros w.
  - exists [], 0%nat. now rewrite app_nil_r.
  - simpl for_each. destruct (unmount_entry_any env dev w) as (e1 & Ht1 & Hcase).
    unfold bind. destruct (unmount_entry env dev w) as [[[]|e|] w1] eqn:E; simpl in Ht1.
    + destruct (IH w1) as (e2 & k & Ht2 & Ha2).
      destruct Hcase as [Ha1|[_ Hne]]; [|now destruct (Hne tt)].
      exists (e1 ++ e2), (S k). split.
      * rewrite Ht2, Ht1. now rewrite app_assoc.
      * rewrite attempts_app, Ha1, Ha2. reflexivity.
    + destruct Hcase as [Ha1|[Ha1 _]].
      * exists e1, 1%nat. split; [exact Ht1|]. rewrite Ha1. simpl. now rewrite take_0.
      * exists e1, 0%nat. split; [exact Ht1|]. now rewrite Ha1.
    + destruct Hcase as [Ha1|[Ha1 _]].
      * exists e1, 1%nat. split; [exact Ht1|]. rewrite Ha1. simpl. now rewrite take_0.
      * exists e1, 0%nat. split; [exact Ht1|]. now rewrite Ha1.
Qed.

Lemma sorted_take {A} (R : A -> A -> Prop) k l :
  StronglySorted R l -> StronglySorted R (take k l).
Proof.
  intros Hs. revert k. induction Hs as [|x l Hs IH Hall]; intros [|k]; simpl;
    try constructor.
  - apply IH.
  - apply Forall_take, Hall.
Qed.

Lemma unmount_loop_sorted env entries :
  StronglySorted not_before (List.map key1 entries) ->
  attempts_sorted (for_each entries (unmount_entry env)).
Proof.
  intros Hs w. destruct (unmount_loop_any env entries w) as (evs & k & Ht & Ha).
  exists evs. split; [exact Ht|]. rewrite Ha. now apply sorted_take.
Qed.

Lemma attempts_sorted_ext {A} (m m' : M A) :
  (forall w, m w = m' w) -> attempts_sorted m' -> attempts_sorted m.
Proof. intros He Hm w. rewrite He. apply Hm. Qed.

Lemma unmount_filesystems_sorted env : attempts_sorted (unmount_filesystems env).
Proof.
  pose proof chatter_no_attempt as HP.
  unfold unmount_filesystems.
  apply sorted_bind_pre; [apply (emits_SPLASH_update _ HP) | intros _].
  apply sorted_bind_pre; [apply (emits_UI_info _ HP) | intros _].
  unfold get_fs_entries. cbv zeta.
  eapply attempts_sorted_ext; [intros w; apply bind_assoc|].
  apply sorted_bind_pre.
  { unfold load_file. emits_ui HP; reflexivity. }
  intros text.
  eapply attempts_sorted_ext; [intros w; apply bind_ret|].
  apply sorted_bind_post.
  - apply unmount_loop_sorted, sorted_map_key1, sort_desc_sorted.
  - intros _. apply emits_bind; [apply (emits_UI_info _ HP) | intros _].
    apply emits_bind; [|intros _; apply remount_ladder_no_attempt].
    unfold shutil_copy. emits_step. reflexivity.
Qed.

(** X1.  In every run of [stop_system], on any system and however the run
    ends, the plain unmount attempts are made in descending order of
    their mount points: a mount point never comes before a mount point
    under it. *)
Theorem stop_system_unmounts_nested_first (env : Env) (w : World) :
  exists evs,
    trace (stop_system env w).2 = trace w ++ evs /\
    StronglySorted not_before (attempts evs) /\
    (forall i j p c,
       attempts evs !! i = Some p -> attempts evs !! j = Some c ->
       nested_in c p -> (j < i)%nat).
Proof.
  assert (H : attempts_sorted (stop_system env)).
  { unfold stop_system.
    apply sorted_bind_pre; [apply stopping_system_no_attempt | intros _].
    apply sorted_bind_pre; [apply (emits_CONFIG_get _ chatter_no_attempt) | intros g].
    destruct (negb (eq_str g "yes")).
    - apply unmount_filesystems_sorted.
    - apply sorted_of_no_attempt, emits_ret. }
  destruct (H w) as (evs & Ht & Hs). exists evs. split; [exact Ht|].
  split; [exact Hs|]. intros i j p c. now apply sorted_nested_first.
Qed.

(** ** The whole of [stop_system]: the ladder *)

Lemma chatter_off_ladder c : chatter c -> off_ladder c.
Proof.
  intros H. repeat split; intros ->; discriminate H.
Qed.

Lemma unmount_loop_off_ladder env entries :
  emits off_ladder (for_each entries (unmount_entry env)).
Proof.
  pose proof chatter_off_ladder as HP.
  unfold unmount_entry, run_quiet, time_sleep.
  emits_ui HP; repeat split; discriminate.
Qed.

Lemma occ_off_ladder c evs :
  (c = remount_ro_call \/ c = umount_root_call \/ c = killall_call) ->
  Forall off_ladder evs -> occ c evs = 0%nat.
Proof.
  intros Hc Hf. apply occ_none. eapply List.Forall_impl; [|exact Hf].
  intros a (H1 & H2 & H3) ->. destruct Hc as [->| [->| ->]]; contradiction.
Qed.

Lemma emits_run {A} P (m : M A) w a w1 :
  emits P m -> m w = (Ok a, w1) ->
  exists evs, trace w1 = trace w ++ evs /\ Forall P evs.
Proof. intros Hm E. destruct (Hm w) as (evs & Ht & Hf). rewrite E in Ht. eauto. Qed.

(** On a system whose commands answer and where [/etc/mtab] can be
    written, the unmounting reaches the ladder, and no command of the
    ladder has been run before it. *)
Lemma unmount_filesystems_reaches_ladder env w :
  responsive env ->
  (forall n, call_ok env (CopyFile "/proc/mounts" "/etc/mtab") n = true) ->
  exists w2 evs,
    unmount_filesystems env w = remount_ladder env w2 /\
    trace w2 = trace w ++ evs /\ Forall off_ladder evs.
Proof.
  intros Hr Hcopy. pose proof (responsive_splash env Hr) as Ha.
  pose proof chatter_off_ladder as HP.
  unfold unmount_filesystems.
  destruct (SPLASH_update_spec env "unmount_filesystems" w Ha) as (w1 & E1 & _).
  destruct (emits_run _ _ _ _ _ (emits_SPLASH_update _ HP env _) E1) as (e1 & Ht1 & Hf1).
  step E1.
  destruct (UI_info_spec env (tr env "Unmounting filesystems") w1) as (w2 & E2 & _).
  destruct (emits_run _ _ _ _ _ (emits_UI_info _ HP env _) E2) as (e2 & Ht2 & Hf2).
  step E2.
  assert (Eg : get_fs_entries env w2 = (Ok (fs_entries env w2), push (Open "/proc/mounts") w2)).
  { unfold get_fs_entries. step (load_file_loaded env "/proc/mounts" w2). reflexivity. }
  step Eg.
  destruct (unmount_loop_run env (fs_entries env w2) (push (Open "/proc/mounts") w2) Hr
              (filter_sort_desc _)) as (w3 & loop & E3 & Ht3 & _).
  destruct (emits_run _ _ _ _ _ (unmount_loop_off_ladder env _) E3) as (e3 & Ht3' & Hf3).
  step E3.
  destruct (UI_info_spec env (tr env "Remounting remaining filesystems read-only") w3)
    as (w4 & E4 & _).
  destruct (emits_run _ _ _ _ _ (emits_UI_info _ HP env _) E4) as (e4 & Ht4 & Hf4).
  step E4.
  assert (E5 : shutil_copy env "/proc/mounts" "/etc/mtab" w4 =
               (Ok tt, push (CopyFile "/proc/mounts" "/etc/mtab") w4)).
  { unfold shutil_copy, call_or_raise. now rewrite Hcopy. }
  step E5.
  exists (push (CopyFile "/proc/mounts" "/etc/mtab") w4),
    (e1 ++ e2 ++ [Open "/proc/mounts"] ++ e3 ++ e4 ++ [CopyFile "/proc/mounts" "/etc/mtab"]).
  split; [reflexivity|]. split.
  - simpl. rewrite Ht4, Ht3'. simpl. rewrite Ht2, Ht1. now rewrite <- !app_assoc.
  - repeat (apply Forall_app; split); try assumption;
      repeat constructor; discriminate.
Qed.

(** X2.  The ladder within [stop_system]: once the services are stopped, on a
    system that is not a container guest, the kill-all signal follows
    every failed attempt of the ladder and is sent at no other time. *)
Theorem stop_system_ladder_kills (env : Env) (w w1 : World) (g : PyVal) (r1 r2 r3 : Z) :
  responsive env -> root_listed env ->
  (forall n, call_ok env (CopyFile "/proc/mounts" "/etc/mtab") n = true) ->
  stopping_system env w = (Ok tt, w1) ->
  options (CONFIG w1) !! "lxc_guest" = Some g -> eq_str g "yes" = false ->
  exit_status env remount_ro_call (seen remount_ro_call w1) = Some r1 ->
  exit_status env remount_ro_call (S (seen remount_ro_call w1)) = Some r2 ->
  exit_status env umount_root_call (seen umount_root_call w1) = Some r3 ->
  exists w' evs,
    stop_system env w = (Ok tt, w') /\
    trace w' = trace w1 ++ evs /\
    (r1 = 0 ->
     occ killall_call evs = 0%nat /\
     occ remount_ro_call evs = 1%nat /\ occ umount_root_call evs = 0%nat) /\
    (r1 <> 0 -> r2 = 0 ->
     occ killall_call evs = 1%nat /\
     occ remount_ro_call evs = 2%nat /\ occ umount_root_call evs = 0%nat) /\
    (r1 <> 0 -> r2 <> 0 -> r3 = 0 ->
     occ killall_call evs = 2%nat /\
     occ remount_ro_call evs = 2%nat /\ occ umount_root_call evs = 1%nat) /\
    (r1 <> 0 -> r2 <> 0 -> r3 <> 0 ->
     occ killall_call evs = 3%nat /\
     occ remount_ro_call evs = 2%nat /\ occ umount_root_call evs = 1%nat).
Proof.
  intros Hr Hroot Hcopy Es Hg Hng H1 H2 H3.
  unfold stop_system. step Es. step (CONFIG_get_some _ _ _ Hg).
  rewrite Hng. negb_norm.
  destruct (unmount_filesystems_reaches_ladder env w1 Hr Hcopy) as (w2 & pre & -> & Htp & Hpre).
  pose proof (occ_off_ladder remount_ro_call pre (or_introl eq_refl) Hpre) as Hp1.
  pose proof (occ_off_ladder umount_root_call pre (or_intror (or_introl eq_refl)) Hpre) as Hp2.
  pose proof (occ_off_ladder killall_call pre (or_intror (or_intror eq_refl)) Hpre) as Hp3.
  rewrite <- (Nat.add_0_r (seen remount_ro_call w1)), <- Hp1, <- (seen_after _ _ _ _ Htp) in H1, H2.
  rewrite <- (Nat.add_0_r (seen umount_root_call w1)), <- Hp2, <- (seen_after _ _ _ _ Htp) in H3.
  destruct (remount_ladder_run env w2 r1 r2 r3 Hr Hroot H1 H2 H3)
    as (w' & evs & E & Ht & K).
  exists w', (pre ++ evs). split; [exact E|]. split.
  - rewrite Ht, Htp. now rewrite app_assoc.
  - rewrite !occ_app, Hp1, Hp2, Hp3. simpl. exact K.
Qed.

(** On the system whose root stays busy until the forced unmount. *)
Lemma stop_system_ladder_kills_witness :
  exists w' evs,
    stop_system (env_busy_root true) fresh_world = (Ok tt, w') /\
    trace w' = trace (stopping_system (env_busy_root true) fresh_world).2 ++ evs /\
    (32 = 0 ->
     occ killall_call evs = 0%nat /\
     occ remount_ro_call evs = 1%nat /\ occ umount_root_call evs = 0%nat) /\
    (32 <> 0 -> 32 = 0 ->
     occ killall_call evs = 1%nat /\
     occ remount_ro_call evs = 2%nat /\ occ umount_root_call evs = 0%nat) /\
    (32 <> 0 -> 32 <> 0 -> 0 = 0 ->
     occ killall_call evs = 2%nat /\
     occ remount_ro_call evs = 2%nat /\ occ umount_root_call evs = 1%nat) /\
    (32 <> 0 -> 32 <> 0 -> 0 <> 0 ->
     occ killall_call evs = 3%nat /\
     occ remount_ro_call evs = 2%nat /\ occ umount_root_call evs = 1%nat).
Proof.
  apply (stop_system_ladder_kills (env_busy_root true) fresh_world
           (stopping_system (env_busy_root true) fresh_world).2 (VStr "no") 32 32 0).
  - exact (env_busy_root_responsive true).
  - exact (env_busy_root_listed true).
  - reflexivity.
  - vm_compute. reflexivity.
  - vm_compute. reflexivity.
  - reflexivity.
  - vm_compute. reflexivity.
  - vm_compute. reflexivity.
  - vm_compute. reflexivity.
Defined.

(** ** What a run does when an invariant holds *)

Section Triple.

Context (I : World -> Prop) (P : Call -> Prop).
Context (HI : stable I).

Lemma triple_ret {E : exn -> Prop} {A} (Q : A -> Prop) a : Q a -> triple I P Q E (ret a).
Proof.
  intros Hq w Hw. exists []. rewrite app_nil_r. simpl.
  repeat split; auto; intros ? [=]; now subst.
Qed.

Lemma triple_raise {E : exn -> Prop} {A} (Q : A -> Prop) e : E e -> triple I P Q E (raise e).
Proof.
  intros He w Hw. exists []. rewrite app_nil_r. simpl.
  repeat split; auto; intros ? [=]; now subst.
Qed.

Lemma triple_bind {E : exn -> Prop} {A B} (Q : A -> Prop) (R : B -> Prop) (m : M A) (k : A -> M B) :
  triple I P Q E m -> (forall a, Q a -> triple I P R E (k a)) ->
  triple I P R E (bind m k).
Proof.
  intros Hm Hk w Hw. destruct (Hm w Hw) as (e1 & Ht1 & Hf1 & Hi1 & Hq1 & He1).
  unfold bind. destruct (m w) as [[a|e|] w1]; simpl in *.
  - destruct (Hk a (Hq1 a eq_refl) w1 Hi1) as (e2 & Ht2 & Hf2 & Hi2 & Hq2 & He2).
    exists (e1 ++ e2). split; [rewrite Ht2, Ht1; now rewrite app_assoc|].
    split; [now apply Forall_app|]. auto.
  - exists e1. repeat split; auto; intros ? [=]. subst. now apply He1.
  - exists e1. repeat split; auto; intros ? [=].
Qed.

Lemma triple_weaken {E : exn -> Prop} {A} (Q Q' : A -> Prop) (m : M A) :
  (forall a, Q a -> Q' a) -> triple I P Q E m -> triple I P Q' E m.
Proof.
  intros Hq Hm w Hw. destruct (Hm w Hw) as (evs & Ht & Hf & Hi & Hq1 & He1).
  exists evs. repeat split; auto.
Qed.

Lemma triple_try_except {E : exn -> Prop} {A} (Q : A -> Prop) (E' : exn -> Prop) (m : M A) catch :
  triple I P Q E' m ->
  (forall e, E' e -> match catch e with
                     | Some h => triple I P Q E h
                     | None => E e
                     end) ->
  triple I P Q E (try_except m catch).
Proof.
  intros Hm Hc w Hw. destruct (Hm w Hw) as (e1 & Ht1 & Hf1 & Hi1 & Hq1 & He1).
  unfold try_except. destruct (m w) as [[a|e|] w1]; simpl in *.
  - exists e1. repeat split; auto. intros ? [=].
  - specialize (Hc e (He1 e eq_refl)). destruct (catch e) as [h|].
    + destruct (Hc w1 Hi1) as (e2 & Ht2 & Hf2 & Hi2 & Hq2 & He2).
      exists (e1 ++ e2). split; [rewrite Ht2, Ht1; now rewrite app_assoc|].
      split; [now apply Forall_app|]. auto.
    + exists e1. repeat split; auto; intros ? [=]. now subst.
  - exists e1. repeat split; auto; intros ? [=].
Qed.

Lemma triple_get_world {E : exn -> Prop} : triple I P I E get_world.
Proof.
  intros w Hw. exists []. rewrite app_nil_r. simpl.
  repeat split; auto; intros ? [=]; now subst.
Qed.

Lemma triple_modify {E : exn -> Prop} (f : World -> World) :
  (forall w, trace (f w) = trace w) -> (forall w, I w -> I (f w)) ->
  triple I P (fun _ => True) E (modify f).
Proof.
  intros Hf Hif w Hw. exists []. rewrite app_nil_r. simpl.
  repeat split; auto. intros ? [=].
Qed.

Lemma triple_emit {E : exn -> Prop} c : P c -> triple I P (fun _ => True) E (emit c).
Proof.
  intros Hc w Hw. exists [c]. simpl. destruct HI as (Hp & _).
  repeat split; auto. intros ? [=].
Qed.

Lemma triple_call_status {E : exn -> Prop} env c :
  P c -> triple I P (fun _ => True) E (call_status env c).
Proof.
  intros Hc w Hw. exists [c]. destruct HI as (Hp & _). unfold call_status.
  destruct (exit_status env c _); simpl; repeat split; auto; intros ? [=].
Qed.

Lemma triple_call_test {E : exn -> Prop} env c :
  P c -> triple I P (fun _ => True) E (call_test env c).
Proof.
  intros Hc w Hw. exists [c]. simpl. destruct HI as (Hp & _).
  repeat split; auto. intros ? [=].
Qed.

Lemma triple_call_or_raise {E : exn -> Prop} env c e :
  P c -> E e -> triple I P (fun _ => True) E (call_or_raise env c e).
Proof.
  intros Hc He w Hw. exists [c]. destruct HI as (Hp & _). unfold call_or_raise.
  destruct (call_ok env c _); simpl; repeat split; auto; intros ? [=]. now subst.
Qed.

Lemma triple_open_read {E : exn -> Prop} env p :
  P (Open p) -> E IOError -> triple I P (fun _ => True) E (open_read env p).
Proof.
  intros Hc He w Hw. exists [Open p]. destruct HI as (Hp & _). unfold open_read.
  destruct (file_data env p _); simpl; repeat split; auto; intros ? [=]. now subst.
Qed.

Lemma triple_capture {E : exn -> Prop} env cmd :
  P (Capture cmd) -> triple I P (fun _ => True) E (capture env cmd).
Proof.
  intros Hc w Hw. exists [Capture cmd]. simpl. destruct HI as (Hp & _).
  repeat split; auto. intros ? [=].
Qed.

Lemma triple_os_listdir {E : exn -> Prop} env p :
  P (ListDir p) -> E OSError -> triple I P (fun _ => True) E (os_listdir env p).
Proof.
  intros Hc He w Hw. exists [ListDir p]. destruct HI as (Hp & _). unfold os_listdir.
  destruct (dir_entries env p _); simpl; repeat split; auto; intros ? [=]. now subst.
Qed.

Lemma triple_listModelApplications {E : exn -> Prop} env :
  P ListServices -> E DBusException ->
  triple I P (fun _ => True) E (listModelApplications env).
Proof.
  intros Hc He w Hw. exists [ListServices]. destruct HI as (Hp & _).
  unfold listModelApplications.
  destruct (bus_services env _); simpl; repeat split; auto; intros ? [=]. now subst.
Qed.

Lemma triple_for_each {E : exn -> Prop} {A} (l : list A) body :
  (forall x, triple I P (fun _ => True) E (body x)) ->
  triple I P (fun _ => True) E (for_each l body).
Proof.
  intros Hb. induction l as [|x l IH]; simpl.
  - now apply triple_ret.
  - eapply triple_bind; [apply Hb | intros _ _; exact IH].
Qed.

Lemma triple_load_file {E : exn -> Prop} env p :
  P (Open p) -> triple I P (fun _ => True) E (load_file env p).
Proof.
  intros Hc. unfold load_file.
  apply triple_try_except with (E' := fun e => e = IOError).
  - intros w Hw. exists [Open p]. destruct HI as (Hp & _). unfold bind, open_read.
    destruct (file_data env p _); simpl; repeat split; auto; intros ? [=]. now subst.
  - intros e ->. now apply triple_ret.
Qed.

Lemma triple_LOGGER_log {E : exn -> Prop} env msg : triple I P (fun _ => True) E (LOGGER_log env msg).
Proof.
  unfold LOGGER_log. apply triple_modify; [reflexivity|].
  intros w Hw. destruct HI as (_ & Hl & _). now apply Hl.
Qed.

Context (HP : forall c, chatter c -> P c).

(** [CONFIG.get]: the value of the key when [I] fixes it. *)
Lemma triple_CONFIG_get_known {E : exn -> Prop} key v :
  (forall w, I w -> options (CONFIG w) !! key = Some v) ->
  triple I P (eq v) E (CONFIG_get key).
Proof.
  intros Hk w Hw. rewrite (CONFIG_get_some key v w (Hk w Hw)).
  exists []. rewrite app_nil_r. simpl.
  repeat split; auto; intros ? [=]; now subst.
Qed.

Lemma triple_CONFIG_get {E : exn -> Prop} key : triple I P (fun _ => True) E (CONFIG_get key).
Proof.
  unfold CONFIG_get. eapply triple_bind; [apply triple_get_world | intros w0 _].
  apply triple_try_except with (E' := eq KeyError).
  - unfold options_item. destruct (options (CONFIG w0) !! key).
    + now apply triple_ret.
    + now apply triple_raise.
  - intros e <-. unfold print, time_sleep.
    eapply triple_bind; [apply triple_emit, HP; exact Logic.I | intros _ _].
    eapply triple_bind; [apply triple_emit, HP; exact Logic.I | intros _ _].
    now apply triple_ret.
Qed.

Lemma triple_LOGGER_debug {E : exn -> Prop} env msg :
  triple I P (fun _ => True) E (LOGGER_debug env msg).
Proof.
  unfold LOGGER_debug, when.
  eapply triple_bind; [apply triple_CONFIG_get | intros d _].
  destruct (truthy d); [apply triple_LOGGER_log | now apply triple_ret].
Qed.

Lemma triple_SPLASH_send_cmd {E : exn -> Prop} env cmd :
  triple I P (fun _ => True) E (SPLASH_send_cmd env cmd).
Proof.
  unfold SPLASH_send_cmd, run_quiet.
  eapply triple_bind; [apply triple_get_world | intros w0 _].
  destruct (SPLASH_running w0); [|now apply triple_ret].
  eapply triple_bind; [apply triple_call_status, HP; reflexivity | intros _ _].
  now apply triple_ret.
Qed.

Lemma triple_SPLASH_update {E : exn -> Prop} env name :
  triple I P (fun _ => True) E (SPLASH_update env name).
Proof. apply triple_SPLASH_send_cmd. Qed.

Lemma triple_SPLASH_hide_splash {E : exn -> Prop} env :
  triple I P (fun _ => True) E (SPLASH_hide_splash env).
Proof. apply triple_SPLASH_send_cmd. Qed.

Lemma triple_SPLASH_quit {E : exn -> Prop} env b :
  triple I P (fun _ => True) E (SPLASH_quit env b).
Proof. apply triple_SPLASH_send_cmd. Qed.

Lemma triple_UI_info {E : exn -> Prop} env msg : triple I P (fun _ => True) E (UI_info env msg).
Proof.
  unfold UI_info, when, stdout_write.
  eapply triple_bind; [apply triple_CONFIG_get | intros d _].
  eapply triple_bind; [|intros _ _; apply triple_emit, HP; exact Logic.I].
  destruct (truthy d); [apply triple_LOGGER_log | now apply triple_ret].
Qed.

Lemma triple_UI_warn {E : exn -> Prop} env msg : triple I P (fun _ => True) E (UI_warn env msg).
Proof.
  unfold UI_warn, stdout_write.
  eapply triple_bind; [apply triple_LOGGER_log | intros _ _].
  apply triple_emit, HP. exact Logic.I.
Qed.

Lemma triple_UI_error {E : exn -> Prop} env msg : triple I P (fun _ => True) E (UI_error env msg).
Proof.
  unfold UI_error, SPLASH_report_error, stdout_write.
  eapply triple_bind; [apply triple_SPLASH_send_cmd | intros _ _].
  eapply triple_bind; [apply triple_LOGGER_log | intros _ _].
  apply triple_emit, HP. exact Logic.I.
Qed.

Lemma triple_plymouth_update_milestone {E : exn -> Prop} env name f :
  triple I P (fun _ => True) E f ->
  triple I P (fun _ => True) E (plymouth_update_milestone env name f).
Proof.
  intros Hf. unfold plymouth_update_milestone.
  eapply triple_bind; [exact Hf | intros _ _]. apply triple_SPLASH_update.
Qed.

Lemma triple_skip_for_lxc_guests {E : exn -> Prop} f :
  triple I P (fun _ => True) E f ->
  triple I P (fun _ => True) E (skip_for_lxc_guests f).
Proof.
  intros Hf. unfold skip_for_lxc_guests.
  eapply triple_bind; [apply triple_CONFIG_get | intros g _].
  destruct (eq_str g "no"); [exact Hf | now apply triple_ret].
Qed.

End Triple.

Lemma triple_ext {A} I P (Q : A -> Prop) E (m m' : M A) :
  (forall w, m w = m' w) -> triple I P Q E m' -> triple I P Q E m.
Proof. intros He Hm w Hw. rewrite He. now apply Hm. Qed.

Lemma triple_bind_ret {A B} I P (Q : B -> Prop) E (a : A) (k : A -> M B) :
  triple I P Q E (k a) -> triple I P Q E (bind (ret a) k).
Proof. apply triple_ext. intros w. apply bind_ret. Qed.

Lemma triple_bind_assoc {A B C} I P (Q : C -> Prop) E
  (m : M A) (k : A -> M B) (k2 : B -> M C) :
  triple I P Q E (bind m (fun x => bind (k x) k2)) ->
  triple I P Q E (bind (bind m k) k2).
Proof. apply triple_ext. intros w. apply bind_assoc. Qed.

Lemma triple_for_each_Forall {A} I P E (l : list A) body :
  Forall (fun x => triple I P (fun _ => True) E (body x)) l ->
  triple I P (fun _ => True) E (for_each l body).
Proof.
  induction 1 as [|x l Hx _ IH]; simpl.
  - now apply triple_ret.
  - eapply triple_bind; [exact Hx | intros _ _; exact IH].
Qed.

Lemma fmt_read_exn st a arg e :
  fmt_read st a arg = FFail e -> e = TypeError \/ e = ValueError.
Proof.
  unfold fmt_read, fmt_flags, fmt_after_width, fmt_modifier, fmt_conv.
  repeat case_match; intros [= <-]; auto.
Qed.

Lemma py_format_from_exn fmt : forall st arg e,
  py_format_from st arg fmt = inl e -> e = TypeError \/ e = ValueError.
Proof.
  induction fmt as [|a fmt IH]; intros st arg e; cbn [py_format_from].
  - destruct st, arg; intros [= <-]; auto.
  - destruct (fmt_read st a arg) as [st' piece arg'|e'] eqn:Es.
    + destruct (py_format_from st' arg' fmt) as [e'|rest] eqn:Er; [|discriminate].
      intros [= <-]. exact (IH _ _ _ Er).
    + intros [= <-]. exact (fmt_read_exn _ _ _ _ Es).
Qed.

Lemma triple_format_s I P E fmt arg :
  E TypeError -> E ValueError -> triple I P (fun _ => True) E (format_s fmt arg).
Proof.
  intros Ht Hv. unfold format_s. destruct (py_format fmt arg) as [e|s] eqn:Ef.
  - intros w Hw. exists []. rewrite app_nil_r. simpl.
    repeat split; auto; intros ? [=]. subst.
    destruct (py_format_from_exn _ _ _ _ Ef) as [-> | ->]; assumption.
  - intros w Hw. exists []. rewrite app_nil_r. simpl. repeat split; auto. intros ? [=].
Qed.

Ltac triple_step HI HP :=
  cbv beta;
  lazymatch goal with
  | |- triple _ _ _ _ (bind (ret _) _) => apply triple_bind_ret
  | |- triple _ _ _ _ (bind (bind _ _) _) => apply triple_bind_assoc
  | |- triple _ _ _ _ (bind _ _) =>
      apply triple_bind with (Q := fun _ => True); [|intros ? _]
  | |- triple _ _ _ _ (try_except _ _) =>
      apply triple_try_except with (E' := fun _ => True);
      [|intros [] _; cbv beta iota; try exact Logic.I]
  | |- triple _ _ _ _ (format_s _ _) => apply triple_format_s
  | |- triple _ _ _ _ (item1 _) => unfold item1
  | |- triple _ _ _ _ (ret _) => apply (triple_ret _ _ (fun _ => True)); exact Logic.I
  | |- triple _ _ _ _ (raise _) => apply triple_raise
  | |- triple _ _ _ _ (CONFIG_get _) => apply (triple_CONFIG_get _ _ HI HP)
  | |- triple _ _ _ _ (LOGGER_log _ _) => apply (triple_LOGGER_log _ _ HI)
  | |- triple _ _ _ _ (LOGGER_debug _ _) => apply (triple_LOGGER_debug _ _ HI HP)
  | |- triple _ _ _ _ (SPLASH_send_cmd _ _) => apply (triple_SPLASH_send_cmd _ _ HI HP)
  | |- triple _ _ _ _ (SPLASH_update _ _) => apply (triple_SPLASH_update _ _ HI HP)
  | |- triple _ _ _ _ (SPLASH_hide_splash _) => apply (triple_SPLASH_hide_splash _ _ HI HP)
  | |- triple _ _ _ _ (SPLASH_quit _ _) => apply (triple_SPLASH_quit _ _ HI HP)
  | |- triple _ _ _ _ (UI_info _ _) => apply (triple_UI_info _ _ HI HP)
  | |- triple _ _ _ _ (UI_warn _ _) => apply (triple_UI_warn _ _ HI HP)
  | |- triple _ _ _ _ (UI_error _ _) => apply (triple_UI_error _ _ HI HP)
  | |- triple _ _ _ _ (load_file _ _) => apply (triple_load_file _ _ HI)
  | |- triple _ _ _ _ (plymouth_update_milestone _ _ _) =>
      apply (triple_plymouth_update_milestone _ _ HI HP)
  | |- triple _ _ _ _ (skip_for_lxc_guests _) =>
      apply (triple_skip_for_lxc_guests _ _ HI HP)
  | |- triple _ _ _ _ (emit _) => apply (triple_emit _ _ HI)
  | |- triple _ _ _ _ (print _) => apply (triple_emit _ _ HI)
  | |- triple _ _ _ _ (time_sleep _) => apply (triple_emit _ _ HI)
  | |- triple _ _ _ _ (stdout_write _) => apply (triple_emit _ _ HI)
  | |- triple _ _ _ _ (call_status _ _) => apply (triple_call_status _ _ HI)
  | |- triple _ _ _ _ (run _ _) => apply (triple_call_status _ _ HI)
  | |- triple _ _ _ _ (run_full _ _) => apply (triple_call_status _ _ HI)
  | |- triple _ _ _ _ (run_quiet _ _) => apply (triple_call_status _ _ HI)
  | |- triple _ _ _ _ (os_system _ _) => apply (triple_call_status _ _ HI)
  | |- triple _ _ _ _ (call_test _ _) => apply (triple_call_test _ _ HI)
  | |- triple _ _ _ _ (os_path_exists _ _) => apply (triple_call_test _ _ HI)
  | |- triple _ _ _ _ (os_path_isfile _ _) => apply (triple_call_test _ _ HI)
  | |- triple _ _ _ _ (os_path_isdir _ _) => apply (triple_call_test _ _ HI)
  | |- triple _ _ _ _ (call_or_raise _ _ _) => apply (triple_call_or_raise _ _ HI)
  | |- triple _ _ _ _ (os_unlink _ _) => apply (triple_call_or_raise _ _ HI)
  | |- triple _ _ _ _ (os_chdir _ _) => apply (triple_call_or_raise _ _ HI)
  | |- triple _ _ _ _ (shutil_copy _ _ _) => apply (triple_call_or_raise _ _ HI)
  | |- triple _ _ _ _ (dbus_SystemBus _) => apply (triple_call_or_raise _ _ HI)
  | |- triple _ _ _ _ (open_read _ _) => apply (triple_open_read _ _ HI)
  | |- triple _ _ _ _ (capture _ _) => apply (triple_capture _ _ HI)
  | |- triple _ _ _ _ (os_listdir _ _) => apply (triple_os_listdir _ _ HI)
  | |- triple _ _ _ _ (listModelApplications _) =>
      apply (triple_listModelApplications _ _ HI)
  | |- triple _ _ _ _ (for_each _ _) => apply triple_for_each; intros ?
  | |- triple _ _ _ _ (when ?b _) => unfold when
  | |- triple _ _ _ _ (if ?b then _ else _) => destruct b
  | |- triple _ _ _ _ (match ?x with _ => _ end) => destruct x
  end.

Ltac triple_auto HI HP := repeat (triple_step HI HP).

(** ** The shutdown of a container guest *)

Lemma stable_guest : stable guest.
Proof. repeat split; intros; assumption. Qed.

Lemma chatter_guest_call c : chatter c -> guest_call c.
Proof. now left. Qed.

Lemma triple_skipped I P E (HI : stable I) (HP : forall c, chatter c -> P c) v f :
  (forall w, I w -> options (CONFIG w) !! "lxc_guest" = Some v) ->
  eq_str v "no" = false ->
  triple I P (fun _ => True) E (skip_for_lxc_guests f).
Proof.
  intros Hk Hv. unfold skip_for_lxc_guests.
  eapply triple_bind; [apply triple_CONFIG_get_known, Hk | intros g <-].
  rewrite Hv. now apply triple_ret.
Qed.

Lemma stop_system_guest (env : Env) :
  triple guest guest_call (fun _ => True) any_exn (stop_system env).
Proof.
  pose proof stable_guest as HI. pose proof chatter_guest_call as HP.
  assert (Hg : forall w, guest w -> options (CONFIG w) !! "lxc_guest" = Some (VStr "yes"))
    by (intros w H; exact H).
  unfold stop_system, stopping_system.
  apply (triple_bind _ _) with (Q := fun _ => True); [|intros ? _].
  - apply (triple_bind _ _) with (Q := fun _ => True); [|intros ? _].
    { unfold stop_services, get_service_list, manage_service.
      triple_auto HI HP.
      all: try exact Logic.I.
      all: try (unfold guest_call; tauto).
      right. right. right. right. left. eexists. reflexivity. }
    apply (triple_bind _ _) with (Q := fun _ => True); [|intros ? _].
    { unfold stop_dbus. triple_auto HI HP.
      all: try exact Logic.I.
      unfold guest_call. tauto. }
    apply (triple_bind _ _) with (Q := fun _ => True); [|intros ? _].
    { unfold stop_udev. now apply (triple_skipped _ _ _ HI HP (VStr "yes")). }
    apply (triple_bind _ _) with (Q := fun _ => True); [|intros ? _].
    { unfold save_clock. now apply (triple_skipped _ _ _ HI HP (VStr "yes")). }
    apply (triple_bind _ _) with (Q := fun _ => True); [|intros ? _].
    { unfold disable_swap. now apply (triple_skipped _ _ _ HI HP (VStr "yes")). }
    triple_auto HI HP.
    all: try exact Logic.I.
    unfold guest_call. tauto.
  - eapply triple_bind; [apply triple_CONFIG_get_known, Hg | intros g <-].
    simpl. now apply triple_ret.
Qed.

(** ** A live system *)

Lemma triple_live_guard env v name (body : M unit) :
  truthy v = true ->
  triple (fun w => options (CONFIG w) !! "live" = Some v) chatter
    (fun _ => True) (fun _ => False)
    (skip_for_lxc_guests
       (plymouth_update_milestone env name
          (live <- CONFIG_get "live" ;; when (negb (truthy live)) body))).
Proof.
  intros Hv.
  assert (HI : stable (fun w => options (CONFIG w) !! "live" = Some v))
    by (repeat split; intros; assumption).
  assert (HP : forall c, chatter c -> chatter c) by auto.
  apply (triple_skip_for_lxc_guests _ _ HI HP).
  apply (triple_plymouth_update_milestone _ _ HI HP).
  eapply triple_bind; [apply triple_CONFIG_get_known; intros w H; exact H | intros g <-].
  rewrite Hv. now apply triple_ret.
Qed.

Lemma triple_only_chatters I (m : M unit) w :
  triple I chatter (fun _ => True) (fun _ => False) m -> I w -> only_chatters m w.
Proof.
  intros Hm Hw. destruct (Hm w Hw) as (evs & Ht & Hf & _ & _ & He).
  exists evs. split; [exact Ht|]. split; [exact Hf|]. intros e H. exact (He e H).
Qed.

(** X4.  On a live system ([live] is set) neither file-system check runs
    a command: no remount, no [fsck], no reboot, no rescue shell, and
    [/etc/fstab] is not read; [save_clock] does not run [hwclock].  All
    three only talk to the user interface and raise nothing. *)
Theorem live_system_is_not_checked (env : Env) (w : World) (v : PyVal) :
  options (CONFIG w) !! "live" = Some v -> truthy v = true ->
  only_chatters (check_root_filesystem env) w /\
  only_chatters (check_filesystems env) w /\
  only_chatters (save_clock env) w.
Proof.
  intros Hl Hv.
  pose (Inv := fun w : World => options (CONFIG w) !! "live" = Some v).
  repeat split; apply (triple_only_chatters Inv); try exact Hl.
  - unfold check_root_filesystem. now apply triple_live_guard.
  - unfold check_filesystems. now apply triple_live_guard.
  - unfold save_clock. now apply triple_live_guard.
Qed.

Lemma live_system_is_not_checked_witness :
  only_chatters (check_root_filesystem (sim_env [] [] all_succeed))
    (world_with (<["live" := VBool true]> default_options)) /\
  only_chatters (check_filesystems (sim_env [] [] all_succeed))
    (world_with (<["live" := VBool true]> default_options)) /\
  only_chatters (save_clock (sim_env [] [] all_succeed))
    (world_with (<["live" := VBool true]> default_options)).
Proof.
  apply (live_system_is_not_checked (sim_env [] [] all_succeed)
           (world_with (<["live" := VBool true]> default_options)) (VBool true));
    reflexivity.
Defined.

(** X3.  In a container guest ([lxc_guest] is ["yes"]) the shutdown
    calls the user interface, the system bus, the stop commands of the
    services, the stop command of the bus daemon and the record of the
    halt, and nothing else, however the run ends: it unmounts nothing,
    does not touch the swap, the clock or udev, does not read
    [/proc/mounts] and runs no command of the remount ladder. *)
Theorem guest_shutdown_leaves_filesystems (env : Env) (w : World) :
  guest w ->
  exists evs,
    trace (stop_system env w).2 = trace w ++ evs /\
    Forall guest_call evs.
Proof.
  intros Hw. destruct (stop_system_guest env w Hw) as (evs & Ht & Hf & _).
  exists evs. auto.
Qed.

Lemma guest_shutdown_leaves_filesystems_witness :
  exists evs,
    trace (stop_system env_three_mounts
             (world_with (<["lxc_guest" := VStr "yes"]> default_options))).2 =
    trace (world_with (<["lxc_guest" := VStr "yes"]> default_options)) ++ evs /\
    Forall guest_call evs.
Proof.
  apply (guest_shutdown_leaves_filesystems env_three_mounts
           (world_with (<["lxc_guest" := VStr "yes"]> default_options))).
  reflexivity.
Defined.

(** ** The shutdown spares the root file system *)

Lemma stable_any_world : stable any_world.
Proof. repeat split. Qed.

Lemma chatter_spares_root c : chatter c -> spares_root c.
Proof. intros H [-> | [-> | ->]]; discriminate H. Qed.

Lemma fs_entry_not_root dev : fs_entry dev = true -> key1 dev <> "/".
Proof.
  unfold fs_entry, key1. intros H. apply andb_true_iff in H as [_ H].
  destruct (dev !! 1%nat) as [m|]; [|discriminate].
  apply negb_true_iff, String.eqb_neq in H. exact H.
Qed.

Ltac spare := first [ exact Logic.I | intros [H|[H|H]]; congruence ].

Lemma unmount_entry_spares_root env dev :
  fs_entry dev = true ->
  triple any_world spares_root (fun _ => True) any_exn (unmount_entry env dev).
Proof.
  intros Hdev. pose proof stable_any_world as HI. pose proof chatter_spares_root as HP.
  pose proof (fs_entry_not_root dev Hdev) as Hne.
  unfold unmount_entry. rewrite (fs_entry_item1 _ Hdev).
  triple_auto HI HP; spare.
Qed.

Lemma stopping_system_spares_root env :
  triple any_world spares_root (fun _ => True) any_exn (stopping_system env).
Proof.
  pose proof stable_any_world as HI. pose proof chatter_spares_root as HP.
  unfold stopping_system, stop_services, stop_dbus, stop_udev, save_clock,
    disable_swap, get_service_list, manage_service.
  triple_auto HI HP; spare.
Qed.

Lemma remount_ladder_spares_root env :
  triple any_world spares_root (fun _ => True) any_exn (remount_ladder env).
Proof.
  pose proof stable_any_world as HI. pose proof chatter_spares_root as HP.
  unfold remount_ladder, remount_ro. cbv zeta.
  triple_auto HI HP; spare.
Qed.

Lemma unmount_filesystems_spares_root env :
  triple any_world spares_root (fun _ => True) any_exn (unmount_filesystems env).
Proof.
  pose proof stable_any_world as HI. pose proof chatter_spares_root as HP.
  unfold unmount_filesystems, get_fs_entries. cbv zeta.
  triple_step HI HP; [triple_auto HI HP|].
  triple_step HI HP; [triple_auto HI HP|].
  triple_step HI HP.
  triple_step HI HP; [triple_auto HI HP; spare|].
  triple_step HI HP.
  triple_step HI HP.
  - apply triple_for_each_Forall.
    eapply List.Forall_impl; [|apply filter_sort_desc].
    intros dev Hdev. now apply unmount_entry_spares_root.
  - triple_step HI HP; [triple_auto HI HP|].
    triple_step HI HP; [triple_auto HI HP; spare|].
    apply remount_ladder_spares_root.
Qed.

(** X5.  In every run of [stop_system], on any system, the loop over the
    mounts leaves the root file system alone: [umount /] is never run,
    the processes that use [/] are never killed with [fuser], and [/] is
    never unmounted with [umount -f -r]. *)
Theorem stop_system_spares_root (env : Env) (w : World) :
  exists evs,
    trace (stop_system env w).2 = trace w ++ evs /\
    Forall (fun c => ~ loop_on_root c) evs.
Proof.
  pose proof stable_any_world as HI. pose proof chatter_spares_root as HP.
  assert (H : triple any_world spares_root (fun _ => True) any_exn (stop_system env)).
  { unfold stop_system.
    triple_step HI HP; [apply stopping_system_spares_root|].
    triple_step HI HP; [triple_auto HI HP|].
    triple_step HI HP; [apply unmount_filesystems_spares_root | triple_auto HI HP]. }
  destruct (H w Logic.I) as (evs & Ht & Hf & _). exists evs. split; [exact Ht | exact Hf].
Qed.

(** ** The root check that is not needed *)

Lemma UI_info_last env msg w :
  exists w' pre,
    UI_info env msg w = (Ok tt, w') /\ chatters w w' /\
    trace w' = trace w ++ pre ++ [info msg] /\ Forall chatter pre.
Proof.
  unfold UI_info.
  destruct (CONFIG_get_returns "debug" w) as (d & w1 & E1 & C1 & _).
  step E1.
  assert (H2 : exists w2, when (truthy d) (LOGGER_log env msg) w1 = (Ok tt, w2) /\
                          chatters w1 w2).
  { destruct (truthy d).
    - destruct (LOGGER_log_spec env msg w1) as (w2 & E2 & C2 & _). eauto.
    - exists w1. split; [reflexivity | apply chatters_refl]. }
  destruct H2 as (w2 & E2 & C2). step E2.
  pose proof (chatters_trans _ _ _ C1 C2) as C12.
  destruct (chatters_trace _ _ C12) as (pre & Ht & Hpre).
  exists (push (info msg) w2), pre. split; [reflexivity|]. split; [|split].
  - eapply chatters_trans; [exact C12|]. now apply chatters_push.
  - simpl. rewrite Ht. now rewrite <- app_assoc.
  - exact Hpre.
Qed.

(** X6.  When no check of the root file system is forced, and
    [/etc/fstab] has no entry for [/] or the entry has no pass number or
    the pass number [0], the root check runs no command: no remount, no
    [fsck], no reboot and no rescue shell.  It reads [/etc/fstab] at most
    once, says why, and returns. *)
Theorem root_check_skipped (env : Env) (w : World) (forced live : PyVal) :
  options (CONFIG w) !! "lxc_guest" = Some (VStr "no") ->
  options (CONFIG w) !! "live" = Some live -> truthy live = false ->
  options (CONFIG w) !! "forcefsck" = Some forced -> truthy forced = false ->
  splash_answers env ->
  match root_entry env w with
  | Some entry => passno_set entry = false
  | None => True
  end ->
  exists w' evs,
    check_root_filesystem env w = (Ok tt, w') /\
    trace w' = trace w ++ evs /\
    Forall fstab_or_chatter evs /\
    (occ (Open "/etc/fstab") evs <= 1)%nat /\
    match root_entry env w with
    | Some _ =>
        In (info (tr env "Skipping root filesystem check (fstab's passno == 0)")) evs
    | None =>
        In (warning (tr env "/etc/fstab doesn't contain an entry for the root filesystem"))
           evs
    end.
Proof.
  intros Hg Hl Hlf Hf Hff Ha Hroot.
  unfold check_root_filesystem, skip_for_lxc_guests.
  step (CONFIG_get_some "lxc_guest" _ w Hg).
  change (eq_str (VStr "no") "no") with true. cbv iota.
  unfold plymouth_update_milestone.
  rewrite bind_assoc.
  step (CONFIG_get_some "live" _ w Hl). rewrite Hlf. simpl negb. rewrite when_true.
  rewrite bind_assoc.
  destruct (get_fstab_entry_spec env "/" w) as (wf & ef & Ef & Htf & Hef & Hof & _ & _).
  fold (root_entry env w) in Ef. step Ef.
  assert (Hocc : (occ (Open "/etc/fstab") ef <= 1)%nat).
  { unfold get_fstab_entry_with_mountpoint, get_world in Ef.
    rewrite (bind_ok _ _ w w w) in Ef by reflexivity.
    destruct (fstab (CONFIG w)) as [[|e t]|].
    - rewrite bind_assoc in Ef. rewrite (bind_ok _ _ _ _ _ (load_file_loaded env "/etc/fstab" w)) in Ef.
      injection Ef as _ <-. simpl in Htf. apply app_inv_head in Htf as <-.
      rewrite occ_one. lia.
    - injection Ef as _ <-. rewrite <- (app_nil_r (trace w)) in Htf at 1.
      apply app_inv_head in Htf as <-. simpl. lia.
    - rewrite bind_assoc in Ef. rewrite (bind_ok _ _ _ _ _ (load_file_loaded env "/etc/fstab" w)) in Ef.
      injection Ef as _ <-. simpl in Htf. apply app_inv_head in Htf as <-.
      rewrite occ_one. lia. }
  assert (Hef' : Forall fstab_or_chatter ef).
  { eapply List.Forall_impl; [|exact Hef]. intros c ->. now right. }
  assert (Hchat : forall evs, Forall chatter evs -> Forall fstab_or_chatter evs).
  { apply List.Forall_impl. intros c Hc. now left. }
  assert (Hocc_chat : forall evs, Forall chatter evs -> occ (Open "/etc/fstab") evs = 0%nat).
  { intros evs. apply occ_chatter. intros H. exact H. }
  destruct (root_entry env w) as [entry|].
  - assert (Hff' : options (CONFIG wf) !! "forcefsck" = Some forced) by now rewrite Hof.
    rewrite bind_assoc.
    step (CONFIG_get_some "forcefsck" _ wf Hff'). rewrite Hff, Hroot. cbv iota. simpl orb.
    cbv iota.
    destruct (UI_info_last env
                (tr env "Skipping root filesystem check (fstab's passno == 0)") wf)
      as (w1 & pre & E1 & C1 & Ht1 & Hp1).
    step E1.
    destruct (SPLASH_update_spec env "check_root_filesystem" w1 Ha) as (w2 & E2 & C2).
    rewrite E2. destruct (chatters_trace _ _ C2) as (e2 & Ht2 & He2).
    exists w2, (ef ++ (pre ++ [info (tr env "Skipping root filesystem check (fstab's passno == 0)")]) ++ e2).
    split; [reflexivity|]. split; [|split; [|split]].
    + rewrite Ht2, Ht1, Htf. now rewrite <- !app_assoc.
    + repeat (apply Forall_app; split); auto; constructor; [now left | constructor].
    + rewrite !occ_app, (Hocc_chat pre Hp1), (Hocc_chat e2 He2). simpl. lia.
    + apply in_or_app. right. apply in_or_app. left. apply in_or_app. right. now left.
  - destruct (UI_warn_spec env
                (tr env "/etc/fstab doesn't contain an entry for the root filesystem") wf)
      as (w1 & E1 & C1 & Ht1 & _).
    step E1.
    destruct (SPLASH_update_spec env "check_root_filesystem" w1 Ha) as (w2 & E2 & C2).
    rewrite E2. destruct (chatters_trace _ _ C2) as (e2 & Ht2 & He2).
    eexists w2, (ef ++ [_] ++ e2).
    split; [reflexivity|]. split; [|split; [|split]].
    + rewrite Ht2, Ht1, Htf. now rewrite <- !app_assoc.
    + apply Forall_app; split; [exact Hef'|]. constructor; [now left | now apply Hchat].
    + rewrite !occ_app, (Hocc_chat e2 He2). simpl. lia.
    + apply in_or_app. right. now left.
Qed.

Lemma root_check_skipped_witness :
  exists w' evs,
    check_root_filesystem env_root_without_passno fresh_world = (Ok tt, w') /\
    trace w' = trace fresh_world ++ evs /\
    Forall fstab_or_chatter evs /\
    (occ (Open "/etc/fstab") evs <= 1)%nat /\
    match root_entry env_root_without_passno fresh_world with
    | Some _ =>
        In (info (tr env_root_without_passno
                    "Skipping root filesystem check (fstab's passno == 0)")) evs
    | None =>
        In (warning (tr env_root_without_passno
                       "/etc/fstab doesn't contain an entry for the root filesystem"))
           evs
    end.
Proof.
  apply (root_check_skipped env_root_without_passno fresh_world (VBool false) (VBool false)).
  - reflexivity.
  - reflexivity.
  - reflexivity.
  - reflexivity.
  - reflexivity.
  - intros cmd n. eexists. reflexivity.
  - vm_compute. reflexivity.
Defined.

(** ** The fragments the kernel options drop *)

Lemma prefix_cons_inv k a s :
  String.prefix k (String a s) = true ->
  k = "" \/ exists k', k = String a k' /\ String.prefix k' s = true.
Proof.
  destruct k as [|b k]; [now left|]. simpl.
  destruct (ascii_dec b a) as [->|]; [|discriminate]. intros H. right. eauto.
Qed.

Lemma prefix_nil_inv k : String.prefix k "" = true -> k = "".
Proof. destruct k; [reflexivity | discriminate]. Qed.

Lemma kernel_key_false k : kernel_key k = false <-> In k thin_like.
Proof.
  split.
  - unfold kernel_key. intros H. apply negb_false_iff in H.
    cbn [PyStr.contains] in H. rewrite !orb_true_iff in H.
    unfold thin_like.
    repeat match goal with
           | H : _ \/ _ |- _ => destruct H as [H|H]
           | H : String.prefix _ (String _ _) = true |- _ =>
               apply prefix_cons_inv in H as [->|(? & -> & H)]
           | H : String.prefix _ "" = true |- _ => apply prefix_nil_inv in H as ->
           | H : false = true |- _ => discriminate H
           end; simpl; repeat (first [left; reflexivity | right]).
  - intros H. unfold thin_like in H. simpl in H.
    repeat destruct H as [<-|H]; try reflexivity. contradiction.
Qed.

(** X7.  A fragment of the [mudur=] option whose name is a substring of
    ["thin"] ([t], [h], [i], [n], [th], [hi], [in], [thi], [hin], the
    empty name of a bare [mudur=]) is dropped: the resolved value of such
    a key is the one of the configuration file, whatever the kernel
    command line says. *)
Theorem thin_like_fragment_is_dropped (env : Env) (w : World)
  (conf : gmap string string) (k : string) :
  config_file env w = Some conf ->
  In k thin_like ->
  exists cfg w',
    Config_init env w = (Ok cfg, w') /\
    options cfg !! k = VStr <$> (conf !! k).
Proof.
  intros Hconf Hk.
  destruct (Config_init_spec env w conf Hconf) as (cfg & w' & E & Ho).
  exists cfg, w'. split; [exact E|]. rewrite Ho.
  assert (Hkey : kernel_key k = false) by now apply kernel_key_false.
  assert (Hne : k <> "live" /\ k <> "forcefsck" /\ k <> "language" /\ k <> "keymap").
  { unfold thin_like in Hk. simpl in Hk.
    repeat destruct Hk as [<-|Hk]; try (repeat split; discriminate). contradiction. }
  destruct Hne as (H1 & H2 & H3 & H4).
  rewrite normalize_lookup_other by assumption.
  rewrite merged_lookup by assumption. rewrite Hkey.
  assert (Hf : file_options env w conf !! k = VStr <$> (conf !! k)).
  { rewrite file_options_lookup by assumption.
    destruct (conf !! k); [reflexivity|].
    unfold thin_like in Hk. simpl in Hk.
    repeat destruct Hk as [<-|Hk]; try reflexivity. contradiction. }
  destruct (kernel_cmdline env w !! k); exact Hf.
Qed.

Lemma thin_like_fragment_is_dropped_witness :
  exists cfg w',
    Config_init env_thin_like fresh_world = (Ok cfg, w') /\
    options cfg !! "hin" = VStr <$> (config_of_text (lines ["hin=file"]) !! "hin").
Proof.
  apply (thin_like_fragment_is_dropped env_thin_like fresh_world
           (config_of_text (lines ["hin=file"])) "hin").
  - vm_compute. reflexivity.
  - unfold thin_like. simpl. repeat (first [left; reflexivity | right]).
Defined.

(** ** The language and the keymap of the console *)

Lemma keymap_not_empty lang l : LANGUAGES_get lang = Some l -> keymap l <> "".
Proof.
  destruct lang as [| |s]; try discriminate. simpl. intros H.
  apply elem_of_list_to_map_2 in H.
  apply list_elem_of_In in H. simpl in H.
  repeat (destruct H as [H|H]; [injection H as _ <-; discriminate|]).
  contradiction.
Qed.

Lemma normalize_ready o lang0 km0 :
  o !! "language" = Some lang0 -> o !! "keymap" = Some km0 ->
  exists lang l km,
    normalize o !! "language" = Some lang /\ LANGUAGES_get lang = Some l /\
    normalize o !! "keymap" = Some km /\ truthy km = true.
Proof.
  intros Hl Hk.
  assert (Hs : exists l, LANGUAGES_get (resolved_language lang0) = Some l).
  { unfold resolved_language, supported.
    destruct (LANGUAGES_get lang0) as [l|] eqn:E; [rewrite E|rewrite supported_en]; eauto. }
  destruct Hs as [l Hs].
  exists (resolved_language lang0), l. eexists.
  split; [now apply normalize_language|]. split; [exact Hs|].
  split; [now apply (normalize_keymap _ _ _ Hl Hk)|].
  destruct (truthy km0) eqn:Et; [exact Et|]. rewrite Hs. simpl.
  apply negb_true_iff, String.eqb_neq. now apply (keymap_not_empty _ _ Hs).
Qed.

(** X8.  Whatever the configuration file and the kernel command line
    say, the configuration [Config()] returns names a language of the
    table [LANGUAGES] and a keymap that is not empty. *)
Theorem Config_is_console_ready (env : Env) (w : World) (conf : gmap string string) :
  config_file env w = Some conf ->
  exists cfg w', Config_init env w = (Ok cfg, w') /\ console_ready cfg.
Proof.
  intros Hconf.
  destruct (Config_init_spec env w conf Hconf) as (cfg & w' & E & Ho).
  exists cfg, w'. split; [exact E|]. unfold console_ready. rewrite Ho.
  set (merged := apply_kernel_options _ _).
  assert (Hl : merged !! "language" = precedence (kernel_cmdline env w) conf "language").
  { apply merged_precedence; [discriminate | discriminate | now left]. }
  assert (Hk : merged !! "keymap" = precedence (kernel_cmdline env w) conf "keymap").
  { apply merged_precedence; [discriminate | discriminate | now left]. }
  assert (Hsl : exists lang, merged !! "language" = Some lang).
  { rewrite Hl. unfold precedence.
    destruct (kernel_cmdline env w !! "language"); [eauto|].
    destruct (conf !! "language"); eauto. }
  assert (Hsk : exists km, merged !! "keymap" = Some km).
  { rewrite Hk. unfold precedence.
    destruct (kernel_cmdline env w !! "keymap"); [eauto|].
    destruct (conf !! "keymap"); eauto. }
  destruct Hsl as [lang0 Hl0], Hsk as [km0 Hk0].
  exact (normalize_ready merged lang0 km0 Hl0 Hk0).
Qed.

Lemma Config_is_console_ready_witness :
  exists cfg w',
    Config_init env_configured fresh_world = (Ok cfg, w') /\ console_ready cfg.
Proof.
  apply (Config_is_console_ready env_configured fresh_world conf_configured).
  vm_compute. reflexivity.
Defined.

(** X9.  With such a configuration [set_console_parameters] finds its
    language: it raises no [KeyError].  With a keymap that is a string it
    sets the keyboard mode, loads the keymap and sets the font and the
    translation of the language, and returns; with a keymap that is not a
    string (the fragment [keymap] without a value) it stops with
    [TypeError] after the keyboard mode. *)
Theorem console_follows_configuration (env : Env) (w : World)
  (lang km : PyVal) (l : Language) :
  options (CONFIG w) !! "language" = Some lang -> LANGUAGES_get lang = Some l ->
  options (CONFIG w) !! "keymap" = Some km ->
  responsive env ->
  match km with
  | VStr s =>
      exists w', set_console_parameters env w = (Ok tt, w') /\
                 trace w' = trace w ++ console_calls s l
  | _ =>
      exists w', set_console_parameters env w = (Raise TypeError, w') /\
                 trace w' = trace w ++ [Exec NoStdout ["/usr/bin/kbd_mode"; "-u"]]
  end.
Proof.
  intros Hl Hs Hk Hr.
  destruct (Hr (Exec NoStdout ["/usr/bin/kbd_mode"; "-u"])
              (seen (Exec NoStdout ["/usr/bin/kbd_mode"; "-u"]) w)) as [z1 H1].
  assert (Hstart : forall k : M unit,
            (lang <- CONFIG_get "language" ;;
             keymap <- CONFIG_get "keymap" ;;
             language <- LANGUAGES_item lang ;;
             _ <- run env ["/usr/bin/kbd_mode"; "-u"] ;;
             km <- argv_item keymap ;;
             _ <- run_quiet env ["/bin/loadkeys"; km] ;;
             _ <- run env ["/usr/bin/setfont"; "-f"; font language; "-m"; trans language] ;;
             ret tt) w =
            (km <- argv_item km ;;
             _ <- run_quiet env ["/bin/loadkeys"; km] ;;
             _ <- run env ["/usr/bin/setfont"; "-f"; font l; "-m"; trans l] ;;
             ret tt) (push (Exec NoStdout ["/usr/bin/kbd_mode"; "-u"]) w)).
  { intros _. step (CONFIG_get_some _ _ _ Hl). step (CONFIG_get_some _ _ _ Hk).
    unfold LANGUAGES_item. rewrite Hs, bind_ret.
    unfold run at 1. now step (call_status_some _ _ _ _ H1). }
  unfold set_console_parameters. rewrite (Hstart (ret tt)). clear Hstart.
  set (w1 := push _ w).
  destruct km as [|b|s]; simpl argv_item.
  - eexists. split; reflexivity.
  - eexists. split; reflexivity.
  - rewrite bind_ret.
    destruct (Hr (Exec Quiet ["/bin/loadkeys"; s]) (seen (Exec Quiet ["/bin/loadkeys"; s]) w1))
      as [z2 H2].
    unfold run_quiet. step (call_status_some _ _ _ _ H2).
    set (w2 := push _ w1).
    destruct (Hr (Exec NoStdout ["/usr/bin/setfont"; "-f"; font l; "-m"; trans l])
                (seen (Exec NoStdout ["/usr/bin/setfont"; "-f"; font l; "-m"; trans l]) w2))
      as [z3 H3].
    unfold run. step (call_status_some _ _ _ _ H3).
    eexists. split; [reflexivity|]. simpl. now rewrite <- !app_assoc.
Qed.

Lemma console_follows_configuration_witness :
  exists w',
    set_console_parameters (sim_env [] [] all_succeed)
      (world_with (<["keymap" := VStr "trq"]> (<["language" := VStr "tr"]> default_options)))
    = (Ok tt, w') /\
    trace w' =
    trace (world_with (<["keymap" := VStr "trq"]> (<["language" := VStr "tr"]> default_options)))
    ++ console_calls "trq" (Build_Language "trq" "lat5u-16" "8859-9" "tr_TR.UTF-8").
Proof.
  apply (console_follows_configuration (sim_env [] [] all_succeed)
           (world_with (<["keymap" := VStr "trq"]> (<["language" := VStr "tr"]> default_options)))
           (VStr "tr") (VStr "trq")
           (Build_Language "trq" "lat5u-16" "8859-9" "tr_TR.UTF-8")).
  - reflexivity.
  - reflexivity.
  - reflexivity.
  - apply all_succeed_responsive.
Defined.

(** ** The kernel command line *)

Lemma cons_nonempty_app tok rest l :
  PyStr.cons_nonempty tok (rest ++ l) = PyStr.cons_nonempty tok rest ++ l.
Proof. unfold PyStr.cons_nonempty. now destruct (String.eqb tok ""). Qed.

Lemma split_ws_aux_app s1 s2 :
  PyStr.split_ws_aux (s1 +:+ String " " s2) =
  ((PyStr.split_ws_aux s1).1, (PyStr.split_ws_aux s1).2 ++ PyStr.split_ws s2).
Proof.
  induction s1 as [|a s1 IH].
  - simpl. unfold PyStr.split_ws. now destruct (PyStr.split_ws_aux s2).
  - change (String a s1 +:+ String " " s2) with (String a (s1 +:+ String " " s2)).
    simpl. rewrite IH. destruct (PyStr.split_ws_aux s1) as [tok rest]. simpl.
    destruct (PyStr.is_space a); [|reflexivity].
    now rewrite cons_nonempty_app.
Qed.

Lemma split_ws_app s1 s2 :
  PyStr.split_ws (s1 +:+ String " " s2) = PyStr.split_ws s1 ++ PyStr.split_ws s2.
Proof.
  unfold PyStr.split_ws at 1 2. rewrite split_ws_aux_app.
  destruct (PyStr.split_ws_aux s1) as [tok rest]. simpl.
  apply cons_nonempty_app.
Qed.

Lemma fold_left_union {A} (g : gmap string string -> A -> gmap string string) :
  (forall a m x, g (a ∪ m) x = g a x ∪ m) ->
  forall l a m, fold_left g l (a ∪ m) = fold_left g l a ∪ m.
Proof.
  intros Hg l. induction l as [|x l IH]; intros a m; simpl; [reflexivity|].
  now rewrite Hg, IH.
Qed.

Lemma kernel_option_arg_union a m arg :
  kernel_option_arg (a ∪ m) arg = kernel_option_arg a arg ∪ m.
Proof.
  unfold kernel_option_arg.
  destruct (PyStr.has_char ":" arg); [destruct (PyStr.split1 ":" arg) as [[k v]|]|];
    try reflexivity; now rewrite insert_union_l.
Qed.

Lemma kernel_option_cmd_union option a m cmd :
  kernel_option_cmd option (a ∪ m) cmd = kernel_option_cmd option a cmd ∪ m.
Proof.
  unfold kernel_option_cmd.
  destruct (if PyStr.has_char "=" cmd then _ else _) as [optname optargs].
  destruct (String.eqb optname option); [|reflexivity].
  apply fold_left_union. apply kernel_option_arg_union.
Qed.

(** X10.  On the kernel command line what stands later wins: the
    dictionary [get_kernel_option] builds from two parts of a command
    line is the dictionary of the second part, completed by that of the
    first. *)
Theorem later_kernel_options_win (option t1 t2 : string) :
  kernel_args option (t1 +:+ " " +:+ t2) =
  kernel_args option t2 ∪ kernel_args option t1.
Proof.
  unfold kernel_args.
  change (t1 +:+ " " +:+ t2) with (t1 +:+ String " " t2).
  rewrite split_ws_app, fold_left_app.
  rewrite <- (left_id_L ∅ (∪) (fold_left _ (PyStr.split_ws t1) ∅)) at 1.
  apply fold_left_union. apply kernel_option_cmd_union.
Qed.

(** ** The configuration file, line by line *)

Lemma readlines_aux_line x t :
  free_of PyStr.LF x = true ->
  PyStr.readlines_aux (x +:+ String PyStr.LF t) =
  (x +:+ String PyStr.LF "", PyStr.readlines t).
Proof.
  intros Hx. induction x as [|a x IH].
  - simpl. unfold PyStr.readlines. now destruct (PyStr.readlines_aux t).
  - simpl in Hx. apply andb_true_iff in Hx as [Ha Hx].
    change (String a x +:+ String PyStr.LF t) with (String a (x +:+ String PyStr.LF t)).
    cbn [PyStr.readlines_aux]. rewrite (IH Hx).
    apply negb_true_iff in Ha. now rewrite Ha.
Qed.

Lemma app_LF_not_empty x : String.eqb (x +:+ String PyStr.LF "") "" = false.
Proof. now destruct x. Qed.

Lemma string_app_assoc (a b c : string) : (a +:+ b) +:+ c = a +:+ (b +:+ c).
Proof.
  induction a as [|x a IH]; [reflexivity|].
  change (String x ((a +:+ b) +:+ c) = String x (a +:+ (b +:+ c))). now rewrite IH.
Qed.

Lemma lines_cons x l : lines (x :: l) = x +:+ String PyStr.LF (lines l).
Proof.
  unfold lines. destruct l as [|y l]; [reflexivity|].
  exact (string_app_assoc x (String PyStr.LF "") _).
Qed.

Lemma readlines_lines l :
  Forall (fun x => free_of PyStr.LF x = true) l ->
  PyStr.readlines (lines l) = List.map (fun x => x +:+ String PyStr.LF "") l.
Proof.
  induction 1 as [|x l Hx _ IH]; [reflexivity|].
  rewrite lines_cons. unfold PyStr.readlines at 1.
  rewrite (readlines_aux_line _ _ Hx), IH.
  unfold PyStr.cons_nonempty. now rewrite app_LF_not_empty.
Qed.

Lemma rstrip_by_app_LF u :
  PyStr.rstrip_by PyStr.is_space (u +:+ String PyStr.LF "") =
  PyStr.rstrip_by PyStr.is_space u.
Proof.
  induction u as [|a u IH]; [reflexivity|].
  change (String a u +:+ String PyStr.LF "") with (String a (u +:+ String PyStr.LF "")).
  cbn [PyStr.rstrip_by]. now rewrite IH.
Qed.

Lemma strip_app_LF v : PyStr.strip (v +:+ String PyStr.LF "") = PyStr.strip v.
Proof.
  unfold PyStr.strip, PyStr.strip_by. induction v as [|a v IH]; [reflexivity|].
  change (String a v +:+ String PyStr.LF "") with (String a (v +:+ String PyStr.LF "")).
  cbn [PyStr.lstrip_by]. destruct (PyStr.is_space a); [exact IH|].
  exact (rstrip_by_app_LF (String a v)).
Qed.

Lemma split1_assignment k rest :
  free_of "=" k = true ->
  PyStr.split1 "=" (k +:+ String "=" rest) = Some (k, rest).
Proof.
  intros Hk. induction k as [|a k IH]; [reflexivity|].
  simpl in Hk. apply andb_true_iff in Hk as [Ha Hk].
  change (String a k +:+ String "=" rest) with (String a (k +:+ String "=" rest)).
  cbn [PyStr.split1]. apply negb_true_iff in Ha. now rewrite Ha, (IH Hk).
Qed.

Lemma prefix_empty s : String.prefix "" s = true.
Proof. now destruct s. Qed.

Lemma prefix_char c a s :
  String.prefix (String c "") (String a s) = if ascii_dec c a then true else false.
Proof. simpl. destruct (ascii_dec c a); [apply prefix_empty | reflexivity]. Qed.

Lemma has_char_app c k rest : PyStr.has_char c (k +:+ String c rest) = true.
Proof.
  unfold PyStr.has_char. induction k as [|a k IH].
  - change ("" +:+ String c rest) with (String c rest).
    cbn [PyStr.contains]. rewrite prefix_char. now destruct (ascii_dec c c).
  - change (String a k +:+ String c rest) with (String a (k +:+ String c rest)).
    cbn [PyStr.contains]. rewrite IH. apply orb_true_r.
Qed.

Lemma has_char_app_other c d x :
  c <> d -> PyStr.has_char c (x +:+ String d "") = PyStr.has_char c x.
Proof.
  intros Hne. unfold PyStr.has_char. induction x as [|a x IH].
  - change ("" +:+ String d "") with (String d "").
    cbn [PyStr.contains]. rewrite prefix_char.
    destruct (ascii_dec c d); [contradiction | reflexivity].
  - change (String a x +:+ String d "") with (String a (x +:+ String d "")).
    cbn [PyStr.contains]. now rewrite IH, !prefix_char.
Qed.

Lemma startswith_app c x y :
  x <> "" -> PyStr.startswith (String c "") (x +:+ y) = PyStr.startswith (String c "") x.
Proof.
  intros Hx. destruct x as [|a x]; [contradiction|].
  unfold PyStr.startswith.
  change (String a x +:+ y) with (String a (x +:+ y)). now rewrite !prefix_char.
Qed.

Lemma free_of_app c a b :
  free_of c (a +:+ b) = (free_of c a && free_of c b)%bool.
Proof.
  induction a as [|x a IH]; [reflexivity|].
  change (String x a +:+ b) with (String x (a +:+ b)). simpl. rewrite IH.
  now rewrite andb_assoc.
Qed.

Lemma config_of_text_snoc l x :
  Forall (fun x => free_of PyStr.LF x = true) l -> free_of PyStr.LF x = true ->
  config_of_text (lines (l ++ [x])) =
  if config_line (x +:+ String PyStr.LF "")
  then load_config_line (config_of_text (lines l)) (x +:+ String PyStr.LF "")
  else config_of_text (lines l).
Proof.
  intros Hl Hx. unfold config_of_text.
  rewrite !readlines_lines; [|exact Hl|].
  2:{ apply Forall_app. split; [exact Hl | now repeat constructor]. }
  rewrite List.map_app, List.filter_app, fold_left_app. simpl.
  now destruct (config_line _).
Qed.

(** X11.  The configuration file is read line by line and what stands
    later wins: a further line [key=value] sets the key, stripped of white
    space, to the value, stripped of white space and of the quotes around
    it, whatever the lines before it say, and the value may hold further
    [=] signs; a further line that starts with [#] or holds no [=] changes
    nothing. *)
Theorem config_file_line_by_line (l : list string) :
  Forall (fun x => free_of PyStr.LF x = true) l ->
  (forall k v,
     free_of PyStr.LF k = true -> free_of PyStr.LF v = true ->
     free_of "=" k = true -> PyStr.startswith "#" k = false ->
     config_of_text (lines (l ++ [k +:+ "=" +:+ v])) =
     <[PyStr.strip k := unquote (PyStr.strip v)]> (config_of_text (lines l))) /\
  (forall x,
     free_of PyStr.LF x = true ->
     PyStr.startswith "#" x = true \/ PyStr.has_char "=" x = false ->
     config_of_text (lines (l ++ [x])) = config_of_text (lines l)).
Proof.
  intros Hl. split.
  - intros k v Hk Hv Hke Hkc.
    rewrite config_of_text_snoc; [|exact Hl|].
    2:{ rewrite !free_of_app, Hk, Hv. reflexivity. }
    change (k +:+ "=" +:+ v) with (k +:+ String "=" v).
    rewrite string_app_assoc.
    change (String "=" v +:+ String PyStr.LF "") with (String "=" (v +:+ String PyStr.LF "")).
    assert (Hline : config_line (k +:+ String "=" (v +:+ String PyStr.LF "")) = true).
    { unfold config_line. rewrite has_char_app. simpl andb.
      destruct k as [|a k]; [reflexivity|].
      rewrite startswith_app by discriminate. now rewrite Hkc. }
    rewrite Hline. unfold load_config_line.
    rewrite (split1_assignment _ _ Hke). cbv zeta.
    now rewrite strip_app_LF.
  - intros x Hx Hskip.
    rewrite config_of_text_snoc by assumption.
    assert (Hline : config_line (x +:+ String PyStr.LF "") = false).
    { unfold config_line. rewrite has_char_app_other by discriminate.
      destruct Hskip as [Hc | He]; [|now rewrite He].
      destruct x as [|a x]; [discriminate Hc|].
      rewrite startswith_app by discriminate. rewrite Hc. apply andb_false_r. }
    now rewrite Hline.
Qed.

Lemma config_file_line_by_line_witness :
  (forall k v,
     free_of PyStr.LF k = true -> free_of PyStr.LF v = true ->
     free_of "=" k = true -> PyStr.startswith "#" k = false ->
     config_of_text (lines (["# mudur"; "clock = 'UTC'"] ++ [k +:+ "=" +:+ v])) =
     <[PyStr.strip k := unquote (PyStr.strip v)]>
       (config_of_text (lines ["# mudur"; "clock = 'UTC'"]))) /\
  (forall x,
     free_of PyStr.LF x = true ->
     PyStr.startswith "#" x = true \/ PyStr.has_char "=" x = false ->
     config_of_text (lines (["# mudur"; "clock = 'UTC'"] ++ [x])) =
     config_of_text (lines ["# mudur"; "clock = 'UTC'"])).
Proof.
  apply (config_file_line_by_line ["# mudur"; "clock = 'UTC'"]).
  repeat constructor.
Defined.

Example config_file_override :
  config_of_text (lines ["clock=local"; "clock = 'UTC'"; "#clock=x"; "a = b=c "]) =
  <["a" := "b=c"]> (<["clock" := "UTC"]> ∅).
Proof. vm_compute. reflexivity. Qed.

(** ** Plain words *)


Lemma plain_word_app a b :
  plain_word (a +:+ b) = (plain_word a && plain_word b)%bool.
Proof.
  induction a as [|x a IH]; [reflexivity|].
  change (String x a +:+ b) with (String x (a +:+ b)). cbn [plain_word].
  now rewrite IH, andb_assoc.
Qed.









(** ** The kernel command line and the configuration file, as texts *)






(** ** The precedence of the options *)


Example env_configured_resolved :
  option_map (fun cfg => (options cfg !! "tty_number", options cfg !! "clock",
                          options cfg !! "safe", options cfg !! "debug"))
    match (Config_init env_configured fresh_world).1 with
    | Ok cfg => Some cfg
    | _ => None
    end
  = Some (Some (VStr "2"), Some (VStr "UTC"), Some (VBool true), Some (VBool true)).
Proof. vm_compute. reflexivity. Qed.



(** ** The table of [/etc/fstab] is read once *)

(** X12.  [CONFIG] reads [/etc/fstab] the first time an entry is asked
    for and never again: a second call, for any mount point, opens no
    file, changes nothing and answers from the table of the first call,
    whatever the file holds by then. *)
Theorem fstab_is_read_once (env : Env) (mp1 mp2 : string) (w : World) :
  exists w1,
    get_fstab_entry_with_mountpoint env mp1 w =
      (Ok (List.find (fstab_entry_matches mp1) (fstab_table env w)), w1) /\
    fstab (CONFIG w1) = Some (fstab_table env w) /\
    (occ (Open "/etc/fstab") (trace w1) <= S (occ (Open "/etc/fstab") (trace w)))%nat /\
    get_fstab_entry_with_mountpoint env mp2 w1 =
      (Ok (List.find (fstab_entry_matches mp2) (fstab_table env w)), w1).
Proof.
  assert (Hne : forall text, exists e t, table_of text = e :: t).
  { intros text. unfold table_of.
    destruct (PyStr.split PyStr.LF text) as [|x l] eqn:E.
    - now apply split_not_nil in E.
    - simpl. eauto. }
  assert (Hcached : forall mp e t w0,
            fstab (CONFIG w0) = Some (e :: t) ->
            get_fstab_entry_with_mountpoint env mp w0 =
              (Ok (List.find (fstab_entry_matches mp) (e :: t)), w0)).
  { intros mp e t w0 H. unfold get_fstab_entry_with_mountpoint, get_world.
    rewrite (bind_ok _ _ w0 w0 w0) by reflexivity. rewrite H. reflexivity. }
  assert (Hread : forall w0,
            (match fstab (CONFIG w0) with Some (_ :: _) => False | _ => True end) ->
            get_fstab_entry_with_mountpoint env mp1 w0 =
              (Ok (List.find (fstab_entry_matches mp1) (table_of (loaded env "/etc/fstab" w0))),
               set_CONFIG (with_fstab (CONFIG w0) (Some (table_of (loaded env "/etc/fstab" w0))))
                 (push (Open "/etc/fstab") w0))).
  { intros w0 H. unfold get_fstab_entry_with_mountpoint, get_world.
    rewrite (bind_ok _ _ w0 w0 w0) by reflexivity.
    destruct (fstab (CONFIG w0)) as [[|e t]|]; try contradiction;
      rewrite bind_assoc; step (load_file_loaded env "/etc/fstab" w0); reflexivity. }
  assert (Hfirst : forall w0,
            (match fstab (CONFIG w0) with Some (_ :: _) => False | _ => True end) ->
            forall tbl, tbl = table_of (loaded env "/etc/fstab" w0) ->
            exists w1,
              get_fstab_entry_with_mountpoint env mp1 w0 =
                (Ok (List.find (fstab_entry_matches mp1) tbl), w1) /\
              fstab (CONFIG w1) = Some tbl /\
              (occ (Open "/etc/fstab") (trace w1) <=
               S (occ (Open "/etc/fstab") (trace w0)))%nat /\
              get_fstab_entry_with_mountpoint env mp2 w1 =
                (Ok (List.find (fstab_entry_matches mp2) tbl), w1)).
  { intros w0 H tbl Htbl. eexists. split; [rewrite Htbl; now apply Hread|].
    rewrite <- Htbl. split; [reflexivity|]. split.
    - simpl. rewrite occ_app, occ_one. lia.
    - destruct (Hne (loaded env "/etc/fstab" w0)) as (e & t & Ht).
      rewrite Ht in Htbl. subst tbl. now apply Hcached. }
  unfold fstab_table.
  destruct (fstab (CONFIG w)) as [[|e t]|] eqn:Ef.
  - apply Hfirst; [now rewrite Ef | reflexivity].
  - exists w. split; [now apply Hcached|]. split; [exact Ef|]. split; [lia|].
    now apply Hcached.
  - apply Hfirst; [now rewrite Ef | reflexivity].
Qed.

(** ** Colours and the log *)

Lemma strip_color_aux_plain a b :
  free_of ESC a = true ->
  (strip_color_aux (a +:+ b)).1 = a +:+ (strip_color_aux b).1.
Proof.
  intros Ha. induction a as [|x a IH]; [reflexivity|].
  simpl in Ha. apply andb_true_iff in Ha as [Hx Ha].
  change (String x a +:+ b) with (String x (a +:+ b)).
  cbn [strip_color_aux]. specialize (IH Ha).
  destruct (strip_color_aux (a +:+ b)) as [st sk]. simpl in *.
  apply negb_true_iff in Hx. rewrite Hx. now rewrite IH.
Qed.

Lemma strip_color_aux_code body rest :
  free_of "m" body = true -> free_of PyStr.LF body = true ->
  (strip_color_aux (body +:+ String "m" rest)).2 = Some (strip_color_aux rest).1.
Proof.
  intros Hm Hl. induction body as [|x body IH].
  - change ("" +:+ String "m" rest) with (String "m" rest).
    cbn [strip_color_aux]. now destruct (strip_color_aux rest).
  - simpl in Hm, Hl.
    apply andb_true_iff in Hm as [Hxm Hm]. apply andb_true_iff in Hl as [Hxl Hl].
    change (String x body +:+ String "m" rest) with (String x (body +:+ String "m" rest)).
    cbn [strip_color_aux]. specialize (IH Hm Hl).
    destruct (strip_color_aux (body +:+ String "m" rest)) as [st sk]. simpl in *.
    apply negb_true_iff in Hxm, Hxl. now rewrite Hxm, Hxl.
Qed.

(** An escape sequence that ends on its line is dropped. *)
Lemma strip_color_code body rest :
  free_of "m" body = true -> free_of PyStr.LF body = true ->
  strip_color (String ESC (body +:+ String "m" rest)) = strip_color rest.
Proof.
  intros Hm Hl. unfold strip_color. cbn [strip_color_aux].
  pose proof (strip_color_aux_code body rest Hm Hl) as H.
  destruct (strip_color_aux (body +:+ String "m" rest)) as [st sk]. simpl in *.
  rewrite H. reflexivity.
Qed.

Lemma string_app_empty_r (s : string) : s +:+ "" = s.
Proof.
  induction s as [|a s IH]; [reflexivity|].
  change (String a s +:+ "") with (String a (s +:+ "")). now rewrite IH.
Qed.

Lemma strip_color_plain s : free_of ESC s = true -> strip_color s = s.
Proof.
  intros H. unfold strip_color.
  rewrite <- (string_app_empty_r s) at 1.
  rewrite (strip_color_aux_plain s "" H). apply string_app_empty_r.
Qed.

(** Every colour of the table is one escape sequence. *)
Lemma UI_colors_code name c :
  UI_colors !! name = Some c ->
  exists body, c = String ESC (body +:+ String "m" "") /\
               free_of "m" body = true /\ free_of PyStr.LF body = true.
Proof.
  intros H. apply elem_of_list_to_map_2, list_elem_of_In in H. simpl in H.
  repeat (destruct H as [H|H];
          [injection H as _ <-;
           match goal with
           | |- exists body, String ESC ?s = _ /\ _ =>
               exists (String.substring 0 (String.length s - 1) s)
           end; repeat split; reflexivity|]).
  contradiction.
Qed.

Lemma strip_colored body msg :
  free_of "m" body = true -> free_of PyStr.LF body = true ->
  free_of ESC msg = true ->
  strip_color (String ESC (body +:+ String "m" "") +:+ msg +:+ String ESC "[0m") = msg.
Proof.
  intros Hm Hl Hmsg.
  assert (E : String ESC (body +:+ String "m" "") +:+ msg +:+ String ESC "[0m" =
              String ESC (body +:+ String "m" (msg +:+ String ESC "[0m"))).
  { change (String ESC ((body +:+ String "m" "") +:+ (msg +:+ String ESC "[0m")) =
            String ESC (body +:+ (String "m" "" +:+ (msg +:+ String ESC "[0m")))).
    now rewrite string_app_assoc. }
  rewrite E, (strip_color_code _ _ Hm Hl).
  unfold strip_color. rewrite (strip_color_aux_plain _ _ Hmsg).
  change (strip_color_aux (String ESC "[0m")).1 with "".
  apply string_app_empty_r.
Qed.

(** X13.  A message coloured by [Ui.colorize] goes into the log without
    its colours: when the message holds no escape character, stripping
    the colours from the coloured message gives the message back, for
    every colour of the table.  A colour that is not in the table is a
    [KeyError]. *)
Theorem colorize_then_strip (uicolor msg : string) (w : World) :
  free_of ESC msg = true ->
  match UI_colors !! uicolor with
  | Some _ =>
      exists s, UI_colorize uicolor msg w = (Ok s, w) /\ strip_color s = msg
  | None => UI_colorize uicolor msg w = (Raise KeyError, w)
  end.
Proof.
  intros Hmsg. unfold UI_colorize, UI_colors_item.
  destruct (UI_colors !! uicolor) as [c|] eqn:Ec; [|reflexivity].
  destruct (UI_colors_code _ _ Ec) as (body & -> & Hm & Hl).
  change (UI_colors !! "normal") with (Some (String ESC "[0m")).
  exists (String ESC (body +:+ String "m" "") +:+ msg +:+ String ESC "[0m").
  split; [reflexivity|]. now apply strip_colored.
Qed.

Lemma colorize_then_strip_witness :
  exists s, UI_colorize "light" "pisilinux" fresh_world = (Ok s, fresh_world) /\
            strip_color s = "pisilinux".
Proof.
  apply (colorize_then_strip "light" "pisilinux" fresh_world). reflexivity.
Defined.

(** ** What [check_fstab] answers *)

Lemma readlines_aux_nonempty s :
  Forall (fun l => l <> "") (PyStr.readlines_aux s).2.
Proof.
  induction s as [|a s IH]; [constructor|].
  cbn [PyStr.readlines_aux]. destruct (PyStr.readlines_aux s) as [cur rest]. simpl in *.
  destruct (Ascii.eqb a PyStr.LF); simpl; [|exact IH].
  unfold PyStr.cons_nonempty. destruct (String.eqb_spec cur ""); [exact IH|].
  now constructor.
Qed.

Lemma readlines_nonempty s : Forall (fun l => l <> "") (PyStr.readlines s).
Proof.
  unfold PyStr.readlines. pose proof (readlines_aux_nonempty s) as H.
  destruct (PyStr.readlines_aux s) as [cur rest]. simpl in H.
  unfold PyStr.cons_nonempty. destruct (String.eqb_spec cur ""); [exact H|].
  now constructor.
Qed.

Lemma find_zero sub s : (PyStr.find sub s =? 0) = String.prefix sub s.
Proof.
  destruct s as [|a s]; cbn [PyStr.find].
  - now destruct (String.prefix sub "").
  - destruct (String.prefix sub (String a s)); [reflexivity|].
    destruct (PyStr.find sub s <? 0) eqn:E; [reflexivity|].
    apply Z.ltb_ge in E. apply Z.eqb_neq. lia.
Qed.

Lemma check_fstab_fold lines0 (acc : M bool) b :
  Forall (fun l => l <> "") lines0 ->
  (forall w, acc w = (Ok b, w)) ->
  forall w,
    fold_left
      (fun acc line =>
         found <- acc ;;
         comment <- first_char_is "#" line ;;
         if comment then ret found
         else if negb (PyStr.find "cgroup" line =? 0) then ret true
         else ret found)
      lines0 acc w =
    (Ok (b || existsb counted_line lines0)%bool, w).
Proof.
  intros H. revert acc b. induction H as [|line l Hne _ IH]; intros acc b Hacc w.
  - simpl. now rewrite orb_false_r.
  - cbn [fold_left existsb]. rewrite orb_assoc. apply IH. intros w0.
    step (Hacc w0). destruct line as [|a line]; [contradiction|].
    cbn [first_char_is]. rewrite bind_ret, find_zero.
    unfold counted_line, PyStr.startswith. rewrite prefix_char.
    destruct (Ascii.eqb_spec a "#") as [->|Hn].
    + destruct (ascii_dec "#" "#"); [|contradiction]. now destruct b.
    + destruct (ascii_dec "#" a) as [<-|_]; [contradiction|].
      destruct (String.prefix "cgroup" (String a line)); now destruct b.
Qed.

(** X14.  What [Cgroupfs.check_fstab] answers, had it been called: the
    index [line.find("cgroup")] is used as a truth value, so a line counts
    when it is no comment and does not begin with [cgroup].  The answer
    is [True] as soon as [/etc/fstab] has an ordinary line, with or
    without a cgroup line beside it, and [False] when every line that is
    no comment begins with [cgroup]; an [/etc/fstab] that cannot be read
    is an [IOError]. *)
Theorem check_fstab_answers (env : Env) (w : World) :
  Cgroupfs_check_fstab env w =
  match file_data env "/etc/fstab" (seen (Open "/etc/fstab") w) with
  | Some text =>
      (Ok (existsb counted_line (PyStr.readlines text)), push (Open "/etc/fstab") w)
  | None => (Raise IOError, push (Open "/etc/fstab") w)
  end.
Proof.
  unfold Cgroupfs_check_fstab. unfold bind at 1, open_read.
  destruct (file_data env "/etc/fstab" _) as [text|]; [|reflexivity].
  apply (check_fstab_fold _ (ret false) false (readlines_nonempty text)).
  reflexivity.
Qed.

(** On a system whose [/etc/fstab] does not mention cgroup the answer is
    [True]; on [env_cgroup_in_fstab], where it has a cgroup line and the
    line of the root file system, it is [True] as well. *)
Example check_fstab_on_plain_fstab :
  (Cgroupfs_check_fstab env_plain_fstab fresh_world).1 = Ok true /\
  (Cgroupfs_check_fstab env_cgroup_in_fstab fresh_world).1 = Ok true.
Proof. split; vm_compute; reflexivity. Qed.

(** ** The guards of the cgroup bootstrap *)

(** X15.  Without [/proc/cgroups] the cgroup bootstrap says so and exits
    with status -2; with it and without the directory [/sys/fs/cgroup] it
    exits with status -3.  In both cases it has run no command. *)
Theorem cgroupfs_needs_kernel_and_sysfs (env : Env) (w : World) :
  let w1 := push (IsFile "/proc/cgroups") w in
  let w2 := push (IsDir "/sys/fs/cgroup") w1 in
  match path_test env (IsFile "/proc/cgroups") (seen (IsFile "/proc/cgroups") w),
        path_test env (IsDir "/sys/fs/cgroup") (seen (IsDir "/sys/fs/cgroup") w) with
  | false, _ =>
      Cgroupfs_init env w =
      (Raise (SystemExit (-2)),
       push (Stdout ("No kernel support for cgroupfs, exiting." +:+ String PyStr.LF "")) w1)
  | true, false =>
      Cgroupfs_init env w =
      (Raise (SystemExit (-3)),
       push (Stdout ("/sys/fs/cgroups directory not found, exiting" +:+ String PyStr.LF "")) w2)
  | true, true =>
      exists r w', Cgroupfs_init env w = (r, w') /\
                   forall code, r <> Raise (SystemExit code)
  end.
Proof.
  cbv zeta. unfold Cgroupfs_init. cbv zeta.
  change (obj_eq (OMethod "check_fstab") (OBool true)) with false. cbv iota.
  rewrite bind_ret. unfold Cgroupfs_kernel_support, os_path_isfile.
  rewrite (bind_ok _ _ _ _ _ (eq_refl : call_test env (IsFile "/proc/cgroups") w = _)).
  destruct (path_test env (IsFile "/proc/cgroups") _) eqn:E1.
  - change (obj_eq (OBool true) (OBool false)) with false. cbv iota. rewrite bind_ret.
    unfold Cgroupfs_check_sysfs, os_path_isdir.
    rewrite (bind_ok _ _ _ _ _
               (eq_refl : call_test env (IsDir "/sys/fs/cgroup")
                            (push (IsFile "/proc/cgroups") w) = _)).
    rewrite seen_push_ne by discriminate.
    destruct (path_test env (IsDir "/sys/fs/cgroup") _) eqn:E2.
    + change (obj_eq (OBool true) (OBool false)) with false. cbv iota. rewrite bind_ret.
      match goal with |- exists r w', ?m = _ /\ _ => destruct m as [r w'] eqn:Em end.
      exists r, w'. split; [reflexivity|]. intros code ->.
      assert (Hro : raises_only (fun e => forall c, e <> SystemExit c)
                (_ <- Cgroupfs_mount_cgroup env ;;
                 controllers <- Cgroupfs_find_controllers env ∅ ;;
                 mount_controllers env (map_to_list controllers) ;; ret controllers)).
      { unfold Cgroupfs_mount_cgroup, Cgroupfs_find_controllers, find_controllers_line,
          mount_controllers, Controller_mount, os_chdir, mountpoint, os_system.
        cbv zeta. raises_auto. }
      exact (Hro _ _ (f_equal fst Em) code eq_refl).
    + reflexivity.
  - reflexivity.
Qed.

(** ** Stopping the services *)

Lemma spawned_chatter evs : Forall chatter evs -> omap spawned evs = [].
Proof.
  induction 1 as [|c evs Hc _ IH]; [reflexivity|].
  change (omap spawned (c :: evs))
    with (match spawned c with Some y => y :: omap spawned evs | None => omap spawned evs end).
  rewrite IH. destruct c; try contradiction; reflexivity.
Qed.

Lemma LOGGER_debug_spec env msg w :
  exists w', LOGGER_debug env msg w = (Ok tt, w') /\ chatters w w'.
Proof.
  unfold LOGGER_debug.
  destruct (CONFIG_get_returns "debug" w) as (d & w1 & E1 & C1 & _). step E1.
  destruct (truthy d).
  - destruct (LOGGER_log_spec env msg w1) as (w2 & E2 & C2 & _).
    exists w2. split; [exact E2|]. eapply chatters_trans; eassumption.
  - exists w1. split; [reflexivity | exact C1].
Qed.

Lemma manage_service_run env service command w :
  splash_answers env ->
  (forall cmd n, call_ok env (Popen cmd) n = true) ->
  exists w' evs,
    manage_service env service command w = (Ok tt, w') /\
    trace w' = trace w ++ evs /\
    omap spawned evs = [["/bin/service"; "--quiet"; service; command]] /\
    occ BusClose evs = 0%nat.
Proof.
  intros Ha Hp. unfold manage_service. cbv zeta.
  destruct (LOGGER_debug_spec env (command +:+ " service " +:+ service +:+ "..") w)
    as (w1 & E1 & C1). step E1.
  rewrite (bind_ok _ _ _ tt (push (Popen ["/bin/service"; "--quiet"; service; command]) w1))
    by (unfold call_or_raise; now rewrite Hp).
  destruct (LOGGER_debug_spec env (command +:+ " service " +:+ service +:+ "..done")
              (push (Popen ["/bin/service"; "--quiet"; service; command]) w1))
    as (w2 & E2 & C2). step E2.
  destruct (SPLASH_update_spec env service w2 Ha) as (w3 & E3 & C3).
  destruct (chatters_trace _ _ C1) as (e1 & Ht1 & Hf1).
  destruct (chatters_trace _ _ (chatters_trans _ _ _ C2 C3)) as (e2 & Ht2 & Hf2).
  exists w3, (e1 ++ [Popen ["/bin/service"; "--quiet"; service; command]] ++ e2).
  split; [exact E3|]. split; [|split].
  - rewrite Ht2. simpl. rewrite Ht1. now rewrite <- !app_assoc.
  - rewrite !omap_app, (spawned_chatter _ Hf1), (spawned_chatter _ Hf2). reflexivity.
  - rewrite !occ_app, (occ_chatter BusClose e1), (occ_chatter BusClose e2); auto.
Qed.

Lemma manage_services_run env command services w :
  splash_answers env ->
  (forall cmd n, call_ok env (Popen cmd) n = true) ->
  exists w' evs,
    for_each services (fun service => manage_service env service command) w = (Ok tt, w') /\
    trace w' = trace w ++ evs /\
    omap spawned evs =
      List.map (fun service => ["/bin/service"; "--quiet"; service; command]) services /\
    occ BusClose evs = 0%nat.
Proof.
  intros Ha Hp. revert w. induction services as [|s l IH]; intros w.
  - exists w, []. rewrite app_nil_r. repeat split.
  - destruct (manage_service_run env s command w Ha Hp) as (w1 & e1 & E1 & Ht1 & Hs1 & Hb1).
    destruct (IH w1) as (w2 & e2 & E2 & Ht2 & Hs2 & Hb2).
    exists w2, (e1 ++ e2). simpl for_each. step E1. split; [exact E2|]. split; [|split].
    + rewrite Ht2, Ht1. now rewrite app_assoc.
    + rewrite omap_app, Hs1, Hs2. reflexivity.
    + rewrite occ_app, Hb1, Hb2. reflexivity.
Qed.

(** X16.  When the system bus answers and the service command can be
    started, [stop_services] starts one [service --quiet <name> stop] for
    every service of the list, in the order of the list and without
    waiting for any of them, and closes the bus once, at the end. *)
Theorem stop_services_stops_each_service (env : Env) (w : World)
  (services : list string) :
  responsive env ->
  (forall n, call_ok env SystemBus n = true) ->
  (forall n, bus_services env n = Some services) ->
  (forall cmd n, call_ok env (Popen cmd) n = true) ->
  exists w' evs,
    stop_services env w = (Ok tt, w') /\
    trace w' = trace w ++ evs /\
    omap spawned evs =
      List.map (fun service => ["/bin/service"; "--quiet"; service; "stop"]) services /\
    occ BusClose evs = 1%nat.
Proof.
  intros Hr Hbus Hlist Hp. pose proof (responsive_splash env Hr) as Ha.
  unfold stop_services, plymouth_update_milestone.
  rewrite bind_assoc.
  destruct (UI_info_spec env (tr env "Stopping services") w) as (w1 & E1 & C1). step E1.
  rewrite bind_assoc.
  assert (Econ : try_except (dbus_SystemBus env ;; ret true)
                   (fun e => match e with DBusException => Some (ret false) | _ => None end)
                   w1 = (Ok true, push SystemBus w1)).
  { unfold try_except, bind, dbus_SystemBus, call_or_raise. now rewrite Hbus. }
  step Econ. cbv iota. unfold get_service_list. rewrite !bind_assoc.
  assert (El : listModelApplications env (push SystemBus w1) =
               (Ok services, push ListServices (push SystemBus w1))).
  { unfold listModelApplications. now rewrite Hlist. }
  step El. rewrite bind_ret, bind_assoc.
  destruct (manage_services_run env "stop" services (push ListServices (push SystemBus w1))
              Ha Hp)
    as (w2 & e2 & E2 & Ht2 & Hs2 & Hb2).
  step E2. rewrite (bind_ok _ _ _ tt (push BusClose w2)) by reflexivity.
  destruct (SPLASH_update_spec env "stop_services" (push BusClose w2) Ha) as (w3 & E3 & C3).
  destruct (chatters_trace _ _ C1) as (e1 & Ht1 & Hf1).
  destruct (chatters_trace _ _ C3) as (e3 & Ht3 & Hf3).
  exists w3, (e1 ++ [SystemBus; ListServices] ++ e2 ++ [BusClose] ++ e3).
  split; [exact E3|]. split; [|split].
  - rewrite Ht3. simpl. rewrite Ht2. simpl. rewrite Ht1. now rewrite <- !app_assoc.
  - rewrite !omap_app, (spawned_chatter _ Hf1), (spawned_chatter _ Hf3), Hs2.
    simpl. now rewrite app_nil_r.
  - rewrite !occ_app, (occ_chatter BusClose e1), (occ_chatter BusClose e3), Hb2; auto.
Qed.

Lemma splash_answers_all_succeed env :
  exit_status env = all_succeed -> splash_answers env.
Proof. intros H cmd n. rewrite H. eexists. reflexivity. Defined.

Lemma stop_services_stops_each_service_witness :
  exists w' evs,
    stop_services (env_services ["sshd"; "cups"]) fresh_world = (Ok tt, w') /\
    trace w' = trace fresh_world ++ evs /\
    omap spawned evs =
      List.map (fun service => ["/bin/service"; "--quiet"; service; "stop"])
        ["sshd"; "cups"] /\
    occ BusClose evs = 1%nat.
Proof.
  apply (stop_services_stops_each_service (env_services ["sshd"; "cups"]) fresh_world
           ["sshd"; "cups"]).
  - intros c n. exists 0. reflexivity.
  - reflexivity.
  - reflexivity.
  - reflexivity.
Defined.

(** X17.  Only the connection to the system bus is guarded.  When the
    bus cannot be reached, [stop_services] stops nothing, raises nothing
    and the shutdown goes on.  When the bus is reached and the list of
    the services cannot be obtained, the error leaves [stop_services]
    and [stop_system]: the shutdown stops there, before the bus daemon,
    udev, the clock, the swap and the file systems are touched. *)
Theorem shutdown_depends_on_service_list (env : Env) (w : World) :
  splash_answers env ->
  (call_ok env SystemBus (seen SystemBus w) = false ->
   exists w' evs,
     stop_services env w = (Ok tt, w') /\
     trace w' = trace w ++ evs /\ Forall bus_or_chatter evs /\
     occ ListServices evs = 0%nat) /\
  (call_ok env SystemBus (seen SystemBus w) = true ->
   bus_services env (seen ListServices w) = None ->
   exists w' evs,
     stop_system env w = (Raise DBusException, w') /\
     trace w' = trace w ++ evs /\ Forall bus_or_chatter evs).
Proof.
  intros Ha.
  destruct (UI_info_spec env (tr env "Stopping services") w) as (w1 & E1 & C1).
  destruct (chatters_trace _ _ C1) as (e1 & Ht1 & Hf1).
  assert (Hs1 : seen SystemBus w1 = seen SystemBus w).
  { apply chatters_seen; [intros H; exact H | exact C1]. }
  assert (Hchat : forall evs, Forall chatter evs -> Forall bus_or_chatter evs).
  { apply List.Forall_impl. intros c Hc. now left. }
  split.
  - intros Hbus. unfold stop_services, plymouth_update_milestone.
    rewrite bind_assoc. step E1. rewrite bind_assoc.
    assert (Econ : try_except (dbus_SystemBus env ;; ret true)
                     (fun e => match e with DBusException => Some (ret false) | _ => None end)
                     w1 = (Ok false, push SystemBus w1)).
    { unfold try_except, bind, dbus_SystemBus, call_or_raise. now rewrite Hs1, Hbus. }
    step Econ. cbv iota. rewrite bind_ret.
    destruct (SPLASH_update_spec env "stop_services" (push SystemBus w1) Ha) as (w3 & E3 & C3).
    destruct (chatters_trace _ _ C3) as (e3 & Ht3 & Hf3).
    exists w3, (e1 ++ [SystemBus] ++ e3). split; [exact E3|]. split; [|split].
    + rewrite Ht3. simpl. rewrite Ht1. now rewrite <- !app_assoc.
    + repeat (apply Forall_app; split); auto.
      constructor; [right; now left | constructor].
    + rewrite !occ_app, (occ_chatter ListServices e1), (occ_chatter ListServices e3); auto.
  - intros Hbus Hlist. unfold stop_system, stopping_system, stop_services,
      plymouth_update_milestone.
    rewrite !bind_assoc. step E1. rewrite bind_assoc.
    assert (Econ : try_except (dbus_SystemBus env ;; ret true)
                     (fun e => match e with DBusException => Some (ret false) | _ => None end)
                     w1 = (Ok true, push SystemBus w1)).
    { unfold try_except, bind, dbus_SystemBus, call_or_raise. now rewrite Hs1, Hbus. }
    step Econ. cbv iota. unfold get_service_list. rewrite !bind_assoc.
    assert (El : listModelApplications env (push SystemBus w1) =
                 (Raise DBusException, push ListServices (push SystemBus w1))).
    { unfold listModelApplications.
      rewrite seen_push_ne by discriminate.
      rewrite (chatters_seen ListServices _ _ (fun H => H) C1). now rewrite Hlist. }
    rewrite (bind_raise _ _ _ _ _ El).
    exists (push ListServices (push SystemBus w1)), (e1 ++ [SystemBus; ListServices]).
    split; [reflexivity|]. split.
    + simpl. rewrite Ht1. now rewrite <- !app_assoc.
    + apply Forall_app. split; [auto|].
      constructor; [right; now left|]. constructor; [right; now right | constructor].
Qed.

(** Without the bus the services are left alone; with the bus and
    without the list the shutdown ends with the error of the bus. *)
Lemma shutdown_depends_on_service_list_witness :
  (exists w' evs,
     stop_services env_no_bus fresh_world = (Ok tt, w') /\
     trace w' = trace fresh_world ++ evs /\ Forall bus_or_chatter evs /\
     occ ListServices evs = 0%nat) /\
  (exists w' evs,
     stop_system env_no_service_list fresh_world = (Raise DBusException, w') /\
     trace w' = trace fresh_world ++ evs /\ Forall bus_or_chatter evs).
Proof.
  split.
  - apply (shutdown_depends_on_service_list env_no_bus fresh_world).
    + now apply splash_answers_all_succeed.
    + reflexivity.
  - apply (shutdown_depends_on_service_list env_no_service_list fresh_world).
    + now apply splash_answers_all_succeed.
    + reflexivity.
    + reflexivity.
Defined.

(** The shutdown without a list of services, run: nothing is halted or
    unmounted. *)
Example shutdown_without_service_list :
  (stop_system env_no_service_list fresh_world).1 = Raise DBusException /\
  List.filter (fun c => match c with Exec _ _ => true | _ => false end)
    (trace (stop_system env_no_service_list fresh_world).2) = [].
Proof. vm_compute. split; reflexivity. Qed.

(** ** Reboot through kexec *)

Lemma lxor_bit14 (g : Z) :
  Z.lxor g 16384 = if Z.testbit g 14 then g - 16384 else g + 16384.
Proof.
  destruct (Z.testbit g 14) eqn:E.
  - assert (H : Z.land (Z.lxor g 16384) 16384 = 0).
    { apply Z.bits_inj'. intros n Hn. rewrite Z.land_spec, Z.lxor_spec, Z.bits_0.
      change 16384 with (2 ^ 14).
      destruct (Z.eq_dec n 14) as [->|Hne].
      - rewrite E, Z.pow2_bits_true by lia. reflexivity.
      - rewrite Z.pow2_bits_false by lia. apply andb_false_r. }
    apply Z.add_nocarry_lxor in H. rewrite Z.lxor_assoc, Z.lxor_nilpotent, Z.lxor_0_r in H.
    lia.
  - assert (H : Z.land g 16384 = 0).
    { apply Z.bits_inj'. intros n Hn. rewrite Z.land_spec, Z.bits_0.
      change 16384 with (2 ^ 14).
      destruct (Z.eq_dec n 14) as [->|Hne].
      - now rewrite E.
      - rewrite Z.pow2_bits_false by lia. apply andb_false_r. }
    apply Z.add_nocarry_lxor in H. lia.
Qed.

Lemma testbit14_small (g : Z) : 0 <= g < 16384 -> Z.testbit g 14 = false.
Proof.
  intros H. apply Z.testbit_false; [lia|].
  change (2 ^ 14) with 16384. now rewrite Z.div_small.
Qed.

Lemma testbit14_once (g : Z) : 16384 <= g < 32768 -> Z.testbit g 14 = true.
Proof.
  intros H. apply Z.testbit_true; [lia|].
  change (2 ^ 14) with 16384.
  assert (g / 16384 = 1) as ->; [|reflexivity].
  symmetry. apply (Z.div_unique g 16384 1 (g - 16384)); lia.
Qed.

Lemma grub_once_range (n : Z) :
  grub_once n = true <-> 16384 <= n < 32768 \/ n < 0.
Proof.
  unfold grub_once. rewrite lxor_bit14, Z.ltb_lt. split.
  - destruct (Z.testbit n 14) eqn:E; intros H; [|lia].
    destruct (Z_lt_le_dec n 0) as [Hneg|Hpos]; [now right|]. left. split; [|lia].
    destruct (Z_lt_le_dec n 16384) as [Hs|Hs]; [|exact Hs].
    rewrite testbit14_small in E by lia. discriminate.
  - intros [H|H].
    + rewrite testbit14_once by exact H. lia.
    + destruct (Z.testbit n 14); lia.
Qed.

(** X18.  The test [grub_default ^ 0x4000 < 0x4000] holds exactly for
    the numbers from [0x4000] up to [0x7fff] and for the negative ones.
    When [/boot/grub/default] holds such a number, [load_kexec_image]
    reads that file and does nothing else: no path is tested, no
    configuration is read, no image is loaded, and the answer is
    [False]. *)
Theorem grub_once_inhibits_kexec (env : Env) (stage : string) (w : World) (n : Z) :
  options (CONFIG w) !! "lxc_guest" = Some (VStr "no") ->
  loaded env "/boot/grub/default" w <> "" ->
  py_int (PyStr.rstrip_by (Ascii.eqb NUL) (loaded env "/boot/grub/default" w))
    (push (Open "/boot/grub/default") w) =
    (Ok n, push (Open "/boot/grub/default") w) ->
  (grub_once n = true <-> 16384 <= n < 32768 \/ n < 0) /\
  (16384 <= n < 32768 \/ n < 0 ->
   load_kexec_image env stage w = (Ok (Some false), push (Open "/boot/grub/default") w)).
Proof.
  intros Hg Hne Hint. split; [apply grub_once_range|].
  intros Hr. apply grub_once_range in Hr.
  unfold load_kexec_image, skip_for_lxc_guests_result.
  step (CONFIG_get_some "lxc_guest" _ w Hg).
  change (eq_str (VStr "no") "no") with true. cbv iota zeta.
  rewrite bind_assoc. step (load_file_loaded env "/boot/grub/default" w).
  apply String.eqb_neq in Hne. rewrite Hne. simpl negb. cbv iota.
  rewrite !bind_assoc. step Hint. rewrite bind_ret, Hr. simpl negb. cbv iota.
  rewrite ?bind_ret. reflexivity.
Qed.

(** With the entry 16385 in [/boot/grub/default] nothing is loaded. *)
Lemma grub_once_inhibits_kexec_witness :
  grub_once 16385 = true /\
  load_kexec_image (sim_env [("/boot/grub/default", "16385")] ["/usr/sbin/kexec"] all_succeed)
    "reboot" fresh_world =
  (Ok (Some false), push (Open "/boot/grub/default") fresh_world).
Proof.
  destruct (grub_once_inhibits_kexec
              (sim_env [("/boot/grub/default", "16385")] ["/usr/sbin/kexec"] all_succeed)
              "reboot" fresh_world 16385) as [Hiff Hrun].
  - reflexivity.
  - discriminate.
  - reflexivity.
  - split.
    + apply Hiff. left. lia.
    + apply Hrun. left. lia.
Defined.




(** On [env_kexec]: the command line of the configuration file replaces
    the one of the running kernel, the image is the latest kernel, and
    the missing [/sys/kernel/kexec_loaded] ends the function with
    [IOError]. *)
Example kexec_overwrites_command_line :
  (load_kexec_image env_kexec "reboot" fresh_world).1 = Raise IOError /\
  In (Exec Quiet ["/usr/sbin/kexec"; "--load"; "/boot/latest-kernel";
                  "--initrd"; "/boot/initramfs-4.4.0";
                  "--command-line"; "root=/dev/sda1 quiet"])
     (trace (load_kexec_image env_kexec "reboot" fresh_world).2) /\
  (load_kexec_image env_kexec "shutdown" fresh_world).1 = Ok (Some false).
Proof. vm_compute. repeat split; auto 20. Qed.

(** ** Disk parameters *)

Example py_str_list_examples :
  py_str_list ["-d1"; "-c3"] = "['-d1', '-c3']" /\
  py_str_list [] = "[]" /\
  py_repr "it's" = String PyStr.DQUOTE ("it's" +:+ String PyStr.DQUOTE "") /\
  py_repr (String "009" (String "127" "\")) = "'\t\x7f\\'".
Proof. vm_compute. repeat split. Qed.

(** The operator [%] on some formats, as Python 2 answers. *)
Example py_format_examples :
  py_format "Stopping %s" "DBus" = inr "Stopping DBus" /\
  py_format "%s %s" "DBus" = inl TypeError /\
  py_format "Stopping %5s." "DBus" = inr "Stopping  DBus." /\
  py_format "%-6s|" "DBus" = inr "DBus  |" /\
  py_format "%0-5s|" "DBus" = inr "DBus |" /\
  py_format "%05s" "DBus" = inr " DBus" /\
  py_format "%5.1s|" "DBus" = inr "    D|" /\
  py_format "%.s" "DBus" = inr "" /\
  py_format "%ls" "DBus" = inr "DBus" /\
  py_format "100%% %s" "DBus" = inr "100% DBus" /\
  py_format "%r" "DBus" = inr "'DBus'" /\
  py_format "%c" "D" = inr "D" /\
  py_format "abc %" "DBus" = inl ValueError /\
  py_format "%s %" "DBus" = inl ValueError /\
  py_format "%10" "DBus" = inl ValueError /\
  py_format "%." "DBus" = inl ValueError /\
  py_format "%l" "DBus" = inl ValueError /\
  py_format "%lls" "DBus" = inl ValueError /\
  py_format "%.-5s" "DBus" = inl ValueError /\
  py_format "%q" "DBus" = inl ValueError /\
  py_format "%d" "DBus" = inl TypeError /\
  py_format "%c" "DBus" = inl TypeError /\
  py_format "%(name)s" "DBus" = inl TypeError /\
  py_format "%*s" "DBus" = inl TypeError /\
  py_format "%.*s" "DBus" = inl TypeError /\
  py_format "Stopping" "DBus" = inl TypeError.
Proof. vm_compute. repeat split. Qed.

Lemma unpack_pair_ok k w :
  String.length k = 2%nat ->
  exists a b, k = String a (String b "") /\
              unpack_pair k w = (Ok (String a "", String b ""), w).
Proof.
  destruct k as [|a [|b [|c k]]]; try discriminate. intros _. eauto.
Qed.

Lemma unpack_pair_fails k w :
  String.length k <> 2%nat -> unpack_pair k w = (Raise ValueError, w).
Proof.
  destruct k as [|a [|b [|c k]]]; try reflexivity. intros H. now contradiction H.
Qed.

(** The loop [for key, value in conf] on a system whose commands answer:
    it ends well when every key has two characters, and with
    [ValueError] at the first key that has not. *)
Lemma hdparm_loop_run env keys w :
  responsive env ->
  exists r w' evs,
    for_each keys (fun k =>
      kv <- unpack_pair k ;;
      let '(key, value) := kv in
      if negb (String.eqb key "all")
      then _ <- run_quiet env ["/sbin/hdparm"; py_str_list (PyStr.split_ws value);
                               "/dev/" +:+ key] ;;
           ret tt
      else ret tt) w = (r, w') /\
    trace w' = trace w ++ evs /\
    Forall (fun c => exists args dev, c = Exec Quiet ["/sbin/hdparm"; args; dev]) evs /\
    r = if forallb (fun k => Nat.eqb (String.length k) 2) keys
        then Ok tt else Raise ValueError.
Proof.
  intros Hr. revert w. induction keys as [|k keys IH]; intros w.
  - exists (Ok tt), w, []. rewrite app_nil_r. repeat split. constructor.
  - cbn [for_each forallb].
    destruct (Nat.eqb_spec (String.length k) 2) as [Hk|Hk].
    + destruct (unpack_pair_ok k w Hk) as (a & b & -> & Eu).
      rewrite bind_assoc. step Eu. cbv beta iota.
      assert (Hbody : exists w1 e1,
                (if negb (String.eqb (String a "") "all")
                 then _ <- run_quiet env ["/sbin/hdparm";
                                          py_str_list (PyStr.split_ws (String b ""));
                                          "/dev/" +:+ String a ""] ;;
                      ret tt
                 else ret tt) w = (Ok tt, w1) /\
                trace w1 = trace w ++ e1 /\
                Forall (fun c => exists args dev, c = Exec Quiet ["/sbin/hdparm"; args; dev]) e1).
      { destruct (negb _).
        - destruct (Hr (Exec Quiet ["/sbin/hdparm"; py_str_list (PyStr.split_ws (String b ""));
                                    "/dev/" +:+ String a ""])
                      (seen (Exec Quiet ["/sbin/hdparm";
                                         py_str_list (PyStr.split_ws (String b ""));
                                         "/dev/" +:+ String a ""]) w)) as [z Hz].
          unfold run_quiet. step (call_status_some _ _ _ _ Hz).
          eexists _, [_]. split; [reflexivity|]. split; [reflexivity|].
          constructor; [eauto | constructor].
        - exists w, []. rewrite app_nil_r. repeat split. constructor. }
      destruct Hbody as (w1 & e1 & E1 & Ht1 & Hf1). step E1.
      destruct (IH w1) as (r & w2 & e2 & E2 & Ht2 & Hf2 & Hres).
      exists r, w2, (e1 ++ e2). split; [exact E2|]. split; [|split].
      * rewrite Ht2, Ht1. now rewrite app_assoc.
      * now apply Forall_app.
      * exact Hres.
    + rewrite bind_assoc, (bind_raise _ _ _ _ _ (unpack_pair_fails k w Hk)).
      exists (Raise ValueError), w, []. rewrite app_nil_r. repeat split. constructor.
Qed.

Lemma hdparm_all_run env (conf : gmap string string) all names w :
  responsive env ->
  exists w' evs,
    for_each names (fun name =>
      if (PyStr.startswith "sd" name && Nat.eqb (String.length name) 3 &&
          negb (bool_decide (is_Some (conf !! name))))%bool
      then _ <- run_quiet env ["/sbin/hdparm"; py_str_list (PyStr.split_ws all);
                               "/dev/" +:+ name] ;;
           ret tt
      else ret tt) w = (Ok tt, w') /\
    trace w' = trace w ++ evs /\
    Forall (fun c => exists args dev, c = Exec Quiet ["/sbin/hdparm"; args; dev]) evs.
Proof.
  intros Hr. revert w. induction names as [|name names IH]; intros w.
  - exists w, []. rewrite app_nil_r. repeat split. constructor.
  - cbn [for_each].
    assert (Hbody : exists w1 e1,
              (if (PyStr.startswith "sd" name && Nat.eqb (String.length name) 3 &&
                   negb (bool_decide (is_Some (conf !! name))))%bool
               then _ <- run_quiet env ["/sbin/hdparm"; py_str_list (PyStr.split_ws all);
                                        "/dev/" +:+ name] ;;
                    ret tt
               else ret tt) w = (Ok tt, w1) /\
              trace w1 = trace w ++ e1 /\
              Forall (fun c => exists args dev, c = Exec Quiet ["/sbin/hdparm"; args; dev]) e1).
    { destruct (_ && _)%bool.
      - destruct (Hr (Exec Quiet ["/sbin/hdparm"; py_str_list (PyStr.split_ws all);
                                  "/dev/" +:+ name])
                    (seen (Exec Quiet ["/sbin/hdparm"; py_str_list (PyStr.split_ws all);
                                       "/dev/" +:+ name]) w)) as [z Hz].
        unfold run_quiet. step (call_status_some _ _ _ _ Hz).
        eexists _, [_]. split; [reflexivity|]. split; [reflexivity|].
        constructor; [eauto | constructor].
      - exists w, []. rewrite app_nil_r. repeat split. constructor. }
    destruct Hbody as (w1 & e1 & E1 & Ht1 & Hf1). step E1.
    destruct (IH w1) as (w2 & e2 & E2 & Ht2 & Hf2).
    exists w2, (e1 ++ e2). split; [exact E2|]. split.
    + rewrite Ht2, Ht1. now rewrite app_assoc.
    + now apply Forall_app.
Qed.

Lemma keys_forallb (conf : gmap string string) (p : string -> bool) :
  forallb p (map_to_list conf).*1 = true <->
  forall k, is_Some (conf !! k) -> p k = true.
Proof.
  rewrite List.forallb_forall. split.
  - intros H k [v Hv]. apply H. apply list_elem_of_In, list_elem_of_fmap.
    exists (k, v). split; [reflexivity|]. now apply elem_of_map_to_list.
  - intros H k Hin. apply list_elem_of_In, list_elem_of_fmap in Hin as [[k0 v] [-> Hin]].
    apply H. exists v. now apply elem_of_map_to_list.
Qed.

(** X20.  The loop [for key, value in conf] of [set_disk_parameters]
    walks over the keys of the dictionary and unpacks each key into two
    names.  So, with a configuration of [hdparm] that is not empty, the
    function ends with [ValueError] as soon as one key has not exactly two
    characters: with the key [all], or with a device name such as [sda].
    It returns only when every key has two characters. *)
Theorem hdparm_keys_must_unpack (env : Env) (w : World) (safe : PyVal)
  (text : string) :
  options (CONFIG w) !! "lxc_guest" = Some (VStr "no") ->
  options (CONFIG w) !! "safe" = Some safe -> truthy safe = false ->
  path_test env (Exists "/etc/conf.d/hdparm") (seen (Exists "/etc/conf.d/hdparm") w) = true ->
  file_data env "/etc/conf.d/hdparm" (seen (Open "/etc/conf.d/hdparm") w) = Some text ->
  config_of_text text <> ∅ ->
  responsive env ->
  (forall n, is_Some (dir_entries env "/sys/block/" n)) ->
  exists r w',
    set_disk_parameters env w = (r, w') /\
    ((exists k, is_Some (config_of_text text !! k) /\ String.length k <> 2%nat) ->
     r = Raise ValueError) /\
    ((forall k, is_Some (config_of_text text !! k) -> String.length k = 2%nat) ->
     r = Ok tt).
Proof.
  intros Hg Hs Hsf Hex Hfile Hne Hr Hdir.
  unfold set_disk_parameters, skip_for_lxc_guests.
  step (CONFIG_get_some "lxc_guest" _ w Hg).
  change (eq_str (VStr "no") "no") with true. cbv iota.
  step (CONFIG_get_some "safe" _ w Hs). rewrite Hsf. cbv iota.
  rewrite !bind_assoc. unfold os_path_exists.
  rewrite (bind_ok _ _ _ _ _ (eq_refl : call_test env (Exists "/etc/conf.d/hdparm") w = _)).
  rewrite Hex, bind_ret. change (negb true) with false. cbv iota.
  set (w1 := push (Exists "/etc/conf.d/hdparm") w).
  assert (El : load_config env "/etc/conf.d/hdparm" w1 =
               (Ok (config_of_text text), push (Open "/etc/conf.d/hdparm") w1)).
  { unfold load_config, bind, open_read, w1.
    rewrite seen_push_ne by discriminate. now rewrite Hfile. }
  step El. set (conf := config_of_text text) in *.
  assert (Hsize : Nat.ltb 0 (size conf) = true).
  { apply Nat.ltb_lt. destruct (size conf) eqn:E; [|lia].
    apply map_size_empty_iff in E. contradiction. }
  rewrite Hsize.
  destruct (UI_info_spec env (tr env "Setting disk parameters")
              (push (Open "/etc/conf.d/hdparm") w1)) as (w2 & E2 & _).
  step E2.
  assert (Hall : exists w3,
            (match conf !! "all" with
             | Some all =>
                 names <- os_listdir env "/sys/block/" ;;
                 for_each names (fun name =>
                   if (PyStr.startswith "sd" name && Nat.eqb (String.length name) 3 &&
                       negb (bool_decide (is_Some (conf !! name))))%bool
                   then _ <- run_quiet env ["/sbin/hdparm"; py_str_list (PyStr.split_ws all);
                                            "/dev/" +:+ name] ;;
                        ret tt
                   else ret tt)
             | None => ret tt
             end) w2 = (Ok tt, w3)).
  { destruct (conf !! "all") as [all|]; [|eexists; reflexivity].
    destruct (Hdir (seen (ListDir "/sys/block/") w2)) as [names Hn].
    assert (Els : os_listdir env "/sys/block/" w2 = (Ok names, push (ListDir "/sys/block/") w2)).
    { unfold os_listdir. now rewrite Hn. }
    step Els.
    destruct (hdparm_all_run env conf all names (push (ListDir "/sys/block/") w2) Hr)
      as (w3 & e3 & E3 & _). eauto. }
  destruct Hall as (w3 & E3). step E3.
  destruct (hdparm_loop_run env (map_to_list conf).*1 w3 Hr) as (r & w4 & e4 & E4 & _ & _ & Hres).
  exists r, w4. split; [exact E4|]. split.
  - intros (k & Hk & Hlen).
    destruct (forallb _ _) eqn:Ef; [|exact Hres].
    exfalso. apply Hlen. apply Nat.eqb_eq.
    exact (proj1 (keys_forallb conf _) Ef k Hk).
  - intros Hall2.
    assert (Ef : forallb (fun k => Nat.eqb (String.length k) 2) (map_to_list conf).*1 = true).
    { apply keys_forallb. intros k Hk. apply Nat.eqb_eq. now apply Hall2. }
    now rewrite Ef in Hres.
Qed.

(** With the line [sda='-d1 -c3'] in the configuration of [hdparm] the
    function ends with [ValueError]. *)
Lemma hdparm_keys_must_unpack_witness :
  exists w', set_disk_parameters env_hdparm fresh_world = (Raise ValueError, w').
Proof.
  destruct (hdparm_keys_must_unpack env_hdparm fresh_world (VBool false)
              (lines ["# hdparm"; "sda='-d1 -c3'"]))
    as (r & w' & E & Hbad & _).
  - reflexivity.
  - reflexivity.
  - reflexivity.
  - reflexivity.
  - reflexivity.
  - vm_compute. discriminate.
  - apply all_succeed_responsive.
  - intros n. eexists. reflexivity.
  - exists w'. rewrite E. f_equal. apply Hbad.
    exists "sda". split; [|discriminate].
    vm_compute. eexists. reflexivity.
Defined.

(** The configuration [sda='-d1 -c3'] ends in [ValueError], and [hdparm]
    has not been run. *)
Example hdparm_device_name_fails :
  (set_disk_parameters env_hdparm fresh_world).1 = Raise ValueError /\
  List.filter (fun c => match c with Exec _ _ => true | _ => false end)
    (trace (set_disk_parameters env_hdparm fresh_world).2) = [].
Proof. vm_compute. split; reflexivity. Qed.

(** ** A value of [lxc_guest] that is neither [yes] nor [no] *)

Lemma stable_lxc_guest_is g : stable (lxc_guest_is g).
Proof. repeat split; intros; assumption. Qed.

Lemma skip_for_lxc_guests_skips g f w :
  lxc_guest_is g w -> eq_str g "no" = false -> skipped (skip_for_lxc_guests f) w.
Proof.
  intros Hw Hg. unfold skipped, skip_for_lxc_guests.
  step (CONFIG_get_some "lxc_guest" _ w Hw). rewrite Hg.
  exists []. rewrite app_nil_r. repeat split. constructor.
Qed.

Lemma stopping_system_keeps_guest env g :
  triple (lxc_guest_is g) (fun _ => True) (fun _ => True) (fun _ => True)
    (stopping_system env).
Proof.
  pose proof (stable_lxc_guest_is g) as HI.
  assert (HP : forall c, chatter c -> (fun _ : Call => True) c) by auto.
  unfold stopping_system, stop_services, stop_dbus, stop_udev, save_clock,
    disable_swap, get_service_list, manage_service.
  triple_auto HI HP; exact Logic.I.
Qed.

(** X21.  The steps under [skip_for_lxc_guests] run only when
    [lxc_guest] is exactly ["no"], while [stop_system] spares the file
    systems only when it is exactly ["yes"].  With any other value the
    two tests disagree: udev, the clock and the swap are left alone as in
    a guest, and the file systems are unmounted as on a host. *)
Theorem half_guest_is_unmounted (env : Env) (w : World) (g : PyVal) :
  lxc_guest_is g w -> eq_str g "no" = false -> eq_str g "yes" = false ->
  skipped (stop_udev env) w /\
  skipped (save_clock env) w /\
  skipped (disable_swap env) w /\
  stop_system env w = (stopping_system env ;; unmount_filesystems env) w.
Proof.
  intros Hw Hno Hyes. repeat split.
  - now apply (skip_for_lxc_guests_skips g).
  - now apply (skip_for_lxc_guests_skips g).
  - now apply (skip_for_lxc_guests_skips g).
  - unfold stop_system.
    destruct (stopping_system_keeps_guest env g w Hw) as (evs & _ & _ & Hi & _).
    unfold bind at 1 3.
    destruct (stopping_system env w) as [[[]|e|] w1]; try reflexivity.
    simpl in Hi. step (CONFIG_get_some "lxc_guest" _ w1 Hi). now rewrite Hyes.
Qed.

Lemma half_guest_is_unmounted_witness :
  skipped (stop_udev env_three_mounts)
    (world_with (<["lxc_guest" := VStr "true"]> default_options)) /\
  skipped (save_clock env_three_mounts)
    (world_with (<["lxc_guest" := VStr "true"]> default_options)) /\
  skipped (disable_swap env_three_mounts)
    (world_with (<["lxc_guest" := VStr "true"]> default_options)) /\
  stop_system env_three_mounts
    (world_with (<["lxc_guest" := VStr "true"]> default_options)) =
  (stopping_system env_three_mounts ;; unmount_filesystems env_three_mounts)
    (world_with (<["lxc_guest" := VStr "true"]> default_options)).
Proof.
  apply (half_guest_is_unmounted env_three_mounts
           (world_with (<["lxc_guest" := VStr "true"]> default_options)) (VStr "true"));
    reflexivity.
Defined.

(** With [lxc_guest=true] the three mounts of [env_three_mounts] are
    unmounted, and the swap is not switched off. *)
Example half_guest_run :
  attempts (trace (stop_system env_three_mounts
                     (world_with (<["lxc_guest" := VStr "true"]> default_options))).2) =
  ["/mnt"; "/data/nested"; "/data"] /\
  occ (Exec Quiet ["/sbin/swapoff"; "-a"])
    (trace (stop_system env_three_mounts
              (world_with (<["lxc_guest" := VStr "true"]> default_options))).2) = 0%nat.
Proof. vm_compute. split; reflexivity. Qed.

(** ** The sentinel file after the check *)

Lemma check_filesystems_report env rc :
  triple any_world report_call (fun _ => True) any_exn
    ((if rc =? 0 then ret tt
      else if ((2 <=? rc) && (rc <=? 3))%bool
           then UI_warn env (tr env "Filesystem errors corrected")
           else UI_error env (tr env "Fsck could not correct all errors, manual repair needed") ;;
                _ <- run_full env ["/sbin/sulogin"] ;;
                ret tt) ;;
     SPLASH_update env "check_filesystems").
Proof.
  pose proof stable_any_world as HI.
  assert (HP : forall c, chatter c -> report_call c) by (intros c H; now left).
  triple_auto HI HP; first [exact Logic.I | now right].
Qed.

(** X22.  After a forced check of all file systems the sentinel file
    [/forcefsck] is looked for and, when it is there, removed, whatever
    [fsck] reports: this follows [fsck] directly, before its status is
    looked at.  When the removal fails, the [OSError] leaves
    [check_filesystems]: no warning, no rescue shell and no milestone
    follow.  A check that is not forced does not look at the sentinel. *)
Theorem forced_check_removes_sentinel (env : Env) (w : World)
  (forced live : PyVal) (rc : Z) :
  options (CONFIG w) !! "lxc_guest" = Some (VStr "no") ->
  options (CONFIG w) !! "live" = Some live -> truthy live = false ->
  options (CONFIG w) !! "forcefsck" = Some forced ->
  splash_answers env ->
  exit_status env (Exec Inherit (fsck_all_cmd (truthy forced)))
    (seen (Exec Inherit (fsck_all_cmd (truthy forced))) w) = Some rc ->
  let there := path_test env (Exists "/forcefsck") (seen (Exists "/forcefsck") w) in
  let removed := call_ok env (Unlink "/forcefsck") (seen (Unlink "/forcefsck") w) in
  exists r w' pre post,
    check_filesystems env w = (r, w') /\
    trace w' = trace w ++ pre ++ [Exec Inherit (fsck_all_cmd (truthy forced))] ++
               sentinel_calls (truthy forced) there ++ post /\
    Forall chatter pre /\ Forall report_call post /\
    (truthy forced = true -> there = true -> removed = false ->
     r = Raise OSError /\ post = []).
Proof.
  intros Hg Hl Hlf Hf Ha Hrc there removed.
  unfold check_filesystems, skip_for_lxc_guests.
  step (CONFIG_get_some "lxc_guest" _ w Hg).
  change (eq_str (VStr "no") "no") with true. cbv iota.
  unfold plymouth_update_milestone.
  rewrite bind_assoc.
  step (CONFIG_get_some "live" _ w Hl). rewrite Hlf. simpl negb. rewrite when_true.
  rewrite bind_assoc.
  destruct (UI_info_spec env (tr env "Checking all filesystems") w) as (w1 & E1 & C1).
  step E1. rewrite bind_assoc.
  assert (Hf1 : options (CONFIG w1) !! "forcefsck" = Some forced).
  { now rewrite (chatters_options _ _ C1). }
  step (CONFIG_get_some "forcefsck" _ w1 Hf1).
  rewrite bind_assoc.
  set (fsck := Exec Inherit (fsck_all_cmd (truthy forced))) in *.
  assert (Hphase : exists r2 w2 pre,
    (if truthy forced
     then bind (SPLASH_hide_splash env) (fun _ =>
          bind (UI_info env (tr env "A full fsck has been forced")) (fun _ =>
          bind (run_full env ["/sbin/fsck"; "-C"; "-R"; "-A"; "-a"; "-f"]) (fun rc0 =>
          bind (os_path_exists env "/forcefsck") (fun there =>
          bind (when there (os_unlink env "/forcefsck")) (fun _ => ret rc0)))))
     else run_full env ["/sbin/fsck"; "-C"; "-T"; "-R"; "-A"; "-a"]) w1 = (r2, w2) /\
    trace w2 = trace w ++ pre ++ [fsck] ++ sentinel_calls (truthy forced) there /\
    Forall chatter pre /\
    (r2 = Ok rc \/
     r2 = Raise OSError /\ truthy forced = true /\ there = true /\ removed = false) /\
    (truthy forced = true -> there = true -> removed = false -> r2 = Raise OSError)).
  { destruct (chatters_trace _ _ C1) as (e1 & Ht1 & Hc1).
    unfold fsck in *. destruct (truthy forced).
    - destruct (SPLASH_hide_splash_spec env w1 Ha) as (wa & Ea & Ca). step Ea.
      destruct (UI_info_spec env (tr env "A full fsck has been forced") wa) as (wb & Eb & Cb).
      step Eb.
      pose proof (chatters_trans _ _ _ C1 (chatters_trans _ _ _ Ca Cb)) as Cwb.
      destruct (chatters_trace _ _ Cwb) as (eb & Htb & Hcb).
      unfold run_full. rewrite (bind_ok _ _ _ rc (push (Exec Inherit (fsck_all_cmd true)) wb)).
      2:{ apply call_status_some.
          rewrite (chatters_seen (Exec Inherit (fsck_all_cmd true)) _ _ (fun H => H) Cwb).
          exact Hrc. }
      set (wc := push (Exec Inherit (fsck_all_cmd true)) wb).
      assert (Hse : seen (Exists "/forcefsck") wc = seen (Exists "/forcefsck") w).
      { unfold wc. rewrite seen_push_ne by discriminate.
        apply chatters_seen; [intros H; exact H | exact Cwb]. }
      assert (Hsu : seen (Unlink "/forcefsck") (push (Exists "/forcefsck") wc) =
                    seen (Unlink "/forcefsck") w).
      { unfold wc. rewrite !seen_push_ne by discriminate.
        apply chatters_seen; [intros H; exact H | exact Cwb]. }
      unfold os_path_exists, call_test at 1. unfold bind at 1. rewrite Hse.
      fold there. destruct there.
      + rewrite when_true. unfold os_unlink, call_or_raise, bind. rewrite Hsu.
        fold removed. destruct removed.
        * eexists _, _, eb. split; [reflexivity|]. split; [|split; [exact Hcb|]].
          -- simpl. rewrite Htb. now rewrite <- !app_assoc.
          -- split; [now left | discriminate].
        * eexists _, _, eb. split; [reflexivity|]. split; [|split; [exact Hcb|]].
          -- simpl. rewrite Htb. now rewrite <- !app_assoc.
          -- split; [right; auto | reflexivity].
      + eexists _, _, eb. split; [reflexivity|]. split; [|split; [exact Hcb|]].
        * simpl. rewrite Htb. now rewrite <- !app_assoc.
        * split; [now left | discriminate].
    - unfold run_full.
      exists (Ok rc), (push (Exec Inherit (fsck_all_cmd false)) w1), e1.
      split; [|split; [|split; [exact Hc1 | split; [now left | discriminate]]]].
      + apply call_status_some.
        rewrite (chatters_seen (Exec Inherit (fsck_all_cmd false)) _ _ (fun H => H) C1).
        exact Hrc.
      + simpl. rewrite Ht1. now rewrite <- !app_assoc. }
  destruct Hphase as (r2 & w2 & pre & E2 & Ht2 & Hpre & Hcase & Hfail).
  destruct Hcase as [-> | (-> & H1 & H2 & H3)].
  - step E2.
    destruct (check_filesystems_report env rc w2 Logic.I) as (post & Ht & Hpost & _).
    match goal with |- exists r w' pre post, ?m = _ /\ _ => destruct m as [r w'] eqn:Em end.
    simpl in Ht. exists r, w', pre, post. split; [reflexivity|]. split; [|split; [|split]].
    + rewrite Ht, Ht2. now rewrite <- !app_assoc.
    + exact Hpre.
    + exact Hpost.
    + intros F1 F2 F3. discriminate (Hfail F1 F2 F3).
  - rewrite (bind_raise _ _ _ _ _ E2).
    exists (Raise OSError), w2, pre, []. split; [reflexivity|]. split; [|split; [|split]].
    + rewrite Ht2, app_nil_r. reflexivity.
    + exact Hpre.
    + constructor.
    + auto.
Qed.

(** On the system of [env_sentinel_stays] the forced check ends with
    [OSError], directly after the attempt to remove the sentinel. *)
Lemma forced_check_removes_sentinel_witness :
  exists w' pre,
    check_filesystems env_sentinel_stays
      (world_with (<["forcefsck" := VBool true]> default_options)) = (Raise OSError, w') /\
    trace w' =
      trace (world_with (<["forcefsck" := VBool true]> default_options)) ++ pre ++
      [Exec Inherit (fsck_all_cmd true); Exists "/forcefsck"; Unlink "/forcefsck"] /\
    Forall chatter pre.
Proof.
  destruct (forced_check_removes_sentinel env_sentinel_stays
              (world_with (<["forcefsck" := VBool true]> default_options))
              (VBool true) (VBool false) 0)
    as (r & w' & pre & post & E & Ht & Hpre & _ & Hfail).
  - reflexivity.
  - reflexivity.
  - reflexivity.
  - reflexivity.
  - now apply splash_answers_all_succeed.
  - reflexivity.
  - destruct Hfail as [Hr Hp]; [reflexivity..|].
    exists w', pre. rewrite E, Hr. split; [reflexivity|]. split; [|exact Hpre].
    rewrite Ht, Hp. reflexivity.
Defined.

(** ** A table of controllers that cannot be read *)

Lemma py_int_parsed s w : parsed (py_int s w) w.
Proof.
  assert (Hraise : parsed (raise (A := Z) ValueError w) w).
  { split; [reflexivity|]. right. exists ValueError. split; [reflexivity | now right]. }
  assert (Hdigits : forall (ds : string) (sign : Z),
            parsed (match digits_value 0 ds with
                    | Some n => ret (sign * n)
                    | None => raise ValueError
                    end w) w).
  { intros ds sign. destruct (digits_value 0 ds); [|exact Hraise].
    split; [reflexivity|]. left. eauto. }
  assert (Hcases : forall (ds : string) (sign : Z),
            parsed (match ds with
                    | EmptyString => raise ValueError
                    | _ => match digits_value 0 ds with
                           | Some n => ret (sign * n)
                           | None => raise ValueError
                           end
                    end w) w).
  { intros ds sign. destruct ds; [exact Hraise | apply Hdigits]. }
  unfold py_int.
  destruct (PyStr.strip s) as [|a r]; [exact Hraise|].
  destruct a as [[] [] [] [] [] [] [] []];
    first [apply Hcases | apply Hdigits | exact Hraise].
Qed.

Lemma parsed_bind {A B} (m : M A) (k : A -> M B) w0 w1 :
  parsed (m w0) w1 -> (forall a, parsed (k a w1) w1) -> parsed (bind m k w0) w1.
Proof.
  intros [Hw [[a Ha] | (e & He & Hp)]] Hk; unfold bind;
    destruct (m w0) as [o w']; simpl in *; subst.
  - apply Hk.
  - split; [reflexivity|]. right. eauto.
Qed.

Lemma failed_bind {A B} (m : M A) (k : A -> M B) w0 w1 :
  parse_failed (m w0) w1 -> parse_failed (bind m k w0) w1.
Proof.
  intros [Hw (e & He & Hp)]. unfold bind. destruct (m w0) as [o w']; simpl in *; subst.
  split; [reflexivity|]. eauto.
Qed.

Lemma failing_bind {A B} (m : M A) (k : A -> M B) w0 w1 :
  parsed (m w0) w1 -> (forall a, parse_failed (k a w1) w1) -> parse_failed (bind m k w0) w1.
Proof.
  intros [Hw [[a Ha] | (e & He & Hp)]] Hk; unfold bind;
    destruct (m w0) as [o w']; simpl in *; subst.
  - apply Hk.
  - split; [reflexivity|]. eauto.
Qed.

Lemma find_controllers_line_parsed cs line w :
  parsed (find_controllers_line cs line w) w.
Proof.
  unfold find_controllers_line. cbv zeta.
  destruct (PyStr.strip line) as [|a r] eqn:Es.
  - split; [reflexivity|]. right. exists IndexError. split; [reflexivity | now left].
  - unfold first_char_is. rewrite bind_ret. destruct (Ascii.eqb a "#").
    + split; [reflexivity|]. left. eauto.
    + destruct (PyStr.split_ws _) as [|f1 [|f2 [|f3 [|f4 [|f5 l]]]]];
        try (split; [reflexivity|]; right; exists ValueError; split; [reflexivity | now right]).
      apply parsed_bind; [apply py_int_parsed|]. intros enb.
      apply parsed_bind; [apply py_int_parsed|]. intros hie.
      apply parsed_bind; [apply py_int_parsed|]. intros numc.
      split; [reflexivity|]. left. eauto.
Qed.

Lemma find_controllers_line_failed cs line w :
  unreadable_line line = true -> parse_failed (find_controllers_line cs line w) w.
Proof.
  unfold unreadable_line, find_controllers_line. cbv zeta.
  destruct (PyStr.strip line) as [|a r] eqn:Es; intros H.
  - split; [reflexivity|]. exists IndexError. split; [reflexivity | now left].
  - unfold first_char_is. rewrite bind_ret.
    apply andb_true_iff in H as [H1 H2]. apply negb_true_iff in H1, H2. rewrite H1.
    destruct (PyStr.split_ws _) as [|f1 [|f2 [|f3 [|f4 [|f5 l]]]]];
      try discriminate H2;
      (split; [reflexivity|]; exists ValueError; split; [reflexivity | now right]).
Qed.

Lemma find_controllers_fold ls :
  forall (acc : M (gmap string Controller)) w0 w1,
    let r := fold_left (fun acc line => bind acc (fun c => find_controllers_line c line))
               ls acc w0 in
    (parsed (acc w0) w1 -> parsed r w1) /\
    (parse_failed (acc w0) w1 -> parse_failed r w1) /\
    (parsed (acc w0) w1 ->
     (exists line, In line ls /\ unreadable_line line = true) -> parse_failed r w1).
Proof.
  induction ls as [|l ls IH]; intros acc w0 w1; cbv zeta; simpl fold_left.
  - split; [auto|]. split; [auto|]. intros _ (line & [] & _).
  - destruct (IH (bind acc (fun c => find_controllers_line c l)) w0 w1) as (IH1 & IH2 & IH3).
    split; [|split].
    + intros Hp. apply IH1. apply parsed_bind; [exact Hp|].
      intros c. apply find_controllers_line_parsed.
    + intros Hf. apply IH2. now apply failed_bind.
    + intros Hp (line & [<- | Hin] & Hbad).
      * apply IH2. apply failing_bind; [exact Hp|].
        intros c. now apply find_controllers_line_failed.
      * apply IH3; [|eauto]. apply parsed_bind; [exact Hp|].
        intros c. apply find_controllers_line_parsed.
Qed.

Lemma find_controllers_unreadable env cs w text line :
  file_data env "/proc/cgroups" (seen (Open "/proc/cgroups") w) = Some text ->
  In line (PyStr.readlines text) -> unreadable_line line = true ->
  exists e, Cgroupfs_find_controllers env cs w = (Raise e, push (Open "/proc/cgroups") w) /\
            parse_error e.
Proof.
  intros Hd Hin Hbad. unfold Cgroupfs_find_controllers.
  rewrite (bind_ok _ _ _ text (push (Open "/proc/cgroups") w))
    by (unfold open_read; now rewrite Hd).
  destruct (find_controllers_fold (PyStr.readlines text) (ret cs)
              (push (Open "/proc/cgroups") w) (push (Open "/proc/cgroups") w))
    as (_ & _ & H).
  destruct H as [Hw (e & He & Hp)].
  - split; [reflexivity|]. left. eauto.
  - eauto.
  - exists e. split; [|exact Hp].
    match goal with |- ?m = _ => destruct m as [o w'] end. simpl in *. now subst.
Qed.

(** X23.  [Cgroupfs()] reads the whole table of controllers before it
    mounts one.  When [/proc/cgroups] has a line that cannot be taken (a
    blank line, or a line that is no comment and has not exactly four
    fields), [IndexError] or [ValueError] leaves [Cgroupfs()]: the
    [tmpfs] of [/sys/fs/cgroup] has been mounted when it was missing, and
    no controller is mounted, also not those of the lines before. *)
Theorem unreadable_table_mounts_no_controller (env : Env) (w : World)
  (text line : string) :
  path_test env (IsFile "/proc/cgroups") (seen (IsFile "/proc/cgroups") w) = true ->
  path_test env (IsDir "/sys/fs/cgroup") (seen (IsDir "/sys/fs/cgroup") w) = true ->
  file_data env "/proc/cgroups" (seen (Open "/proc/cgroups") w) = Some text ->
  responsive env ->
  In line (PyStr.readlines text) -> unreadable_line line = true ->
  exists e w',
    Cgroupfs_init env w = (Raise e, w') /\ parse_error e /\
    trace w' = trace w ++
      [IsFile "/proc/cgroups"; IsDir "/sys/fs/cgroup";
       System (mountpoint_cmd "/sys/fs/cgroup")] ++
      tmpfs_calls (exit_status env (System (mountpoint_cmd "/sys/fs/cgroup"))
                     (seen (System (mountpoint_cmd "/sys/fs/cgroup")) w)) ++
      [Open "/proc/cgroups"].
Proof.
  intros H1 H2 Hd Hresp Hin Hbad.
  unfold Cgroupfs_init. cbv zeta.
  change (obj_eq (OMethod "check_fstab") (OBool true)) with false. cbv iota.
  rewrite bind_ret. unfold Cgroupfs_kernel_support, os_path_isfile.
  rewrite (bind_ok _ _ _ _ _ (eq_refl : call_test env (IsFile "/proc/cgroups") w = _)).
  rewrite H1.
  change (obj_eq (OBool true) (OBool false)) with false. cbv iota. rewrite bind_ret.
  unfold Cgroupfs_check_sysfs, os_path_isdir.
  set (w1 := push (IsFile "/proc/cgroups") w).
  rewrite (bind_ok _ _ _ _ _ (eq_refl : call_test env (IsDir "/sys/fs/cgroup") w1 = _)).
  unfold w1 at 1. rewrite seen_push_ne by discriminate. rewrite H2.
  change (obj_eq (OBool true) (OBool false)) with false. cbv iota. rewrite bind_ret.
  set (w2 := push (IsDir "/sys/fs/cgroup") w1).
  set (mp := System (mountpoint_cmd "/sys/fs/cgroup")).
  assert (Hmp : seen mp w2 = seen mp w).
  { unfold w2, w1. now rewrite !seen_push_ne by discriminate. }
  assert (Hmount : exists o w3,
    Cgroupfs_mount_cgroup env w2 = (Ok o, w3) /\
    trace w3 = trace w2 ++ [mp] ++ tmpfs_calls (exit_status env mp (seen mp w)) /\
    seen (Open "/proc/cgroups") w3 = seen (Open "/proc/cgroups") w).
  { set (tm := System " mount -t tmpfs -o uid=0,gid=0,mode=0755 cgroup /sys/fs/cgroup").
    destruct (Hresp mp (seen mp w)) as [z Hz].
    destruct (Hresp tm (seen tm (push mp w2))) as [z' Hz'].
    unfold Cgroupfs_mount_cgroup, mountpoint, os_system, bind, call_status, ret.
    change (System ("mountpoint -q " +:+ "/sys/fs/cgroup")) with mp.
    fold tm. rewrite Hmp, Hz.
    destruct (Z.eqb_spec z 0) as [-> | Hnz]; cbn [negb].
    - eexists _, _. split; [reflexivity|]. split; [reflexivity|].
      unfold w2, w1. now rewrite !seen_push_ne by discriminate.
    - rewrite Hz'.
      eexists _, _. split; [reflexivity|]. split.
      + simpl. rewrite <- app_assoc. f_equal. f_equal.
        unfold tmpfs_calls. destruct z; [contradiction | reflexivity | reflexivity].
      + unfold w2, w1. now rewrite !seen_push_ne by discriminate. }
  destruct Hmount as (o & w3 & E3 & Ht3 & Hs3).
  rewrite (bind_ok _ _ _ _ _ E3).
  rewrite <- Hs3 in Hd.
  destruct (find_controllers_unreadable env ∅ w3 text line Hd Hin Hbad) as (e & Ee & Hp).
  rewrite (bind_raise _ _ _ _ _ Ee).
  exists e, (push (Open "/proc/cgroups") w3). split; [reflexivity|]. split; [exact Hp|].
  simpl. rewrite Ht3. unfold w2, w1. simpl. rewrite <- !app_assoc. reflexivity.
Qed.

Lemma unreadable_table_mounts_no_controller_witness :
  exists e w',
    Cgroupfs_init env_cgroups_blank_line fresh_world = (Raise e, w') /\ parse_error e /\
    trace w' = trace fresh_world ++
      [IsFile "/proc/cgroups"; IsDir "/sys/fs/cgroup";
       System (mountpoint_cmd "/sys/fs/cgroup")] ++
      tmpfs_calls (exit_status env_cgroups_blank_line
                     (System (mountpoint_cmd "/sys/fs/cgroup"))
                     (seen (System (mountpoint_cmd "/sys/fs/cgroup")) fresh_world)) ++
      [Open "/proc/cgroups"].
Proof.
  apply (unreadable_table_mounts_no_controller env_cgroups_blank_line fresh_world
           (lines ["#subsys_name hierarchy num_cgroups enabled"; "cpu 0 1 1"; ""])
           (String PyStr.LF "")).
  - reflexivity.
  - reflexivity.
  - reflexivity.
  - intros c n. exists 0. reflexivity.
  - vm_compute. right. right. left. reflexivity.
  - reflexivity.
Defined.

(** The run on that kernel: the blank line gives [IndexError], after the
    line of the controller [cpu] has been read; nothing is mounted for
    [cpu]. *)
Example blank_line_run :
  (Cgroupfs_init env_cgroups_blank_line fresh_world).1 = Raise IndexError /\
  trace (Cgroupfs_init env_cgroups_blank_line fresh_world).2 =
    [IsFile "/proc/cgroups"; IsDir "/sys/fs/cgroup";
     System "mountpoint -q /sys/fs/cgroup"; Open "/proc/cgroups"].
Proof. split; vm_compute; reflexivity. Qed.
